(** * TeachIn record store: tables, schema migration, bootstrap, login

    A shallow embedding of [hi.py].  The program keeps four CSV tables
    under [data/] and goes through pandas for every access, so the
    development has two layers:

    - the pandas layer ([Pd], over [Py], [Np] and [Field]): what
      [pd.read_csv], [DataFrame.to_csv], column typing, boolean masks and
      the [.str] accessor do on the values this program hands them;
    - the program layer: [initialize_system], [authenticate],
      [show_login], [save_course] and [admin_dashboard], written
      statement for statement over the pandas layer, in a monad of
      statements that change the world and return or raise.

    Scope of the pandas layer.  A file is the list of its lines, each a
    list of text fields (quoting and line ends are below this level);
    blank lines are skipped and the first line left is the header.  Text
    is ASCII.  A column is read as [int64] when every field is an integer
    literal, as [float64] when every field is an integer literal, an
    integral decimal such as [2.0], or a missing-value marker, and as
    [object] otherwise; fractional and exponent literals and booleans are
    not told apart from text.  Header names are kept as they are (pandas
    renames repeated ones), and a record longer than the header is an
    error (pandas takes the surplus leading fields of a first record for
    an index).  Integers are taken to fit the 64-bit range when read;
    [max() + 1] wraps as numpy's scalar addition does.  [astype(str)]
    turns a missing value into ["nan"], as pandas 2 does.  The wording of
    exception messages is not that of pandas.  Theorems that depend on
    the reader telling text from numbers, or on the letters and blanks
    outside ASCII, state this scope as a hypothesis ([covered]). *)

From Stdlib Require Import ZArith List String Ascii Bool Lia.
From Stdlib Require Import Decimal DecimalString DecimalZ DecimalPos.
From stdpp Require Import base option list strings gmap.

Open Scope string_scope.
Open Scope list_scope.
Open Scope Z_scope.

(* ===================================================================== *)
(** ** Python strings *)
(* ===================================================================== *)

Module Py.

(** [str.isspace] on the ASCII range: TAB, LF, VT, FF, CR, FS..US, SPACE. *)
Definition is_space (c : ascii) : bool :=
  let n := N_of_ascii c in
  ((9 <=? n)%N && (n <=? 13)%N) || ((28 <=? n)%N && (n <=? 32)%N).

Fixpoint lstrip (s : string) : string :=
  match s with
  | EmptyString => EmptyString
  | String c s' => if is_space c then lstrip s' else s
  end.

Fixpoint rstrip (s : string) : string :=
  match s with
  | EmptyString => EmptyString
  | String c s' =>
      match rstrip s' with
      | EmptyString => if is_space c then EmptyString else String c EmptyString
      | t => String c t
      end
  end.

(** [s.strip()] *)
Definition strip (s : string) : string := rstrip (lstrip s).

Definition lower_char (c : ascii) : ascii :=
  let n := N_of_ascii c in
  if (65 <=? n)%N && (n <=? 90)%N then ascii_of_N (n + 32) else c.

(** [s.lower()] *)
Fixpoint lower (s : string) : string :=
  match s with
  | EmptyString => EmptyString
  | String c s' => String (lower_char c) (lower s')
  end.

(** Truth value of a string: [bool(s)]. *)
Definition truthy (s : string) : bool :=
  match s with EmptyString => false | _ => true end.

(** [str(n)] for an integer. *)
Definition str_int (z : Z) : string := NilZero.string_of_int (Z.to_int z).

(** [repr] of a float with an integral value, [2.0] for 2. *)
Definition str_float (z : Z) : string := str_int z +:+ ".0".

End Py.

(* ===================================================================== *)
(** ** Numbers as numpy has them *)
(* ===================================================================== *)

Module Np.

Definition int64_modulus : Z := 2 ^ 64.
Definition int64_max : Z := 2 ^ 63 - 1.
Definition int64_min : Z := - 2 ^ 63.

(** Two's-complement reduction of an integer to [int64]. *)
Definition wrap64 (z : Z) : Z :=
  (z + 2 ^ 63) mod int64_modulus - 2 ^ 63.

(** [np.int64(a) + b] *)
Definition add64 (a b : Z) : Z := wrap64 (a + b).

End Np.

(* ===================================================================== *)
(** ** Fields of a CSV file as the pandas reader classifies them *)
(* ===================================================================== *)

Module Field.

(** The reader's default missing-value markers. *)
Definition na_values : list string :=
  [ ""; "#N/A"; "#N/A N/A"; "#NA"; "-1.#IND"; "-1.#QNAN"; "-NaN"; "-nan";
    "1.#IND"; "1.#QNAN"; "<NA>"; "N/A"; "NA"; "NULL"; "NaN"; "None";
    "n/a"; "nan"; "null" ].

Definition is_na (s : string) : bool :=
  existsb (String.eqb s) na_values.

(** White space the C tokenizer skips around a number. *)
Definition is_cspace (c : ascii) : bool :=
  let n := N_of_ascii c in
  ((9 <=? n)%N && (n <=? 13)%N) || (n =? 32)%N.

Fixpoint skip_front (s : string) : string :=
  match s with
  | EmptyString => EmptyString
  | String c s' => if is_cspace c then skip_front s' else s
  end.

Fixpoint skip_back (s : string) : string :=
  match s with
  | EmptyString => EmptyString
  | String c s' =>
      match skip_back s' with
      | EmptyString => if is_cspace c then EmptyString else String c EmptyString
      | t => String c t
      end
  end.

Definition trim (s : string) : string := skip_back (skip_front s).

(** One or more decimal digits. *)
Definition digits (s : string) : option Z :=
  Z.of_uint <$> NilZero.uint_of_string s.

(** An optional sign, then digits. *)
Definition signed (s : string) : option Z :=
  match s with
  | String c d =>
      if Ascii.eqb c "-" then Z.opp <$> digits d
      else if Ascii.eqb c "+" then digits d
      else digits s
  | EmptyString => None
  end.

Definition int_literal (s : string) : option Z := signed (trim s).

(** [split_dot s] cuts [s] at its first full stop. *)
Fixpoint split_dot (s : string) : option (string * string) :=
  match s with
  | EmptyString => None
  | String c s' =>
      if Ascii.eqb c "." then Some (EmptyString, s')
      else prod_map (String c) id <$> split_dot s'
  end.

Fixpoint all_zero (s : string) : bool :=
  match s with
  | EmptyString => true
  | String c s' => Ascii.eqb c "0" && all_zero s'
  end.

(** The decimals with an integral value: sign, digits, a full stop and
    zeros only. *)
Definition float_literal (s : string) : option Z :=
  match split_dot (trim s) with
  | Some (a, b) => if all_zero b then signed a else None
  | None => None
  end.

Inductive token :=
  | TNa
  | TInt (z : Z)
  | TFloat (z : Z)
  | TText.

Definition classify (s : string) : token :=
  if is_na s then TNa
  else match int_literal s with
       | Some z => TInt z
       | None =>
           match float_literal s with
           | Some z => TFloat z
           | None => TText
           end
       end.

Definition is_int (t : token) : bool :=
  match t with TInt _ => true | _ => false end.

Definition is_numeric (t : token) : bool :=
  match t with TText => false | _ => true end.

Definition int_value (t : token) : Z :=
  match t with TInt z | TFloat z => z | _ => 0 end.

Definition float_value (t : token) : option Z :=
  match t with TInt z | TFloat z => Some z | _ => None end.

End Field.


(* ===================================================================== *)
(** ** The pandas layer *)
(* ===================================================================== *)

Module Pd.

(** Exceptions the program can meet.  It only ever catches [Exception],
    so the class matters for the message alone. *)
Inductive exn :=
  | FileNotFoundError (path : string)
  | EmptyDataError
  | ParserError
  | KeyError (key : string)
  | AttributeError
  | TypeError
  | ValueError.

Inductive result (A : Type) :=
  | Ok (a : A)
  | Raise (e : exn).
Arguments Ok {A} a.
Arguments Raise {A} e.

Definition bind {A B} (r : result A) (k : A → result B) : result B :=
  match r with
  | Ok a => k a
  | Raise e => Raise e
  end.

(** The text of a CSV file: its lines, each cut into fields.  A blank
    line is the line with no field. *)
Definition csv : Type := list (list string).

(** A column with its dtype.  [None] is the missing value. *)
Inductive Series :=
  | SInt (l : list Z)
  | SFloat (l : list (option Z))
  | SObj (l : list (option string)).

(** Columns in order, and the length of the row index. *)
Record DataFrame := { columns : list (string * Series); index : nat }.

(** A Python value put in a cell or taken out of one. *)
Inductive scalar :=
  | VInt (z : Z)
  | VFloat (x : option Z)
  | VStr (s : string)
  | VNone.

Definition size (s : Series) : nat :=
  match s with
  | SInt l => length l
  | SFloat l => length l
  | SObj l => length l
  end.

(** The value at position [i] of a column. *)
Definition item (s : Series) (i : nat) : option scalar :=
  match s with
  | SInt l => VInt <$> l !! i
  | SFloat l => VFloat <$> l !! i
  | SObj l => (λ o, match o with Some t => VStr t | None => VFloat None end) <$> l !! i
  end.

(** *** Reading *)

(** Column typing over the fields of one column. *)
Definition infer (fields : list string) : Series :=
  match fields with
  | [] => SObj []
  | _ =>
      let ts := Field.classify <$> fields in
      if forallb Field.is_int ts then SInt (Field.int_value <$> ts)
      else if forallb Field.is_numeric ts then SFloat (Field.float_value <$> ts)
      else SObj ((λ f, if Field.is_na f then None else Some f) <$> fields)
  end.

Definition is_blank (r : list string) : bool :=
  match r with [] => true | _ => false end.

(** The field of record [r] under column [j]; a short record is padded
    with missing fields. *)
Definition field_at (j : nat) (r : list string) : string := default "" (r !! j).

(** The frame under a header: one typed column per header name. *)
Definition frame_of (header : list string) (recs : list (list string)) : DataFrame :=
  {| columns := imap (λ j name, (name, infer (field_at j <$> recs))) header;
     index := length recs |}.

(** [pd.read_csv] on the text of a file: blank lines are skipped, the
    first line left is the header, and a record longer than the header
    is an error. *)
Definition parse (f : csv) : result DataFrame :=
  match filter (λ r, is_blank r = false) f with
  | [] => Raise EmptyDataError
  | header :: recs =>
      if existsb (λ r, (length header <? length r)%nat) recs
      then Raise ParserError
      else Ok (frame_of header recs)
  end.

(** *** Writing *)

(** How [to_csv] prints the cells of a column. *)
Definition render (s : Series) : list string :=
  match s with
  | SInt l => Py.str_int <$> l
  | SFloat l => (λ o, match o with Some z => Py.str_float z | None => "" end) <$> l
  | SObj l => default "" <$> l
  end.

(** The records [to_csv(index=False)] writes, one per row of the frame. *)
Definition to_records (df : DataFrame) : list (list string) :=
  (λ i, (λ c, default "" (render c.2 !! i)) <$> columns df) <$> seq 0 (index df).

(** The text [df.to_csv(path, index=False, header=h)] writes. *)
Definition to_csv (df : DataFrame) (h : bool) : csv :=
  (if h then [fst <$> columns df] else []) ++ to_records df.

(** *** Building frames *)

Definition series_of (v : scalar) : Series :=
  match v with
  | VInt z => SInt [z]
  | VFloat x => SFloat [x]
  | VStr s => SObj [Some s]
  | VNone => SObj [None]
  end.

(** [pd.DataFrame([{k1: v1, ...}])]: one row, columns in the order of the
    dictionary. *)
Definition from_record (r : list (string * scalar)) : DataFrame :=
  {| columns := prod_map id series_of <$> r; index := 1 |}.

(** [pd.DataFrame(columns=names)]: no row. *)
Definition from_columns (names : list string) : DataFrame :=
  {| columns := (λ n, (n, SObj [])) <$> names; index := 0 |}.

(** *** Access *)

(** [df.columns] *)
Definition names (df : DataFrame) : list string := fst <$> columns df.

Fixpoint find_column (name : string) (cols : list (string * Series)) : option Series :=
  match cols with
  | [] => None
  | (n, s) :: rest => if String.eqb n name then Some s else find_column name rest
  end.

(** [df[name]] *)
Definition getitem (df : DataFrame) (name : string) : result Series :=
  match find_column name (columns df) with
  | Some s => Ok s
  | None => Raise (KeyError name)
  end.

Fixpoint replace_column (name : string) (s : Series) (cols : list (string * Series))
  : list (string * Series) :=
  match cols with
  | [] => []
  | (n, s0) :: rest =>
      if String.eqb n name then (n, s) :: rest
      else (n, s0) :: replace_column name s rest
  end.

(** [df[name] = s]: in place when the column exists, else a new last
    column. *)
Definition setitem (df : DataFrame) (name : string) (s : Series) : DataFrame :=
  match find_column name (columns df) with
  | Some _ => {| columns := replace_column name s (columns df); index := index df |}
  | None => {| columns := columns df ++ [(name, s)]; index := index df |}
  end.

(** [df[name] = None] *)
Definition setitem_none (df : DataFrame) (name : string) : DataFrame :=
  setitem df name (SObj (replicate (index df) None)).

(** [df.empty]: some axis has length zero. *)
Definition empty (df : DataFrame) : bool :=
  match columns df with
  | [] => true
  | _ => (index df =? 0)%nat
  end.

(** *** Element-wise operations *)

(** [series == text] *)
Definition eq_text (s : Series) (x : string) : list bool :=
  match s with
  | SInt l => (λ _, false) <$> l
  | SFloat l => (λ _, false) <$> l
  | SObj l => (λ o, match o with Some t => String.eqb t x | None => false end) <$> l
  end.

(** The [.str] accessor exists on object columns only. *)
Definition str (s : Series) : result (list (option string)) :=
  match s with
  | SObj l => Ok l
  | _ => Raise AttributeError
  end.

(** [.str.strip()], [.str.lower()] and [== text] on the result of [.str]. *)
Definition str_strip (l : list (option string)) : list (option string) :=
  (λ o : option string, Py.strip <$> o) <$> l.
Definition str_lower (l : list (option string)) : list (option string) :=
  (λ o : option string, Py.lower <$> o) <$> l.
Definition eq_str (l : list (option string)) (x : string) : list bool :=
  (λ o, match o with Some t => String.eqb t x | None => false end) <$> l.

(** [str(v)] of a cell, a missing value giving ["nan"]. *)
Definition str_of (v : scalar) : string :=
  match v with
  | VInt z => Py.str_int z
  | VFloat (Some z) => Py.str_float z
  | VFloat None => "nan"
  | VStr s => s
  | VNone => "None"
  end.

(** [series.astype(str)] *)
Definition astype_str (s : Series) : list (option string) :=
  match s with
  | SInt l => (λ z, Some (str_of (VInt z))) <$> l
  | SFloat l => (λ x, Some (str_of (VFloat x))) <$> l
  | SObj l => (λ o, Some (match o with Some t => t | None => str_of (VFloat None) end)) <$> l
  end.

(** [a & b] on masks *)
Definition mask_and (a b : list bool) : list bool := zip_with andb a b.

Fixpoint select {A} (m : list bool) (l : list A) : list A :=
  match m, l with
  | b :: m', x :: l' => if b then x :: select m' l' else select m' l'
  | _, _ => []
  end.

Definition select_series (m : list bool) (s : Series) : Series :=
  match s with
  | SInt l => SInt (select m l)
  | SFloat l => SFloat (select m l)
  | SObj l => SObj (select m l)
  end.

(** [df[mask]] *)
Definition where_ (df : DataFrame) (m : list bool) : DataFrame :=
  {| columns := prod_map id (select_series m) <$> columns df;
     index := length (select m (seq 0 (index df))) |}.

(** [series.any()]: some value that is present is true. *)
Definition any (s : Series) : bool :=
  match s with
  | SInt l => existsb (λ z, negb (z =? 0)) l
  | SFloat l => existsb (λ x, match x with Some z => negb (z =? 0) | None => false end) l
  | SObj l => existsb (λ o, match o with Some t => Py.truthy t | None => false end) l
  end.

(** [df.any().any()] *)
Definition any_any (df : DataFrame) : bool :=
  existsb (λ c, any c.2) (columns df).

Definition list_max (z : Z) (l : list Z) : Z := fold_left Z.max l z.

(** [series.max()]: missing values are skipped; text does not order with
    numbers or add to them, and the program always adds one to the
    result, so an object column is cut short here. *)
Definition max (s : Series) : result scalar :=
  match s with
  | SInt [] => Ok (VFloat None)
  | SInt (z :: l) => Ok (VInt (list_max z l))
  | SFloat l =>
      match omap id l with
      | [] => Ok (VFloat None)
      | z :: l' => Ok (VFloat (Some (list_max z l')))
      end
  | SObj [] => Ok (VFloat None)
  | SObj _ => Raise TypeError
  end.

(** [v + 1] *)
Definition add_one (v : scalar) : result scalar :=
  match v with
  | VInt z => Ok (VInt (Np.add64 z 1))
  | VFloat x => Ok (VFloat ((λ z, z + 1) <$> x))
  | _ => Raise TypeError
  end.

(** [series.astype(int)]: a missing value does not convert, and text
    that the reader did not take for a number is taken not to convert
    either. *)
Definition astype_int (s : Series) : result Series :=
  match s with
  | SInt l => Ok (SInt l)
  | SFloat l =>
      match mapM id l with
      | Some zs => Ok (SInt zs)
      | None => Raise ValueError
      end
  | SObj [] => Ok (SInt [])
  | SObj _ => Raise ValueError
  end.

End Pd.

(* ===================================================================== *)
(** ** The program *)
(* ===================================================================== *)

(** *** File configuration *)

Definition DATA_DIR : string := "data".
Definition USERS_FILE : string := DATA_DIR +:+ "/users.csv".
Definition COURSES_FILE : string := DATA_DIR +:+ "/courses.csv".
Definition ASSIGNMENTS_FILE : string := DATA_DIR +:+ "/assignments.csv".
Definition SUBMISSIONS_FILE : string := DATA_DIR +:+ "/submissions.csv".

Arguments USERS_FILE : simpl never.
Arguments COURSES_FILE : simpl never.
Arguments ASSIGNMENTS_FILE : simpl never.
Arguments SUBMISSIONS_FILE : simpl never.

(** The dictionary, in insertion order, which is the order of iteration. *)
Definition REQUIRED_STRUCTURE : list (string * list string) :=
  [ (USERS_FILE, ["user_id"; "username"; "password"; "role"; "created_at"]);
    (COURSES_FILE,
     ["course_id"; "course_name"; "description"; "instructor";
      "schedule"; "created_at"; "enrollment_status";
      "image_path"; "youtube_link"]);
    (ASSIGNMENTS_FILE,
     ["assignment_id"; "course_id"; "title"; "description";
      "due_date"; "max_points"; "created_at"]);
    (SUBMISSIONS_FILE,
     ["submission_id"; "assignment_id"; "student_username";
      "submission_date"; "status"; "grade"; "feedback"]) ].

(** *** The world the program runs in *)

(** [st.session_state.auth] *)
Record session := {
  logged_in : bool;
  role : option string;
  username : option string
}.

(** What the program puts on the page that the properties look at: the
    messages and the control requests, oldest first.  Layout is left out.
    [st.stop()] and [st.rerun()] end the run of the script; they are the
    last thing their statement does and are recorded here. *)
Inductive ui :=
  | st_error (msg : string)
  | st_success (msg : string)
  | st_dataframe (df : Pd.DataFrame)
  | st_balloons
  | st_rerun
  | st_stop.

Record world := {
  files : gmap string Pd.csv;       (* the tables, by path *)
  uploads : gmap string string;     (* other files written, by path *)
  auth : session;
  screen : list ui
}.

Definition set_files (fs : gmap string Pd.csv) (w : world) : world :=
  {| files := fs; uploads := uploads w; auth := auth w; screen := screen w |}.
Definition set_uploads (up : gmap string string) (w : world) : world :=
  {| files := files w; uploads := up; auth := auth w; screen := screen w |}.
Definition set_auth (a : session) (w : world) : world :=
  {| files := files w; uploads := uploads w; auth := a; screen := screen w |}.
Definition show (e : ui) (w : world) : world :=
  {| files := files w; uploads := uploads w; auth := auth w; screen := screen w ++ [e] |}.

(** Statements: they change the world and return or raise. *)
Definition M (A : Type) : Type := world → world * Pd.result A.

Definition raise {A} (e : Pd.exn) : M A := λ w, (w, Pd.Raise e).
Definition lift {A} (r : Pd.result A) : M A := λ w, (w, r).
Definition get : M world := λ w, (w, Pd.Ok w).
Definition modify (f : world → world) : M unit := λ w, (f w, Pd.Ok tt).

#[global] Instance M_ret : MRet M := λ A a w, (w, Pd.Ok a).
#[global] Instance M_bind : MBind M := λ A B k m w,
  match m w with
  | (w', Pd.Ok a) => k a w'
  | (w', Pd.Raise e) => (w', Pd.Raise e)
  end.

(** [try: body except Exception as e: handler(e)] *)
Definition try_except {A} (body : M A) (handler : Pd.exn → M A) : M A :=
  λ w, match body w with
       | (w', Pd.Ok a) => (w', Pd.Ok a)
       | (w', Pd.Raise e) => handler e w'
       end.

(** [for x in l: body(x)] *)
Fixpoint for_each {A} (l : list A) (body : A → M unit) : M unit :=
  match l with
  | [] => mret tt
  | x :: rest => body x ;; for_each rest body
  end.

(** [str(e)], the text of an exception in a message. *)
Definition exn_str (e : Pd.exn) : string :=
  match e with
  | Pd.FileNotFoundError path => "No such file or directory: " +:+ path
  | Pd.EmptyDataError => "No columns to parse from file"
  | Pd.ParserError => "Error tokenizing data"
  | Pd.KeyError k => k
  | Pd.AttributeError => "Can only use .str accessor with string values!"
  | Pd.TypeError => "unsupported operand type(s)"
  | Pd.ValueError => "cannot convert to integer"
  end.

(** *** Files *)

(** [os.path.exists(path)] *)
Definition path_exists (path : string) : M bool :=
  w ← get; mret (bool_decide (is_Some (files w !! path))).

(** [pd.read_csv(path)] *)
Definition read_csv (path : string) : M Pd.DataFrame :=
  w ← get;
  match files w !! path with
  | None => raise (Pd.FileNotFoundError path)
  | Some f => lift (Pd.parse f)
  end.

(** [df.to_csv(path, index=False)]: the file is replaced. *)
Definition to_csv (df : Pd.DataFrame) (path : string) : M unit :=
  modify (λ w, set_files (<[path := Pd.to_csv df true]> (files w)) w).

(** [df.to_csv(path, mode='a', header=h, index=False)]: the lines go
    after those the file has; a file that is not there starts with them. *)
Definition to_csv_append (df : Pd.DataFrame) (path : string) (h : bool) : M unit :=
  modify (λ w, set_files
    (<[path := default [] (files w !! path) ++ Pd.to_csv df h]> (files w)) w).

(** [datetime.now().strftime("%Y-%m-%d %H:%M:%S")]: the clock is an
    argument of the statements that read it. *)
Definition timestamp : Type := string.

(** *** System initialization *)

(** [[col for col in columns if col not in df.columns]] *)
Definition missing_columns (df : Pd.DataFrame) (columns : list string) : list string :=
  filter (λ col, bool_decide (col ∈ Pd.names df) = false) columns.

(** The body of the loop of [initialize_system] for one table: create
    the file with its header, or add the columns it lacks. *)
Definition ensure_schema (file_path : string) (columns : list string) : M unit :=
  there ← path_exists file_path;
  if negb there then
    to_csv (Pd.from_columns columns) file_path
  else
    df ← read_csv file_path;
    (* Check for missing columns *)
    let missing_cols := missing_columns df columns in
    match missing_cols with
    | [] => mret tt
    | _ =>
        (* Add missing columns with null values *)
        let df := foldl Pd.setitem_none df missing_cols in
        (* Save updated version *)
        to_csv df file_path
    end.

(** [users.empty or not users[users['role'] == 'admin'].any().any()] *)
Definition no_admin (users : Pd.DataFrame) : Pd.result bool :=
  if Pd.empty users then Pd.Ok true
  else
    Pd.bind (Pd.getitem users "role") (λ role,
      Pd.Ok (negb (Pd.any_any (Pd.where_ users (Pd.eq_text role "admin"))))).

Definition default_admin (now : timestamp) : list (string * Pd.scalar) :=
  [ ("user_id", Pd.VInt 1);
    ("username", Pd.VStr "admin");
    ("password", Pd.VStr "admin123");
    ("role", Pd.VStr "admin");
    ("created_at", Pd.VStr now) ].

(** The loop of [initialize_system] over the registry. *)
Definition migrate : M unit :=
  for_each REQUIRED_STRUCTURE (λ entry, ensure_schema entry.1 entry.2).

Definition initialize_system (now : timestamp) : M unit :=
  try_except
    ((* os.makedirs(DATA_DIR, exist_ok=True): paths are flat here *)
     migrate;;
     (* Create default admin if none exists *)
     users ← read_csv USERS_FILE;
     missing ← lift (no_admin users);
     if missing : bool then
       let new_admin := Pd.from_record (default_admin now) in
       there ← path_exists USERS_FILE;
       to_csv_append new_admin USERS_FILE (negb there)
     else mret tt)
    (λ e,
     modify (show (st_error ("System initialization failed: " +:+ exn_str e)));;
     modify (show st_stop)).

(** *** Authentication *)

(** The selection of [authenticate]: the rows whose three fields match. *)
Definition credentials_mask (users : Pd.DataFrame) (username password role : string)
  : Pd.result (list bool) :=
  Pd.bind (Pd.getitem users "username") (λ u,
  Pd.bind (Pd.str u) (λ us,
  let m1 := Pd.eq_str (Pd.str_lower (Pd.str_strip us)) (Py.lower (Py.strip username)) in
  Pd.bind (Pd.getitem users "password") (λ p,
  let m2 := Pd.eq_str (Pd.str_strip (Pd.astype_str p)) (Py.strip password) in
  Pd.bind (Pd.getitem users "role") (λ r,
  Pd.bind (Pd.str r) (λ rs,
  let m3 := Pd.eq_str (Pd.str_lower (Pd.str_strip rs)) (Py.lower (Py.strip role)) in
  Pd.Ok (Pd.mask_and (Pd.mask_and m1 m2) m3)))))).

(** The [try] block of [authenticate]. *)
Definition authenticate_body (username password role : string) : M bool :=
  users ← read_csv USERS_FILE;
  if Pd.empty users then mret false
  else
    m ← lift (credentials_mask users username password role);
    let user := Pd.where_ users m in
    mret (negb (Pd.empty user)).

Definition authenticate (username password role : string) : M bool :=
  try_except
    (authenticate_body username password role)
    (λ e,
     modify (show (st_error ("Authentication error: " +:+ exn_str e)));;
     mret false).

(** The submit handler of the login form. *)
Definition show_login (role_ username_ password : string) : M unit :=
  ok ← authenticate username_ password role_;
  if ok : bool then
    modify (set_auth {| logged_in := true;
                        role := Some (Py.lower role_);
                        username := Some username_ |});;
    modify (show st_rerun)
  else
    modify (show (st_error "Invalid credentials or permissions")).

(** *** Courses *)

(** An uploaded file: its name and its bytes. *)
Definition upload : Type := (string * string)%type.

(** The identifier [save_course] gives the next course. *)
Definition next_course_id (courses : Pd.DataFrame) : Pd.result Pd.scalar :=
  (* Convert course_id to integers if not empty *)
  if negb (Pd.empty courses) then
    Pd.bind (Pd.getitem courses "course_id") (λ c,
    Pd.bind (Pd.astype_int c) (λ c,
    let courses := Pd.setitem courses "course_id" c in
    Pd.bind (Pd.getitem courses "course_id") (λ c,
    Pd.bind (Pd.max c) Pd.add_one)))
  else Pd.Ok (Pd.VInt 1).

Definition option_scalar (o : option string) : Pd.scalar :=
  match o with Some s => Pd.VStr s | None => Pd.VNone end.

Definition new_course_record (new_id : Pd.scalar) (name desc : string)
    (instructor : option string) (schedule status yt_link img_path : string)
    (now : timestamp) : list (string * Pd.scalar) :=
  [ ("course_id", new_id);
    ("course_name", Pd.VStr name);
    ("description", Pd.VStr desc);
    ("instructor", option_scalar instructor);
    ("schedule", Pd.VStr schedule);
    ("enrollment_status", Pd.VStr status);
    ("youtube_link", Pd.VStr yt_link);
    ("image_path", Pd.VStr img_path);
    ("created_at", Pd.VStr now) ].

Definition save_course (now : timestamp) (name desc schedule status : string)
    (image : option upload) (yt_link : string) : M unit :=
  try_except
    (courses ← read_csv COURSES_FILE;
     new_id ← lift (next_course_id courses);
     (* Handle image upload *)
     img_path ←
       match image with
       | Some (image_name, buffer) =>
           let img_path :=
             "uploads/course_images/" +:+ Pd.str_of new_id +:+ "_" +:+ image_name in
           modify (λ w, set_uploads (<[img_path := buffer]> (uploads w)) w);;
           mret img_path
       | None => mret ""
       end;
     (* Create course entry *)
     w ← get;
     let new_course :=
       Pd.from_record
         (new_course_record new_id name desc (username (auth w))
            schedule status yt_link img_path now) in
     to_csv_append new_course COURSES_FILE false;;
     modify (show (st_success "Course published successfully!"));;
     modify (show st_balloons))
    (λ e, modify (show (st_error ("Error saving course: " +:+ exn_str e)))).

(** *** User management *)

(** The widgets of the admin page as the run of the script reads them. *)
Record user_form := {
  choice : string;
  new_username : string;
  new_role : string;
  new_password : string;
  confirm_password : string;
  create_user : bool      (* the Create User button was pressed *)
}.

(** [users[[n1, n2, ...]]] *)
Fixpoint getitems (df : Pd.DataFrame) (names : list string)
  : Pd.result (list (string * Pd.Series)) :=
  match names with
  | [] => Pd.Ok []
  | n :: rest =>
      Pd.bind (Pd.getitem df n) (λ s,
      Pd.bind (getitems df rest) (λ cols, Pd.Ok ((n, s) :: cols)))
  end.

(** [new_username.lower() in users['username'].str.lower().values] *)
Definition username_taken (users : Pd.DataFrame) (new_username : string)
  : Pd.result bool :=
  Pd.bind (Pd.getitem users "username") (λ u,
  Pd.bind (Pd.str u) (λ us,
  Pd.Ok (existsb id (Pd.eq_str (Pd.str_lower us) (Py.lower new_username))))).

(** [users['user_id'].max() + 1 if not users.empty else 1] *)
Definition next_user_id (users : Pd.DataFrame) : Pd.result Pd.scalar :=
  if negb (Pd.empty users) then
    Pd.bind (Pd.getitem users "user_id") (λ c,
    Pd.bind (Pd.max c) Pd.add_one)
  else Pd.Ok (Pd.VInt 1).

Definition new_user_record (user_id : Pd.scalar) (f : user_form) (now : timestamp)
  : list (string * Pd.scalar) :=
  [ ("user_id", user_id);
    ("username", Pd.VStr (Py.strip (new_username f)));
    ("password", Pd.VStr (new_password f));
    ("role", Pd.VStr (Py.lower (new_role f)));
    ("created_at", Pd.VStr now) ].

(** Nothing is caught here: an exception ends the run of the script. *)
Definition admin_dashboard (now : timestamp) (f : user_form) : M unit :=
  if String.eqb (choice f) "User Management" then
    (* Show existing users *)
    users ← read_csv USERS_FILE;
    shown ← lift (getitems users ["username"; "role"; "created_at"]);
    modify (show (st_dataframe {| Pd.columns := shown; Pd.index := Pd.index users |}));;
    (* Add new user form *)
    if create_user f then
      (* Validation checks *)
      if negb (forallb Py.truthy [new_username f; new_password f; confirm_password f]) then
        modify (show (st_error "Please fill all required fields (*)"))
      else if negb (String.eqb (new_password f) (confirm_password f)) then
        modify (show (st_error "Passwords do not match!"))
      else
        taken ← lift (username_taken users (new_username f));
        if taken : bool then
          modify (show (st_error "Username already exists!"))
        else
          (* Create new user *)
          user_id ← lift (next_user_id users);
          let new_user := Pd.from_record (new_user_record user_id f now) in
          (* Save to CSV *)
          to_csv_append new_user USERS_FILE false;;
          modify (show (st_success ("User " +:+ new_username f +:+ " created successfully!")));;
          modify (show st_rerun)
    else mret tt
  else mret tt.

(* ===================================================================== *)
(** ** Vocabulary of the statements *)
(* ===================================================================== *)

(** Characters of a printed number: digits, the sign and the full stop. *)
Definition num_char (c : ascii) : bool :=
  let n := N_of_ascii c in
  ((48 <=? n)%N && (n <=? 57)%N) || (n =? 45)%N || (n =? 46)%N.

Definition digit_char (c : ascii) : bool :=
  let n := N_of_ascii c in (48 <=? n)%N && (n <=? 57)%N.

Fixpoint all_chars (p : ascii → bool) (s : string) : bool :=
  match s with
  | EmptyString => true
  | String c s' => p c && all_chars p s'
  end.

(** A cell of a [float64] column as [to_csv] prints it. *)
Definition render_float (o : option Z) : string :=
  match o with Some z => Py.str_float z | None => "" end.


(** Every column of a frame is as long as its row index. *)
Definition well_formed (df : Pd.DataFrame) : Prop :=
  Forall (λ c : string * Pd.Series, Pd.size c.2 = Pd.index df) (Pd.columns df).

(** What a statement returns or raises, and the world it leaves. *)
Definition outcome {A} (m : M A) (w : world) : Pd.result A := (m w).2.
Definition after {A} (m : M A) (w : world) : world := (m w).1.

(** The table at [path] as the program sees it. *)
Definition table (path : string) (w : world) : Pd.result Pd.DataFrame :=
  outcome (read_csv path) w.

(** Row [i] of the Users table carries the credentials: its username and
    role are text equal to the input after trimming and lower-casing,
    and its password, printed as text and trimmed, is the trimmed input. *)
Definition stored_match (users : Pd.DataFrame) (i : nat)
    (username password role : string) : Prop :=
  ∃ u p r su pv sr,
    Pd.getitem users "username" = Pd.Ok u ∧ Pd.item u i = Some (Pd.VStr su) ∧
    Pd.getitem users "password" = Pd.Ok p ∧ Pd.item p i = Some pv ∧
    Pd.getitem users "role" = Pd.Ok r ∧ Pd.item r i = Some (Pd.VStr sr) ∧
    Py.lower (Py.strip su) = Py.lower (Py.strip username) ∧
    Py.strip (Pd.str_of pv) = Py.strip password ∧
    Py.lower (Py.strip sr) = Py.lower (Py.strip role).

(* ===================================================================== *)
(** ** Worlds used in the examples *)
(* ===================================================================== *)

Definition logged_out : session :=
  {| logged_in := false; role := None; username := None |}.

(** Nothing on disk, nobody logged in. *)
Definition empty_store : world :=
  {| files := ∅; uploads := ∅; auth := logged_out; screen := [] |}.

Definition users_header : list string :=
  ["user_id"; "username"; "password"; "role"; "created_at"].

(** A store whose only file is a Users table with the given records. *)
Definition users_store (recs : list (list string)) : world :=
  set_files (<[USERS_FILE := users_header :: recs]> ∅) empty_store.

(** The first run of the program on an empty store, an administrator
    adding a teacher, the teacher logging in and publishing two courses. *)
Definition booted : world :=
  after (initialize_system "2024-03-01 09:00:00") empty_store.

Definition teacher_form : user_form :=
  {| choice := "User Management"; new_username := "tina"; new_role := "Teacher";
     new_password := "chalk"; confirm_password := "chalk"; create_user := true |}.

Definition staffed : world :=
  after (admin_dashboard "2024-03-01 09:05:00" teacher_form)
    (after (show_login "Admin" "admin" "admin123") booted).

Definition teaching : world :=
  after (show_login "Teacher" "tina" "chalk") staffed.

Definition first_course : world :=
  after (save_course "2024-03-01 09:10:00" "Intro" "First steps" "Mon 10-11"
           "Open" None "") teaching.

Definition second_course : world :=
  after (save_course "2024-03-01 09:20:00" "Algebra" "Groups and rings"
           "Tue 14-15" "Closed" None "") first_course.

(** A store where the only administrator was entered with a capital. *)
Definition capital_admin : world :=
  users_store [["1"; "root"; "secret"; "Admin"; "2024-01-01 08:00:00"]].

(** Stores whose administrator row was removed by hand. *)
Definition staff_only : world :=
  users_store [["2"; "tina"; "chalk"; "teacher"; "2024-01-01 08:00:00"];
               ["3"; "sam"; "slate"; "student"; "2024-01-02 08:00:00"]].

Definition teacher_only : world :=
  users_store [["1"; "tina"; "chalk"; "teacher"; "2024-01-01 08:00:00"]].

(** The row the specification's examples are checked against. *)
Definition stored_admin : world :=
  users_store [["1"; "admin"; "admin123"; "admin"; "2024-01-01 08:00:00"]].


(** The message the user form shows when it refuses a name that is
    taken: the checks run in this order. *)
Definition refusal (f : user_form) : string :=
  if negb (forallb Py.truthy [new_username f; new_password f; confirm_password f])
  then "Please fill all required fields (*)"
  else if negb (String.eqb (new_password f) (confirm_password f))
  then "Passwords do not match!"
  else "Username already exists!".

(** A form that asks for a user called [ADMIN]. *)
Definition shouting_form : user_form :=
  {| choice := "User Management"; new_username := "ADMIN"; new_role := "Student";
     new_password := "pw"; confirm_password := "pw"; create_user := true |}.

(** A column of [n] missing values as the reader types it. *)
Definition null_column (n : nat) : Pd.Series :=
  match n with
  | O => Pd.SObj []
  | _ => Pd.SFloat (replicate n None)
  end.

(** The frame with the same rows and the columns [extra] added at the
    end, holding no value. *)
Definition with_null_columns (df : Pd.DataFrame) (extra : list string) : Pd.DataFrame :=
  {| Pd.columns := Pd.columns df ++ ((λ c, (c, null_column (Pd.index df))) <$> extra);
     Pd.index := Pd.index df |}.

(** A frame as it is read back after [to_csv]. *)
Definition reread (df : Pd.DataFrame) : Pd.DataFrame :=
  {| Pd.columns := (λ c : string * Pd.Series, (c.1, Pd.infer (Pd.render c.2))) <$> Pd.columns df;
     Pd.index := Pd.index df |}.

(** A Users table of the former layout, before [created_at] was added. *)
Definition legacy_users : world :=
  set_files (<[USERS_FILE :=
                 [["user_id"; "username"; "password"; "role"];
                  ["1"; "admin"; "admin123"; "admin"];
                  ["007"; "tina"; "chalk"; "teacher"]]]> ∅) empty_store.

(** The header of the Courses table as [initialize_system] writes it. *)
Definition courses_header : list string :=
  ["course_id"; "course_name"; "description"; "instructor";
   "schedule"; "created_at"; "enrollment_status";
   "image_path"; "youtube_link"].

(** One press of Publish Course: the arguments of a call of
    [save_course] and the time of the call. *)
Record submission := {
  sub_time : timestamp;
  sub_name : string;
  sub_desc : string;
  sub_schedule : string;
  sub_status : string;
  sub_image : option upload;
  sub_link : string
}.

Definition publish (s : submission) : M unit :=
  save_course (sub_time s) (sub_name s) (sub_desc s) (sub_schedule s)
    (sub_status s) (sub_image s) (sub_link s).

(** The keys 1, 2, ..., n. *)
Definition keys (n : nat) : list Z := Z.of_nat <$> seq 1 n.

(** The first field of each record. *)
Definition first_fields (recs : list (list string)) : list string :=
  Pd.field_at 0 <$> recs.

(** The record [save_course] appends under the integer key [k]. *)
Definition course_line (k : Z) (instructor : option string)
    (s : submission) : list string :=
  [ Py.str_int k; sub_name s; sub_desc s; default "" instructor;
    sub_schedule s; sub_status s; sub_link s;
    match sub_image s with
    | Some (image_name, _) =>
        "uploads/course_images/" +:+ Py.str_int k +:+ "_" +:+ image_name
    | None => ""
    end;
    sub_time s ].

Definition three_courses : list submission :=
  [ {| sub_time := "2024-03-01 09:10:00"; sub_name := "Intro";
       sub_desc := "First steps"; sub_schedule := "Mon 10-11";
       sub_status := "Open"; sub_image := None; sub_link := "" |};
    {| sub_time := "2024-03-01 09:20:00"; sub_name := "Algebra";
       sub_desc := "Groups and rings"; sub_schedule := "Tue 14-15";
       sub_status := "Closed"; sub_image := Some ("cover.png", "PNG");
       sub_link := "https://youtube.com/playlist?list=1" |};
    {| sub_time := "2024-03-01 09:30:00"; sub_name := "42";
       sub_desc := "7"; sub_schedule := "Wed 9-10";
       sub_status := "Open"; sub_image := None; sub_link := "" |} ].

(** The world after a call of [save_course] that allocated key [k] on a
    Courses file holding the lines [f]. *)
Definition published (k : Z) (f : Pd.csv) (s : submission) (w : world) : world :=
  let stored :=
    match sub_image s with
    | Some (image_name, buffer) =>
        set_uploads
          (<["uploads/course_images/" +:+ Py.str_int k +:+ "_" +:+ image_name
             := buffer]> (uploads w)) w
    | None => w
    end in
  show st_balloons
    (show (st_success "Course published successfully!")
       (set_files
          (<[COURSES_FILE := f ++ [course_line k (username (auth w)) s]]> (files w))
          stored)).

(* ===================================================================== *)
(** ** Further vocabulary *)
(* ===================================================================== *)

(** *** The files on which the reader is embedded exactly

    [Pd.infer] tells integers, integral decimals, missing values and
    text apart, and [Py.strip] and [Py.lower] are the ASCII parts of
    [str.strip] and [str.lower].  The predicates below delimit the
    inputs on which that is all there is to tell: theorems that say what
    the program does for every file of a kind carry them as hypotheses. *)

(** Text within the ASCII range. *)
Fixpoint is_ascii (s : string) : bool :=
  match s with
  | EmptyString => true
  | String c s' => (N_of_ascii c <? 128)%N && is_ascii s'
  end.

Definition is_digit (c : ascii) : bool :=
  let n := N_of_ascii c in (48 <=? n)%N && (n <=? 57)%N.

(** The characters of a decimal or exponent literal. *)
Definition is_numeric_char (c : ascii) : bool :=
  is_digit c || existsb (Ascii.eqb c) ["."; "e"; "E"; "+"; "-"]%char.

Fixpoint all_numeric_chars (s : string) : bool :=
  match s with
  | EmptyString => true
  | String c s' => is_numeric_char c && all_numeric_chars s'
  end.

Definition drop_sign (s : string) : string :=
  match s with
  | String c s' => if Ascii.eqb c "+" || Ascii.eqb c "-" then s' else s
  | EmptyString => EmptyString
  end.

(** A field the reader may take for a number or a truth value: between
    its blanks it is made of digits, full stops, signs and the letter of
    the exponent only, or it spells one of the words below in any letter
    case, after a sign or without.  Every integer, decimal, exponent,
    infinity and boolean literal of the reader is of this kind, and so
    are some fields it reads as text. *)
Definition number_like (f : string) : bool :=
  let t := Py.strip f in
  all_numeric_chars t ||
  existsb (String.eqb (Py.lower (drop_sign t)))
    ["inf"; "infinity"; "nan"; "true"; "false"].

(** The magnitude below which every integer is a [float64]. *)
Definition exact_float : Z := 2 ^ 53.

Fixpoint has_minus (s : string) : bool :=
  match s with
  | EmptyString => false
  | String c s' => Ascii.eqb c "-" || has_minus s'
  end.

(** A field the reader is embedded exactly on: ASCII text that is a
    missing-value marker, an integer or an integral decimal of a
    magnitude every numeric dtype holds exactly (a decimal zero without
    minus sign: [float64] has a negative zero), or text that the reader
    cannot take for a number or a truth value. *)
Definition covered_field (f : string) : bool :=
  is_ascii f &&
  match Field.classify f with
  | Field.TNa => true
  | Field.TInt z => Z.abs z <? exact_float
  | Field.TFloat z => (Z.abs z <? exact_float) && ((0 <? Z.abs z) || negb (has_minus f))
  | Field.TText => negb (number_like f)
  end.

(** The reader types the columns of a large file piece by piece, a
    piece being some hundred thousand cells; a file of at most this many
    cells is typed in one piece. *)
Definition one_piece : Z := 65536.

(** A file the reader is embedded exactly on: the names of its header
    are distinct and not empty (the reader renames the others), no
    record is longer than the header (the reader takes the surplus of a
    first record for an index), the file is typed in one piece, and
    every field is covered. *)
Definition covered (f : Pd.csv) : bool :=
  match filter (λ r, Pd.is_blank r = false) f with
  | [] => true
  | header :: recs =>
      bool_decide (NoDup header) && forallb Py.truthy header &&
      (Z.of_nat (length recs * length header) <=? one_piece) &&
      forallb (λ r, (length r <=? length header)%nat && forallb covered_field r) recs
  end.

(** The Users file, when there is one, is covered. *)
Definition covered_users (w : world) : bool :=
  from_option covered true (files w !! USERS_FILE).

(** Text that is stored and read back as the same text: ASCII, and
    neither a missing-value marker nor a number. *)
Definition plain_text (s : string) : bool :=
  is_ascii s && negb (Field.is_na s) && negb (number_like s).

(** *** The specification's reading of a match

    The specification compares the fields of a record as they are
    stored: the second, third and fourth field of a record of the Users
    file are its username, password and role. *)
Definition record_matches (r : list string) (username password role : string) : Prop :=
  Py.lower (Py.strip (Pd.field_at 1 r)) = Py.lower (Py.strip username) ∧
  Py.strip (Pd.field_at 2 r) = Py.strip password ∧
  Py.lower (Py.strip (Pd.field_at 3 r)) = Py.lower (Py.strip role).

(** A form that creates a student whose name is a missing-value marker
    of the reader, and the store after the first run and that form. *)
Definition na_form : user_form :=
  {| choice := "User Management"; new_username := "NA"; new_role := "Student";
     new_password := "pw"; confirm_password := "pw"; create_user := true |}.

Definition na_user : world :=
  after (admin_dashboard "2024-03-01 09:05:00" na_form) booted.

(** A store whose only user has a password that starts with zeros. *)
Definition padded_password : world :=
  users_store [["1"; "bob"; "007"; "student"; "2024-01-01 08:00:00"]].


(** A form that types the name of the default administrator with a
    blank after it. *)
Definition padded_form : user_form :=
  {| choice := "User Management"; new_username := "admin "; new_role := "Student";
     new_password := "guess"; confirm_password := "guess"; create_user := true |}.

(** A store whose only user has a name made of digits. *)
Definition digits_username : world :=
  users_store [["1"; "42"; "secret"; "admin"; "2024-01-01 08:00:00"]].

(** Text that is empty or starts with a character that is not white
    space. *)
Definition headed (s : string) : Prop :=
  match s with
  | EmptyString => True
  | String c _ => Py.is_space c = false
  end.

(** A Python value as [to_csv] prints it in a cell. *)
Definition cell_text (v : Pd.scalar) : string :=
  default "" (Pd.render (Pd.series_of v) !! 0%nat).

(** The record [admin_dashboard] appends for a new user with key [v]. *)
Definition user_line (v : Pd.scalar) (f : user_form) (now : timestamp) : list string :=
  [ cell_text v; Py.strip (new_username f); new_password f;
    Py.lower (new_role f); now ].

(** The world after the user form created a user with key [v] on a
    Users file holding [lines]. *)
Definition user_created (v : Pd.scalar) (lines : Pd.csv) (f : user_form)
    (now : timestamp) (w : world) : world :=
  show st_rerun
    (show (st_success ("User " +:+ new_username f +:+ " created successfully!"))
       (set_files (<[USERS_FILE := lines ++ [user_line v f now]]> (files w)) w)).

(** A form that creates the teacher [Tina] with surrounding blanks. *)
Definition tina_form : user_form :=
  {| choice := "User Management"; new_username := " Tina "; new_role := "Teacher";
     new_password := "chalk"; confirm_password := "chalk"; create_user := true |}.

(** The arguments of a call of [save_course] as a submission. *)
Definition submitted (now : timestamp) (name desc schedule status : string)
    (image : option upload) (yt_link : string) : submission :=
  {| sub_time := now; sub_name := name; sub_desc := desc;
     sub_schedule := schedule; sub_status := status; sub_image := image;
     sub_link := yt_link |}.

(** The path under which [save_course] stores the image of course [k]. *)
Definition image_path (k : Z) (image_name : string) : string :=
  "uploads/course_images/" +:+ Py.str_int k +:+ "_" +:+ image_name.

(** A Courses table that cannot be read: its only line is blank. *)
Definition broken_courses : world :=
  set_files (<[COURSES_FILE := [[]]]> (files teaching)) teaching.

(** The store of a teacher at work after its Users file was removed. *)
Definition lost_users : world :=
  set_files (delete USERS_FILE (files teaching)) teaching.

(** The record [initialize_system] appends for the default administrator. *)
Definition admin_line (now : timestamp) : list string :=
  ["1"; "admin"; "admin123"; "admin"; now].

(** What [initialize_system] does when it fails with [e]. *)
Definition init_failed (e : Pd.exn) (w : world) : world :=
  show st_stop (show (st_error ("System initialization failed: " +:+ exn_str e)) w).

(** Every table of the list is there and has its required columns. *)
Definition settled (l : list (string * list string)) (w : world) : Prop :=
  ∀ p c, (p, c) ∈ l →
    ∃ df, table p w = Pd.Ok df ∧ missing_columns df c = [].

(** The Users file is absent, or it is read under the standard header. *)
Definition standard_users (w : world) : Prop :=
  files w !! USERS_FILE = None ∨
  ∃ users, table USERS_FILE w = Pd.Ok users ∧ Pd.names users = users_header.

(* ===================================================================== *)
(** ** The pages around the store *)
(* ===================================================================== *)

(** [st.stop()] and [st.rerun()] raise past every handler of the script
    and end its run.  A statement that made such a request has it as the
    last thing it put on the screen. *)
Definition ended_since (w0 w : world) : bool :=
  (length (screen w0) <? length (screen w))%nat &&
  match last (screen w) with
  | Some st_rerun | Some st_stop => true
  | _ => false
  end.

(** [m] and then [k], unless [m] raised or ended the run. *)
Definition and_then (m k : M unit) : M unit :=
  λ w, match m w with
       | (w', Pd.Ok _) => if ended_since w w' then (w', Pd.Ok tt) else k w'
       | (w', Pd.Raise e) => (w', Pd.Raise e)
       end.

(** The widgets of the login form. *)
Record login_form := {
  login_role : string;
  login_username : string;
  login_password : string;
  login_pressed : bool       (* the Login button was pressed *)
}.

(** [show_login()] in a run of the script: the form is handled when its
    button was pressed. *)
Definition login_page (f : login_form) : M unit :=
  if login_pressed f
  then show_login (login_role f) (login_username f) (login_password f)
  else mret tt.

(** The widgets of the teacher's page. *)
Record course_form := {
  teacher_menu : string;
  course_image : option upload;
  course_name : string;
  youtube_link : string;
  schedule : string;
  course_desc : string;
  enrollment_status : string;
  publish_pressed : bool     (* the Publish Course button was pressed *)
}.

(** [teacher_dashboard()].  The listing of the teacher's courses draws
    cards with images and formatted dates, which are below this level: it
    is the statement [my_courses], whatever it does.  The Attendance page
    only shows a notice. *)
Definition teacher_dashboard (my_courses : M unit) (now : timestamp)
    (f : course_form) : M unit :=
  if String.eqb (teacher_menu f) "My Courses" then my_courses
  else if String.eqb (teacher_menu f) "Attendance" then mret tt
  else if String.eqb (teacher_menu f) "Create Course" then
    (* Validation and submission *)
    if publish_pressed f then
      if negb (forallb Py.truthy [course_name f; course_desc f; schedule f]) then
        modify (show (st_error "Please fill required fields (*)"))
      else
        save_course now (course_name f) (course_desc f) (schedule f)
          (enrollment_status f) (course_image f) (youtube_link f)
    else mret tt
  else mret tt.

(** [student_dashboard()], with the listing of the open courses as the
    statement [my_courses]; the Attendance page only shows a notice and
    the other entries of the menu have no page. *)
Definition student_dashboard (my_courses : M unit) (student_menu : string) : M unit :=
  if String.eqb student_menu "My Courses" then my_courses
  else mret tt.

(** What the widgets of the three dashboards and the sidebar hold in a
    run of the script. *)
Record dashboard_input := {
  student_choice : string;
  teacher_input : course_form;
  admin_input : user_form;
  logout_pressed : bool      (* the Logout button was pressed *)
}.

(** The role-based routing of [show_dashboard]. *)
Definition route (student_courses teacher_courses : M unit)
    (now : timestamp) (i : dashboard_input) (r : string) : M unit :=
  if String.eqb r "student" then
    student_dashboard student_courses (student_choice i)
  else if String.eqb r "teacher" then
    teacher_dashboard teacher_courses now (teacher_input i)
  else if String.eqb r "admin" then
    admin_dashboard now (admin_input i)
  else mret tt.

(** The Logout button of the sidebar. *)
Definition logout_button (i : dashboard_input) : M unit :=
  if logout_pressed i then
    modify (set_auth {| logged_in := false; role := None; username := None |});;
    modify (show st_rerun)
  else mret tt.

(** [show_dashboard()]: the page of the role of the session, then the
    Logout button.  The welcome line calls [role.title()], which a
    session without a role does not have. *)
Definition show_dashboard (student_courses teacher_courses : M unit)
    (now : timestamp) (i : dashboard_input) : M unit :=
  w ← get;
  match role (auth w) with
  | None => raise Pd.AttributeError
  | Some r =>
      and_then (route student_courses teacher_courses now i r) (logout_button i)
  end.

(** [main()], one run of the script.  A world always holds a session,
    the logged-out one at first, which is what the run stores when the
    session has none. *)
Definition main (student_courses teacher_courses : M unit) (now : timestamp)
    (login : login_form) (i : dashboard_input) : M unit :=
  and_then (initialize_system now)
    (w ← get;
     if negb (logged_in (auth w)) then login_page login
     else show_dashboard student_courses teacher_courses now i).

(** A course form with no description. *)
Definition hasty_form : course_form :=
  {| teacher_menu := "Create Course"; course_image := Some ("cover.png", "PNG");
     course_name := "Intro"; youtube_link := ""; schedule := "Mon 10-11";
     course_desc := ""; enrollment_status := "Open"; publish_pressed := true |}.

(** A login attempt with the default administrator's credentials. *)
Definition admin_login : login_form :=
  {| login_role := "Admin"; login_username := "admin";
     login_password := "admin123"; login_pressed := true |}.

(** Widgets of the dashboards with the Logout button pressed. *)
Definition leaving : dashboard_input :=
  {| student_choice := "Grades"; teacher_input := hasty_form;
     admin_input := teacher_form; logout_pressed := true |}.
#[local] Set Warnings "-clear-no-such-hyp".

(* ===================================================================== *)
(** ** Facts about text and numbers *)
(* ===================================================================== *)

Lemma all_chars_app p s t :
  all_chars p (s +:+ t) = all_chars p s && all_chars p t.
Proof.
  induction s as [|c s IH]; simpl; [reflexivity|].
  rewrite IH. apply andb_assoc.
Qed.

Lemma all_chars_mono (p q : ascii → bool) s :
  (∀ c, p c = true → q c = true) → all_chars p s = true → all_chars q s = true.
Proof.
  intros Hpq. induction s as [|c s IH]; simpl; [done|].
  rewrite !andb_true_iff. intros [Hc Hs]. split; auto.
Qed.

Lemma digit_num c : digit_char c = true → num_char c = true.
Proof. unfold digit_char, num_char. intros ->. reflexivity. Qed.


Lemma num_char_not_cspace c : num_char c = true → Field.is_cspace c = false.
Proof.
  destruct c as [[] [] [] [] [] [] [] []]; vm_compute; congruence.
Qed.




Lemma skip_back_id s :
  all_chars (λ c, negb (Field.is_cspace c)) s = true → Field.skip_back s = s.
Proof.
  induction s as [|c s IH]; simpl; [done|].
  rewrite andb_true_iff, negb_true_iff. intros [Hc Hs].
  rewrite (IH Hs). destruct s; [by rewrite Hc | done].
Qed.

Lemma skip_front_id s :
  all_chars (λ c, negb (Field.is_cspace c)) s = true → Field.skip_front s = s.
Proof.
  destruct s as [|c s]; simpl; [done|].
  rewrite andb_true_iff, negb_true_iff. by intros [-> _].
Qed.

Lemma trim_num s : all_chars num_char s = true → Field.trim s = s.
Proof.
  intros H.
  assert (all_chars (λ c, negb (Field.is_cspace c)) s = true) as Hs.
  { revert H. apply all_chars_mono. intros c Hc.
    by rewrite (num_char_not_cspace c Hc). }
  unfold Field.trim. by rewrite skip_front_id, skip_back_id.
Qed.

(** A printed number is never a missing-value marker. *)
Lemma is_na_num s :
  all_chars num_char s = true → s ≠ "" → Field.is_na s = false.
Proof.
  intros Hs Hne. unfold Field.is_na, Field.na_values. simpl.
  repeat match goal with
  | |- context [String.eqb s ?m] =>
      destruct (String.eqb_spec s m) as [->|_]; [done || discriminate Hs|]
  end.
  reflexivity.
Qed.

(** Digits as the decimal library prints them. *)
Lemma uint_digits d : all_chars digit_char (NilEmpty.string_of_uint d) = true.
Proof. induction d; simpl; auto. Qed.

Lemma uint_nonempty d : d ≠ Nil → NilEmpty.string_of_uint d ≠ "".
Proof. destruct d; simpl; congruence. Qed.

Lemma pos_to_uint_nonnil p : Pos.to_uint p ≠ Nil.
Proof.
  intros H. pose proof (DecimalPos.Unsigned.of_to p) as Hp.
  rewrite H in Hp. discriminate Hp.
Qed.

Lemma str_int_pos p :
  Py.str_int (Z.pos p) = NilEmpty.string_of_uint (Pos.to_uint p).
Proof.
  unfold Py.str_int. simpl. unfold NilZero.string_of_uint.
  pose proof (pos_to_uint_nonnil p). by destruct (Pos.to_uint p).
Qed.

Lemma str_int_neg p :
  Py.str_int (Z.neg p) = String "-" (NilEmpty.string_of_uint (Pos.to_uint p)).
Proof.
  unfold Py.str_int. simpl. unfold NilZero.string_of_uint.
  pose proof (pos_to_uint_nonnil p). by destruct (Pos.to_uint p).
Qed.

Lemma str_int_chars z : all_chars num_char (Py.str_int z) = true.
Proof.
  destruct z as [|p|p]; [reflexivity| |].
  - rewrite str_int_pos. eapply all_chars_mono; [apply digit_num|apply uint_digits].
  - rewrite str_int_neg. simpl.
    eapply all_chars_mono; [apply digit_num|apply uint_digits].
Qed.

Lemma str_int_nonempty z : Py.str_int z ≠ "".
Proof.
  destruct z as [|p|p]; [done| |].
  - rewrite str_int_pos. apply uint_nonempty, pos_to_uint_nonnil.
  - by rewrite str_int_neg.
Qed.

Lemma str_float_chars z : all_chars num_char (Py.str_float z) = true.
Proof.
  unfold Py.str_float. rewrite all_chars_app, str_int_chars. reflexivity.
Qed.

Lemma str_float_nonempty z : Py.str_float z ≠ "".
Proof.
  unfold Py.str_float. pose proof (str_int_nonempty z).
  by destruct (Py.str_int z).
Qed.

(** Reading back what was printed. *)
Lemma digits_uint p :
  Field.digits (NilEmpty.string_of_uint (Pos.to_uint p)) = Some (Z.pos p).
Proof.
  unfold Field.digits.
  pose proof (pos_to_uint_nonnil p) as Hn.
  pose proof (NilZero.usu _ Hn) as Hu.
  unfold NilZero.string_of_uint in Hu.
  destruct (Pos.to_uint p) eqn:Hp; try done;
    rewrite Hu; simpl; f_equal;
    pose proof (DecimalZ.of_to (Z.pos p)) as Hz; simpl in Hz; rewrite Hp in Hz;
    exact Hz.
Qed.

Lemma signed_digit c s :
  digit_char c = true → Field.signed (String c s) = Field.digits (String c s).
Proof.
  destruct c as [[] [] [] [] [] [] [] []]; vm_compute; congruence.
Qed.

Lemma uint_head_digit d c s :
  NilEmpty.string_of_uint d = String c s → digit_char c = true.
Proof.
  intros H. pose proof (uint_digits d) as Hd. rewrite H in Hd.
  simpl in Hd. by apply andb_true_iff in Hd as [? _].
Qed.

Lemma signed_str_int z : Field.signed (Py.str_int z) = Some z.
Proof.
  destruct z as [|p|p]; [reflexivity| |].
  - rewrite str_int_pos.
    destruct (NilEmpty.string_of_uint (Pos.to_uint p)) as [|c s] eqn:Hs.
    { by apply uint_nonempty in Hs; [|apply pos_to_uint_nonnil]. }
    rewrite signed_digit by (eapply uint_head_digit, Hs).
    rewrite <- Hs. apply digits_uint.
  - rewrite str_int_neg. simpl. by rewrite digits_uint.
Qed.

Lemma int_literal_str_int z : Field.int_literal (Py.str_int z) = Some z.
Proof.
  unfold Field.int_literal.
  rewrite trim_num by apply str_int_chars. apply signed_str_int.
Qed.

Lemma classify_str_int z : Field.classify (Py.str_int z) = Field.TInt z.
Proof.
  unfold Field.classify.
  rewrite is_na_num by (apply str_int_chars || apply str_int_nonempty).
  by rewrite int_literal_str_int.
Qed.

Lemma uint_of_string_dot s t :
  NilEmpty.uint_of_string (s +:+ String "." t) = None.
Proof.
  induction s as [|c s IH]; simpl.
  - by destruct (NilEmpty.uint_of_string t).
  - rewrite IH. by destruct c as [[] [] [] [] [] [] [] []].
Qed.

Lemma digits_dot s t : Field.digits (s +:+ String "." t) = None.
Proof.
  unfold Field.digits, NilZero.uint_of_string.
  destruct (s +:+ String "." t) eqn:H; [done|].
  rewrite <- H, uint_of_string_dot. done.
Qed.

Lemma signed_dot s t : Field.signed (s +:+ String "." t) = None.
Proof.
  destruct s as [|c s].
  { pose proof (digits_dot "" t) as H0. simpl in *. exact H0. }
  change (String c s +:+ String "." t) with (String c (s +:+ String "." t)).
  unfold Field.signed.
  pose proof (digits_dot (String c s) t) as H1.
  change (String c s +:+ String "." t) with (String c (s +:+ String "." t)) in H1.
  rewrite H1, digits_dot. by repeat case_match.
Qed.

Lemma split_dot_digits s t :
  all_chars (λ c, negb (Ascii.eqb c ".")) s = true →
  Field.split_dot (s +:+ String "." t) = Some (s, t).
Proof.
  induction s as [|c s IH]; simpl; [done|].
  rewrite andb_true_iff, negb_true_iff. intros [-> Hs].
  by rewrite (IH Hs).
Qed.

Lemma str_int_no_dot z :
  all_chars (λ c, negb (Ascii.eqb c ".")) (Py.str_int z) = true.
Proof.
  assert (∀ c, digit_char c = true → negb (Ascii.eqb c ".") = true) as Hd.
  { intros c. destruct c as [[] [] [] [] [] [] [] []]; vm_compute; congruence. }
  destruct z as [|p|p]; [reflexivity| |].
  - rewrite str_int_pos. eapply all_chars_mono; [apply Hd|apply uint_digits].
  - rewrite str_int_neg. simpl. eapply all_chars_mono; [apply Hd|apply uint_digits].
Qed.

Lemma classify_str_float z : Field.classify (Py.str_float z) = Field.TFloat z.
Proof.
  unfold Field.classify.
  rewrite is_na_num by (apply str_float_chars || apply str_float_nonempty).
  unfold Field.int_literal, Field.float_literal.
  rewrite trim_num by apply str_float_chars.
  unfold Py.str_float. rewrite signed_dot.
  rewrite split_dot_digits by apply str_int_no_dot.
  simpl. by rewrite signed_str_int.
Qed.

Lemma classify_na s : Field.is_na s = true → Field.classify s = Field.TNa.
Proof. unfold Field.classify. by intros ->. Qed.

(* ===================================================================== *)
(** ** Column typing survives a write and a read *)
(* ===================================================================== *)

Lemma infer_unfold fs :
  fs ≠ [] →
  Pd.infer fs =
    let ts := Field.classify <$> fs in
    if forallb Field.is_int ts then Pd.SInt (Field.int_value <$> ts)
    else if forallb Field.is_numeric ts then Pd.SFloat (Field.float_value <$> ts)
    else Pd.SObj ((λ f, if Field.is_na f then None else Some f) <$> fs).
Proof. by destruct fs. Qed.

Lemma infer_ints (l : list Z) :
  l ≠ [] → Pd.infer (Py.str_int <$> l) = Pd.SInt l.
Proof.
  intros Hl. rewrite infer_unfold by (by destruct l). cbv zeta.
  rewrite <- list_fmap_compose.
  rewrite (list_fmap_ext (Field.classify ∘ Py.str_int) Field.TInt l)
    by (intros; apply classify_str_int).
  assert (forallb Field.is_int (Field.TInt <$> l) = true) as ->.
  { clear Hl. induction l; simpl; auto. }
  f_equal. rewrite <- list_fmap_compose. apply list_fmap_id.
Qed.

Lemma classify_render_float o :
  Field.classify (render_float o) =
    match o with Some z => Field.TFloat z | None => Field.TNa end.
Proof. destruct o; [apply classify_str_float|reflexivity]. Qed.

Lemma infer_floats (l : list (option Z)) :
  l ≠ [] → Pd.infer (Pd.render (Pd.SFloat l)) = Pd.SFloat l.
Proof.
  intros Hl. simpl. fold render_float.
  rewrite infer_unfold by (by destruct l). cbv zeta.
  rewrite <- list_fmap_compose.
  set (g := λ o : option Z,
         match o with Some z => Field.TFloat z | None => Field.TNa end).
  rewrite (list_fmap_ext (Field.classify ∘ render_float) g l)
    by (intros; apply classify_render_float).
  assert (forallb Field.is_int (g <$> l) = false) as ->.
  { destruct l as [|[?|] ?]; done. }
  assert (forallb Field.is_numeric (g <$> l) = true) as ->.
  { clear Hl. induction l as [|[?|] ? IH]; simpl; auto. }
  f_equal. rewrite <- list_fmap_compose.
  rewrite <- (list_fmap_id l) at 2. apply list_fmap_ext.
  by intros ? [?|].
Qed.

Lemma infer_render_infer fs :
  Pd.infer (Pd.render (Pd.infer fs)) = Pd.infer fs.
Proof.
  destruct (decide (fs = [])) as [->|Hne]; [reflexivity|].
  rewrite (infer_unfold fs Hne). cbv zeta.
  destruct (forallb Field.is_int (Field.classify <$> fs)) eqn:Hint.
  { simpl. apply infer_ints. by destruct fs. }
  destruct (forallb Field.is_numeric (Field.classify <$> fs)) eqn:Hnum.
  { apply infer_floats. by destruct fs. }
  simpl Pd.render. rewrite <- list_fmap_compose.
  set (g := λ f : string, if Field.is_na f then "" else f).
  rewrite (list_fmap_ext
             (default "" ∘ (λ f, if Field.is_na f then None else Some f)) g fs)
    by (intros ? f _; unfold g; simpl; by destruct (Field.is_na f)).
  rewrite infer_unfold by (by destruct fs). cbv zeta.
  assert (Field.classify <$> (g <$> fs) = Field.classify <$> fs) as ->.
  { rewrite <- list_fmap_compose. apply list_fmap_ext. intros ? f _.
    unfold g. simpl. destruct (Field.is_na f) eqn:Hf; [|done].
    by rewrite (classify_na f Hf). }
  rewrite Hint, Hnum. f_equal.
  rewrite <- list_fmap_compose. apply list_fmap_ext. intros ? f _.
  unfold g. simpl. destruct (Field.is_na f) eqn:Hf; [done|]. by rewrite Hf.
Qed.

(** A column of missing values as it is read back. *)
Lemma infer_missing n :
  Pd.infer (replicate n "") =
    match n with O => Pd.SObj [] | _ => Pd.SFloat (replicate n None) end.
Proof.
  destruct n as [|n]; [reflexivity|].
  pose proof (infer_floats (replicate (S n) None)) as H.
  simpl Pd.render in H. rewrite fmap_replicate in H. by apply H.
Qed.

(* ===================================================================== *)
(** ** Frames read from a file *)
(* ===================================================================== *)

Lemma size_infer fs : Pd.size (Pd.infer fs) = length fs.
Proof.
  destruct (decide (fs = [])) as [->|Hne]; [reflexivity|].
  rewrite infer_unfold by done. cbv zeta.
  repeat case_match; simpl; by rewrite !length_fmap.
Qed.

Lemma names_frame_of h recs : Pd.names (Pd.frame_of h recs) = h.
Proof.
  unfold Pd.names, Pd.frame_of. simpl.
  apply list_eq. intros j. rewrite list_lookup_fmap, list_lookup_imap.
  by destruct (h !! j).
Qed.

Lemma well_formed_frame_of h recs : well_formed (Pd.frame_of h recs).
Proof.
  unfold well_formed, Pd.frame_of. simpl.
  apply list.Forall_forall. intros [n s] Hin.
  apply list_elem_of_lookup in Hin as [j Hj].
  rewrite list_lookup_imap in Hj.
  destruct (h !! j); simplify_eq/=.
  by rewrite size_infer, length_fmap.
Qed.

Lemma parse_inv f df :
  Pd.parse f = Pd.Ok df →
  ∃ h recs, filter (λ r, Pd.is_blank r = false) f = h :: recs ∧ h ≠ [] ∧
            existsb (λ r, (length h <? length r)%nat) recs = false ∧
            df = Pd.frame_of h recs.
Proof.
  unfold Pd.parse. intros H.
  destruct (filter _ f) as [|h recs] eqn:Hf; [done|].
  destruct (existsb _ recs) eqn:He; [done|].
  exists h, recs. split_and!; [done| |done|congruence].
  assert (h ∈ filter (λ r, Pd.is_blank r = false) f) as Hin
    by (rewrite Hf; left).
  apply list_elem_of_filter in Hin as [Hb _]. by destruct h.
Qed.

Lemma parse_well_formed f df : Pd.parse f = Pd.Ok df → well_formed df.
Proof.
  intros (h & recs & _ & _ & _ & ->)%parse_inv. apply well_formed_frame_of.
Qed.

Lemma parse_columns f df : Pd.parse f = Pd.Ok df → Pd.columns df ≠ [].
Proof.
  intros (h & recs & _ & Hh & _ & ->)%parse_inv.
  unfold Pd.frame_of. simpl. by destruct h.
Qed.

Lemma read_csv_world path w : after (read_csv path) w = w.
Proof.
  unfold after, read_csv, mbind, M_bind, get, raise, lift.
  by destruct (files w !! path).
Qed.

Lemma read_csv_run path w : read_csv path w = (w, table path w).
Proof.
  rewrite <- (read_csv_world path w) at 2.
  unfold table, outcome, after. by destruct (read_csv path w).
Qed.

Lemma table_inv path w df :
  table path w = Pd.Ok df →
  ∃ f, files w !! path = Some f ∧ Pd.parse f = Pd.Ok df.
Proof.
  unfold table, outcome, read_csv, mbind, M_bind, get, raise, lift. simpl.
  destruct (files w !! path) as [f|]; [|done]. simpl. eauto.
Qed.

Lemma table_well_formed path w df : table path w = Pd.Ok df → well_formed df.
Proof. intros (f & _ & H)%table_inv. by eapply parse_well_formed. Qed.

Lemma table_columns path w df : table path w = Pd.Ok df → Pd.columns df ≠ [].
Proof. intros (f & _ & H)%table_inv. by eapply parse_columns. Qed.

Lemma getitem_size df name s :
  well_formed df → Pd.getitem df name = Pd.Ok s → Pd.size s = Pd.index df.
Proof.
  unfold well_formed, Pd.getitem. intros Hwf.
  destruct (Pd.find_column name (Pd.columns df)) as [s'|] eqn:Hf; [|done].
  intros [= <-]. revert Hwf Hf. generalize (Pd.index df).
  induction (Pd.columns df) as [|[n0 s0] cols IH]; simpl; [done|].
  intros n Hwf. inversion Hwf; subst.
  destruct (String.eqb n0 name); [naive_solver|]. eauto.
Qed.

(* ===================================================================== *)
(** ** Masks and selections *)
(* ===================================================================== *)

Lemma eq_str_lookup l x i :
  Pd.eq_str l x !! i = Some true ↔ l !! i = Some (Some x).
Proof.
  unfold Pd.eq_str. rewrite list_lookup_fmap.
  destruct (l !! i) as [[t|]|]; simpl; [|naive_solver..].
  destruct (String.eqb_spec t x); naive_solver.
Qed.

Lemma str_strip_lookup l i :
  Pd.str_strip l !! i = (λ o : option string, Py.strip <$> o) <$> l !! i.
Proof. unfold Pd.str_strip. apply list_lookup_fmap. Qed.

Lemma str_lower_lookup l i :
  Pd.str_lower l !! i = (λ o : option string, Py.lower <$> o) <$> l !! i.
Proof. unfold Pd.str_lower. apply list_lookup_fmap. Qed.

Lemma astype_str_lookup s i :
  Pd.astype_str s !! i = (λ v, Some (Pd.str_of v)) <$> Pd.item s i.
Proof.
  destruct s as [l|l|l]; simpl; rewrite list_lookup_fmap;
    destruct (l !! i) as [x|]; simpl; try done.
  by destruct x.
Qed.

Lemma item_text s i t :
  Pd.item s i = Some (Pd.VStr t) ↔ ∃ l, s = Pd.SObj l ∧ l !! i = Some (Some t).
Proof.
  destruct s as [l|l|l]; simpl.
  - destruct (l !! i); naive_solver.
  - destruct (l !! i); naive_solver.
  - destruct (l !! i) as [[?|]|] eqn:E; simpl; naive_solver.
Qed.

Lemma item_lt s i v : Pd.item s i = Some v → (i < Pd.size s)%nat.
Proof.
  destruct s as [l|l|l]; simpl; intros H;
    destruct (l !! i) eqn:E; try done; by eapply lookup_lt_Some.
Qed.

Lemma mask_and_lookup a b i :
  Pd.mask_and a b !! i = Some true ↔ a !! i = Some true ∧ b !! i = Some true.
Proof.
  unfold Pd.mask_and. rewrite lookup_zip_with.
  destruct (a !! i) as [[]|], (b !! i) as [[]|]; simpl; naive_solver.
Qed.

Lemma select_nonempty {A} (m : list bool) (l : list A) :
  Pd.select m l ≠ [] ↔ ∃ i, m !! i = Some true ∧ (i < length l)%nat.
Proof.
  revert l. induction m as [|b m IH]; intros l; simpl.
  { split; [done|]. by intros (i & Hi & _). }
  destruct l as [|x l]; simpl.
  { split; [done|]. intros (i & _ & Hi). lia. }
  destruct b.
  - split; [|done]. intros _. exists 0%nat. split; [done|lia].
  - rewrite IH. split.
    + intros (i & Hi & Hl). exists (S i). split; [done|lia].
    + intros ([|i] & Hi & Hl); simpl in *; [done|]. exists i. split; [done|lia].
Qed.

Lemma where_nonempty df m :
  Pd.columns df ≠ [] →
  Pd.empty (Pd.where_ df m) = false ↔
    ∃ i, m !! i = Some true ∧ (i < Pd.index df)%nat.
Proof.
  intros Hc. unfold Pd.empty, Pd.where_. simpl.
  destruct (Pd.columns df) as [|c cols]; [done|]. simpl.
  rewrite Nat.eqb_neq.
  pose proof (select_nonempty m (seq 0 (Pd.index df))) as H.
  rewrite length_seq in H. rewrite <- H.
  by destruct (Pd.select m (seq 0 (Pd.index df))).
Qed.

(* ===================================================================== *)
(** ** The selection of [authenticate] *)
(* ===================================================================== *)

Lemma credentials_mask_ok users username password role m :
  credentials_mask users username password role = Pd.Ok m →
  ∀ i, m !! i = Some true ↔ stored_match users i username password role.
Proof.
  unfold credentials_mask, stored_match. intros H i.
  destruct (Pd.getitem users "username") as [u|] eqn:Hu; [|done]. simpl in H.
  destruct u as [|?|us]; try done. simpl in H.
  destruct (Pd.getitem users "password") as [p|] eqn:Hp; [|done]. simpl in H.
  destruct (Pd.getitem users "role") as [r|] eqn:Hr; [|done]. simpl in H.
  destruct r as [|?|rs]; try done. simpl in H.
  injection H as <-.
  rewrite !mask_and_lookup, !eq_str_lookup.
  rewrite !str_lower_lookup, !str_strip_lookup, astype_str_lookup.
  split.
  - intros [[H1 H2] H3].
    destruct (us !! i) as [[su|]|] eqn:Eu; simplify_eq/=.
    destruct (Pd.item p i) as [pv|] eqn:Ep; simplify_eq/=.
    destruct (rs !! i) as [[sr|]|] eqn:Er; simplify_eq/=.
    exists (Pd.SObj us), p, (Pd.SObj rs), su, pv, sr.
    simpl. rewrite Eu, Er. naive_solver.
  - intros (u & p' & r & su & pv & sr & ? & Hiu & ? & Hip & ? & Hir & E1 & E2 & E3).
    simplify_eq/=.
    destruct (us !! i) as [[?|]|] eqn:Eu; simplify_eq/=.
    destruct (rs !! i) as [[?|]|] eqn:Er; simplify_eq/=.
    rewrite Hip. simpl. by rewrite E1, E2, E3.
Qed.

Lemma credentials_mask_raise users username password role e i :
  credentials_mask users username password role = Pd.Raise e →
  ¬ stored_match users i username password role.
Proof.
  unfold credentials_mask, stored_match.
  intros H (u & p & r & su & pv & sr & Hu & Hiu & Hp & Hip & Hr & Hir & _).
  rewrite Hu in H. simpl in H.
  apply item_text in Hiu as (us & -> & _). simpl in H.
  rewrite Hp in H. simpl in H. rewrite Hr in H. simpl in H.
  apply item_text in Hir as (rs & -> & _). done.
Qed.

Lemma stored_match_lt users i username password role :
  well_formed users → stored_match users i username password role →
  (i < Pd.index users)%nat.
Proof.
  intros Hwf (u & p & r & su & pv & sr & Hu & Hiu & _).
  rewrite <- (getitem_size users "username" u Hwf Hu).
  by eapply item_lt.
Qed.

(** What [authenticate] does, read off its three exits. *)
Lemma authenticate_run username password role w :
  authenticate username password role w =
    match table USERS_FILE w with
    | Pd.Raise e =>
        (show (st_error ("Authentication error: " +:+ exn_str e)) w, Pd.Ok false)
    | Pd.Ok users =>
        if Pd.empty users then (w, Pd.Ok false)
        else match credentials_mask users username password role with
             | Pd.Raise e =>
                 (show (st_error ("Authentication error: " +:+ exn_str e)) w,
                  Pd.Ok false)
             | Pd.Ok m => (w, Pd.Ok (negb (Pd.empty (Pd.where_ users m))))
             end
    end.
Proof.
  unfold authenticate, try_except, authenticate_body.
  unfold mbind at 1. unfold M_bind. rewrite read_csv_run.
  destruct (table USERS_FILE w) as [users|e]; [|done].
  destruct (Pd.empty users); [done|].
  unfold mbind, M_bind, lift.
  by destruct (credentials_mask users username password role).
Qed.

Lemma authenticate_true username password role w :
  outcome (authenticate username password role) w = Pd.Ok true ↔
  ∃ users i, table USERS_FILE w = Pd.Ok users ∧
             stored_match users i username password role.
Proof.
  unfold outcome. rewrite authenticate_run.
  destruct (table USERS_FILE w) as [users|e] eqn:Ht; simpl; [|naive_solver].
  pose proof (table_well_formed _ _ _ Ht) as Hwf.
  pose proof (table_columns _ _ _ Ht) as Hc.
  destruct (Pd.empty users) eqn:He; simpl.
  { split; [done|]. intros (users' & i & [= <-] & Hm).
    apply stored_match_lt in Hm; [|done].
    unfold Pd.empty in He. destruct (Pd.columns users); [done|].
    apply Nat.eqb_eq in He. lia. }
  destruct (credentials_mask users username password role) as [m|e] eqn:Hm; simpl.
  - split.
    + intros [= Hn]. apply negb_true_iff in Hn.
      apply where_nonempty in Hn as (i & Hi & _); [|done].
      exists users, i. split; [done|]. by eapply credentials_mask_ok.
    + intros (users' & i & [= <-] & Hs). f_equal. apply negb_true_iff.
      apply where_nonempty; [done|]. exists i. split.
      * by eapply credentials_mask_ok.
      * by eapply stored_match_lt.
  - split; [done|]. intros (users' & i & [= <-] & Hs).
    by eapply credentials_mask_raise in Hs.
Qed.

Lemma authenticate_returns username password role w :
  ∃ b, outcome (authenticate username password role) w = Pd.Ok b.
Proof.
  unfold outcome. rewrite authenticate_run.
  repeat case_match; simpl; eauto.
Qed.


Lemma existsb_lookup (l : list bool) i : l !! i = Some true → existsb id l = true.
Proof.
  revert i. induction l as [|b l IH]; intros [|i]; simpl; try done.
  - by intros [= ->].
  - intros H. rewrite (IH i H). apply orb_true_r.
Qed.

Lemma username_taken_match users u i su name :
  Pd.getitem users "username" = Pd.Ok u →
  Pd.item u i = Some (Pd.VStr su) →
  Py.lower su = Py.lower name →
  username_taken users name = Pd.Ok true.
Proof.
  intros Hu Hi E. unfold username_taken. rewrite Hu. simpl.
  apply item_text in Hi as (us & -> & Hus). simpl. f_equal.
  apply (existsb_lookup _ i). apply eq_str_lookup.
  by rewrite str_lower_lookup, Hus, <- E.
Qed.

(** A table depends on the files alone. *)
Lemma table_files path w w' : files w = files w' → table path w = table path w'.
Proof.
  intros H. unfold table, outcome, read_csv, mbind, M_bind, get, raise, lift.
  simpl. rewrite H. by destruct (files w' !! path).
Qed.

(* ===================================================================== *)
(** ** Writing a frame and reading it back *)
(* ===================================================================== *)

Lemma length_render s : length (Pd.render s) = Pd.size s.
Proof. destruct s; simpl; by rewrite length_fmap. Qed.

Lemma fmap_lookup_seq {A} (d : A) (l : list A) n :
  length l = n → (λ i, default d (l !! i)) <$> seq 0 n = l.
Proof.
  intros <-. apply list_eq. intros i.
  rewrite list_lookup_fmap.
  destruct (decide (i < length l)%nat) as [Hi|Hi].
  - rewrite lookup_seq_lt by done. simpl.
    destruct (lookup_lt_is_Some_2 l i Hi) as [x Hx]. by rewrite Hx.
  - rewrite lookup_seq_ge by lia. simpl.
    symmetry. apply lookup_ge_None. lia.
Qed.

Lemma length_to_records df : length (Pd.to_records df) = Pd.index df.
Proof. unfold Pd.to_records. by rewrite length_fmap, length_seq. Qed.

Lemma to_records_width df r :
  r ∈ Pd.to_records df → length r = length (Pd.columns df).
Proof.
  unfold Pd.to_records. intros (i & -> & _)%list_elem_of_fmap.
  by rewrite length_fmap.
Qed.

Lemma column_fields df j c :
  well_formed df → Pd.columns df !! j = Some c →
  Pd.field_at j <$> Pd.to_records df = Pd.render c.2.
Proof.
  intros Hwf Hj. unfold Pd.to_records. rewrite <- list_fmap_compose.
  rewrite <- (fmap_lookup_seq "" (Pd.render c.2) (Pd.index df)).
  - apply list_fmap_ext. intros _ i _. simpl. unfold Pd.field_at.
    by rewrite list_lookup_fmap, Hj.
  - rewrite length_render.
    unfold well_formed in Hwf. rewrite list.Forall_forall in Hwf.
    apply Hwf. by eapply list_elem_of_lookup_2.
Qed.

Lemma frame_of_to_records df :
  well_formed df →
  Pd.frame_of (Pd.names df) (Pd.to_records df) = reread df.
Proof.
  intros Hwf. unfold Pd.frame_of, reread. f_equal; [|apply length_to_records].
  apply list_eq. intros j. unfold Pd.names.
  rewrite list_lookup_imap, !list_lookup_fmap.
  destruct (Pd.columns df !! j) as [c|] eqn:Hj; simpl; [|done].
  by rewrite (column_fields df j c Hwf Hj).
Qed.

Lemma filter_all {A} (P : A → Prop) `{∀ x, Decision (P x)} (l : list A) :
  Forall P l → filter P l = l.
Proof.
  induction 1 as [|x l Hx Hl IH]; [done|].
  rewrite filter_cons. destruct (decide (P x)); [|done]. by rewrite IH.
Qed.

Lemma existsb_false {A} (p : A → bool) (l : list A) :
  Forall (λ x, p x = false) l → existsb p l = false.
Proof. induction 1 as [|x l Hx Hl IH]; simpl; [done|]. by rewrite Hx, IH. Qed.

Lemma parse_to_csv df :
  well_formed df → Pd.columns df ≠ [] →
  Pd.parse (Pd.to_csv df true) = Pd.Ok (reread df).
Proof.
  intros Hwf Hc. unfold Pd.parse, Pd.to_csv. simpl.
  assert (Forall (λ r, Pd.is_blank r = false)
            ((fst <$> Pd.columns df) :: Pd.to_records df)) as Hnb.
  { constructor.
    - by destruct (Pd.columns df).
    - apply list.Forall_forall. intros r Hr%to_records_width.
      destruct r; [|done]. by destruct (Pd.columns df). }
  rewrite (filter_all _ _ Hnb).
  rewrite existsb_false.
  - f_equal. by apply frame_of_to_records.
  - apply list.Forall_forall. intros r Hr%to_records_width.
    rewrite length_fmap, Hr. apply Nat.ltb_irrefl.
Qed.

(* ===================================================================== *)
(** ** Adding columns *)
(* ===================================================================== *)

Lemma find_column_None name cols :
  Pd.find_column name cols = None ↔ name ∉ (fst <$> cols).
Proof.
  induction cols as [|[n s] cols IH]; simpl.
  - split; [|done]. intros _. apply not_elem_of_nil.
  - rewrite not_elem_of_cons.
    destruct (String.eqb_spec n name) as [->|Hne]; [naive_solver|].
    rewrite IH. naive_solver.
Qed.

Lemma names_replace_column name s cols :
  fst <$> Pd.replace_column name s cols = fst <$> cols.
Proof.
  induction cols as [|[n s0] cols IH]; simpl; [done|].
  destruct (String.eqb n name); csimpl; [done|]. by f_equal.
Qed.

Lemma names_setitem df name s :
  Pd.names (Pd.setitem df name s) =
    if decide (name ∈ Pd.names df) then Pd.names df else Pd.names df ++ [name].
Proof.
  unfold Pd.setitem, Pd.names.
  destruct (Pd.find_column name (Pd.columns df)) eqn:Hf; simpl.
  - rewrite names_replace_column. destruct (decide _) as [|Hn]; [done|].
    apply find_column_None in Hn. congruence.
  - apply find_column_None in Hf. destruct (decide _); [done|].
    by rewrite fmap_app.
Qed.

Lemma index_setitem df name s : Pd.index (Pd.setitem df name s) = Pd.index df.
Proof. unfold Pd.setitem. by destruct (Pd.find_column _ _). Qed.

Lemma Forall_replace_column (P : string * Pd.Series → Prop) name s cols :
  (∀ n, P (n, s)) → Forall P cols → Forall P (Pd.replace_column name s cols).
Proof.
  intros Hs. induction 1 as [|[n s0] cols Hx Hl IH]; simpl; [done|].
  destruct (String.eqb n name); constructor; auto.
Qed.

Lemma well_formed_setitem df name s :
  well_formed df → Pd.size s = Pd.index df → well_formed (Pd.setitem df name s).
Proof.
  unfold well_formed. intros Hwf Hs. rewrite index_setitem.
  unfold Pd.setitem. destruct (Pd.find_column _ _); simpl.
  - by apply Forall_replace_column.
  - apply Forall_app. split; [done|]. by constructor.
Qed.

Lemma well_formed_setitem_none df name :
  well_formed df → well_formed (Pd.setitem_none df name).
Proof.
  intros Hwf. apply well_formed_setitem; [done|]. simpl. apply length_replicate.
Qed.

Lemma well_formed_add_columns df l :
  well_formed df → well_formed (foldl Pd.setitem_none df l).
Proof.
  revert df. induction l as [|c l IH]; intros df Hwf; simpl; [done|].
  by apply IH, well_formed_setitem_none.
Qed.

Lemma names_add_columns df l c :
  c ∈ Pd.names df ∨ c ∈ l → c ∈ Pd.names (foldl Pd.setitem_none df l).
Proof.
  revert df. induction l as [|c0 l IH]; intros df; simpl.
  { intros [H|H]; [done|]. by apply elem_of_nil in H. }
  intros H. apply IH. unfold Pd.setitem_none. rewrite names_setitem.
  destruct (decide (c0 ∈ Pd.names df)).
  - rewrite elem_of_cons in H. naive_solver.
  - rewrite elem_of_app, list_elem_of_singleton, elem_of_cons in *. naive_solver.
Qed.

Lemma columns_add_columns df l :
  Pd.columns df ≠ [] → Pd.columns (foldl Pd.setitem_none df l) ≠ [].
Proof.
  revert df. induction l as [|c l IH]; intros df Hc; simpl; [done|].
  apply IH. unfold Pd.setitem_none, Pd.setitem.
  destruct (Pd.find_column _ _); simpl.
  - destruct (Pd.columns df) as [|[n s0] cols]; [done|]. simpl.
    by destruct (String.eqb n c).
  - by destruct (Pd.columns df).
Qed.

(** Fresh, distinct names go to the end, in order. *)
Lemma add_columns_fresh df l :
  NoDup l → (∀ c, c ∈ l → c ∉ Pd.names df) →
  foldl Pd.setitem_none df l =
    {| Pd.columns := Pd.columns df ++
                     ((λ c, (c, Pd.SObj (replicate (Pd.index df) None))) <$> l);
       Pd.index := Pd.index df |}.
Proof.
  revert df. induction l as [|c l IH]; intros df Hnd Hfresh; simpl.
  { rewrite app_nil_r. by destruct df. }
  apply NoDup_cons in Hnd as [Hc Hnd].
  assert (Pd.setitem_none df c =
          {| Pd.columns := Pd.columns df ++ [(c, Pd.SObj (replicate (Pd.index df) None))];
             Pd.index := Pd.index df |}) as Hstep.
  { unfold Pd.setitem_none, Pd.setitem.
    assert (Pd.find_column c (Pd.columns df) = None) as ->; [|done].
    apply find_column_None. apply Hfresh. left. }
  rewrite IH; [|done|].
  - rewrite Hstep. simpl. by rewrite <- app_assoc.
  - intros c' Hc'. rewrite Hstep. unfold Pd.names. simpl.
    rewrite fmap_app, elem_of_app. simpl. rewrite list_elem_of_singleton.
    intros [H| ->]; [|done]. eapply Hfresh; [|exact H]. by right.
Qed.

Lemma missing_columns_fresh df cols c :
  c ∈ missing_columns df cols → c ∉ Pd.names df.
Proof.
  unfold missing_columns. intros [H _]%list_elem_of_filter.
  by apply bool_decide_eq_false in H.
Qed.

Lemma missing_columns_none df cols :
  (∀ c, c ∈ cols → c ∈ Pd.names df) → missing_columns df cols = [].
Proof.
  intros H. unfold missing_columns.
  induction cols as [|c cols IH]; [done|].
  rewrite filter_cons. destruct (decide _) as [Hd|_].
  - apply bool_decide_eq_false in Hd. destruct Hd. apply H. left.
  - apply IH. intros c' Hc'. apply H. by right.
Qed.

Lemma missing_columns_elem df cols c :
  c ∈ cols → c ∈ Pd.names df ∨ c ∈ missing_columns df cols.
Proof.
  intros Hc. destruct (decide (c ∈ Pd.names df)) as [|Hn]; [by left|right].
  unfold missing_columns. apply list_elem_of_filter. split; [|done].
  by apply bool_decide_eq_false.
Qed.

Lemma names_reread df : Pd.names (reread df) = Pd.names df.
Proof.
  unfold Pd.names, reread. simpl. rewrite <- list_fmap_compose.
  by apply list_fmap_ext.
Qed.

(* ===================================================================== *)
(** ** The migration of one table *)
(* ===================================================================== *)

Lemma ensure_schema_run path cols w :
  ensure_schema path cols w =
    match files w !! path with
    | None =>
        (set_files (<[path := Pd.to_csv (Pd.from_columns cols) true]> (files w)) w,
         Pd.Ok tt)
    | Some f =>
        match Pd.parse f with
        | Pd.Raise e => (w, Pd.Raise e)
        | Pd.Ok df =>
            if decide (missing_columns df cols = []) then (w, Pd.Ok tt)
            else
              (set_files
                 (<[path := Pd.to_csv
                              (foldl Pd.setitem_none df (missing_columns df cols))
                              true]> (files w)) w,
               Pd.Ok tt)
        end
    end.
Proof.
  unfold ensure_schema, path_exists, read_csv, to_csv, modify, lift, raise, get.
  unfold mbind, M_bind, mret, M_ret.
  destruct (files w !! path) as [f|] eqn:Hf; simpl.
  - rewrite Hf. destruct (Pd.parse f) as [df|e]; [|done].
    by destruct (missing_columns df cols).
  - done.
Qed.

Lemma table_written path f w :
  table path (set_files (<[path := f]> (files w)) w) = Pd.parse f.
Proof.
  unfold table, outcome, read_csv, mbind, M_bind, get, lift, raise. simpl.
  by rewrite lookup_insert_eq.
Qed.

Lemma table_lookup path w f :
  files w !! path = Some f → table path w = Pd.parse f.
Proof.
  intros H. unfold table, outcome, read_csv, mbind, M_bind, get, lift, raise.
  simpl. by rewrite H.
Qed.

Lemma well_formed_from_columns cols : well_formed (Pd.from_columns cols).
Proof.
  unfold well_formed, Pd.from_columns. simpl. apply list.Forall_forall.
  by intros c (n & -> & _)%list_elem_of_fmap.
Qed.

Lemma names_from_columns cols : Pd.names (Pd.from_columns cols) = cols.
Proof.
  unfold Pd.names, Pd.from_columns. simpl. rewrite <- list_fmap_compose.
  rewrite <- (list_fmap_id cols) at 2. by apply list_fmap_ext.
Qed.

(** After one run the header has every required column, so a second run
    finds nothing to add and writes nothing. *)
Lemma ensure_schema_settles path cols w :
  cols ≠ [] →
  ensure_schema path cols (after (ensure_schema path cols) w) =
    (after (ensure_schema path cols) w, outcome (ensure_schema path cols) w) ∧
  (outcome (ensure_schema path cols) w = Pd.Ok tt →
   ∃ df, table path (after (ensure_schema path cols) w) = Pd.Ok df ∧
         missing_columns df cols = []).
Proof.
  intros Hcols. unfold after, outcome. rewrite (ensure_schema_run path cols w).
  destruct (files w !! path) as [f|] eqn:Hf.
  - destruct (Pd.parse f) as [df|e] eqn:Hp; simpl.
    + destruct (decide (missing_columns df cols = [])) as [Hm|Hm]; simpl.
      * rewrite ensure_schema_run, Hf, Hp, decide_True by done. split; [done|].
        intros _. exists df. split; [|done]. by rewrite (table_lookup _ _ _ Hf).
      * set (df' := foldl Pd.setitem_none df (missing_columns df cols)).
        assert (Pd.parse (Pd.to_csv df' true) = Pd.Ok (reread df')) as Hre.
        { apply parse_to_csv.
          - apply well_formed_add_columns. by eapply parse_well_formed.
          - apply columns_add_columns. by eapply parse_columns. }
        assert (missing_columns (reread df') cols = []) as Hnone.
        { apply missing_columns_none. intros c' Hc'. rewrite names_reread.
          apply names_add_columns. by apply missing_columns_elem. }
        split.
        -- rewrite ensure_schema_run. simpl.
           by rewrite lookup_insert_eq, Hre, decide_True.
        -- intros _. exists (reread df'). by rewrite table_written.
    + rewrite ensure_schema_run, Hf, Hp. split; [done|]. done.
  - simpl.
    assert (Pd.parse (Pd.to_csv (Pd.from_columns cols) true) =
            Pd.Ok (reread (Pd.from_columns cols))) as Hre.
    { apply parse_to_csv; [apply well_formed_from_columns|].
      unfold Pd.from_columns. simpl. by destruct cols. }
    assert (missing_columns (reread (Pd.from_columns cols)) cols = []) as Hnone.
    { apply missing_columns_none. intros c' Hc'.
      by rewrite names_reread, names_from_columns. }
    split.
    + rewrite ensure_schema_run. simpl.
      by rewrite lookup_insert_eq, Hre, decide_True.
    + intros _. exists (reread (Pd.from_columns cols)). by rewrite table_written.
Qed.

Lemma parsed_columns_fixed f df :
  Pd.parse f = Pd.Ok df →
  Forall (λ c : string * Pd.Series, Pd.infer (Pd.render c.2) = c.2) (Pd.columns df).
Proof.
  intros (h & recs & _ & _ & _ & ->)%parse_inv.
  apply list.Forall_forall. intros c (j & Hj)%list_elem_of_lookup.
  unfold Pd.frame_of in Hj. simpl in Hj. rewrite list_lookup_imap in Hj.
  destruct (h !! j); simplify_eq/=. apply infer_render_infer.
Qed.

Lemma reread_add_columns f df l :
  Pd.parse f = Pd.Ok df → NoDup l → (∀ c, c ∈ l → c ∉ Pd.names df) →
  reread (foldl Pd.setitem_none df l) = with_null_columns df l.
Proof.
  intros Hp Hnd Hfresh. rewrite add_columns_fresh by done.
  unfold reread, with_null_columns. simpl. f_equal.
  rewrite fmap_app. f_equal.
  - pose proof (parsed_columns_fixed f df Hp) as Hfix.
    induction Hfix as [|[n s] cols Hc Hl IH]; [done|].
    csimpl. simpl in Hc. rewrite Hc. by f_equal.
  - rewrite <- list_fmap_compose. apply list_fmap_ext. intros _ c _. simpl.
    f_equal. rewrite fmap_replicate. simpl. rewrite infer_missing.
    by destruct (Pd.index df).
Qed.

Lemma null_column_item n i :
  (i < n)%nat → Pd.item (null_column n) i = Some (Pd.VFloat None).
Proof.
  intros Hi. destruct n as [|n]; [lia|]. unfold null_column, Pd.item.
  by rewrite lookup_replicate_2.
Qed.

Lemma migration_adds_null_columns path cols w df :
  NoDup cols →
  table path w = Pd.Ok df →
  missing_columns df cols ≠ [] →
  outcome (ensure_schema path cols) w = Pd.Ok tt ∧
  table path (after (ensure_schema path cols) w) =
    Pd.Ok (with_null_columns df (missing_columns df cols)).
Proof.
  intros Hnd Ht Hm.
  apply table_inv in Ht as (f & Hf & Hp).
  unfold outcome, after. rewrite ensure_schema_run, Hf, Hp.
  rewrite decide_False by done. simpl. split; [done|].
  rewrite table_written, parse_to_csv.
  - f_equal. eapply reread_add_columns; [done| |].
    + unfold missing_columns. by apply NoDup_filter.
    + apply missing_columns_fresh.
  - apply well_formed_add_columns. by eapply parse_well_formed.
  - apply columns_add_columns. by eapply parse_columns.
Qed.

(* ===================================================================== *)
(** ** Allocating identifiers *)
(* ===================================================================== *)

Lemma list_max_le z l : z ≤ Pd.list_max z l.
Proof.
  unfold Pd.list_max. revert z. induction l as [|x l IH]; intros z; simpl; [lia|].
  specialize (IH (Z.max z x)). lia.
Qed.

Lemma fold_max_upper l z x : x ≤ z ∨ x ∈ l → x ≤ fold_left Z.max l z.
Proof.
  revert z. induction l as [|y l IH]; intros z; simpl.
  - intros [H|H]; [done|]. by apply elem_of_nil in H.
  - rewrite elem_of_cons. intros H. apply IH. destruct H as [H|[->|H]]; [left|left|by right]; lia.
Qed.

Lemma list_max_upper z l x : x ∈ z :: l → x ≤ Pd.list_max z l.
Proof.
  rewrite elem_of_cons. intros [->|H]; apply fold_max_upper; [left; lia|by right].
Qed.

Lemma list_max_elem z l : Pd.list_max z l ∈ z :: l.
Proof.
  unfold Pd.list_max. revert z. induction l as [|y l IH]; intros z; simpl.
  - left.
  - specialize (IH (Z.max z y)). rewrite !elem_of_cons in *.
    destruct IH as [H|H]; [|by right; right].
    rewrite H. destruct (Z.max_spec z y) as [[_ ->]|[_ ->]]; auto.
Qed.

Lemma wrap64_small z :
  Np.int64_min ≤ z ≤ Np.int64_max → Np.wrap64 z = z.
Proof.
  unfold Np.int64_min, Np.int64_max, Np.wrap64, Np.int64_modulus.
  change (2 ^ 63) with 9223372036854775808.
  change (2 ^ 64) with 18446744073709551616.
  intros H. rewrite Z.mod_small; lia.
Qed.

Lemma getitem_setitem df name s s0 :
  Pd.getitem df name = Pd.Ok s0 →
  Pd.getitem (Pd.setitem df name s) name = Pd.Ok s.
Proof.
  unfold Pd.getitem, Pd.setitem.
  destruct (Pd.find_column name (Pd.columns df)) eqn:Hf; [|done]. intros _. simpl.
  assert (Pd.find_column name (Pd.replace_column name s (Pd.columns df)) = Some s)
    as ->; [|done].
  revert Hf. induction (Pd.columns df) as [|[n sn] cols IH]; simpl; [done|].
  destruct (String.eqb n name) eqn:E; simpl; rewrite E; [done|]. apply IH.
Qed.

Lemma next_course_id_int df z l :
  Pd.empty df = false →
  Pd.getitem df "course_id" = Pd.Ok (Pd.SInt (z :: l)) →
  next_course_id df = Pd.Ok (Pd.VInt (Np.add64 (Pd.list_max z l) 1)).
Proof.
  intros He Hc. unfold next_course_id. rewrite He, Hc. simpl.
  by rewrite (getitem_setitem df "course_id" _ _ Hc).
Qed.

Lemma next_user_id_int df z l :
  Pd.empty df = false →
  Pd.getitem df "user_id" = Pd.Ok (Pd.SInt (z :: l)) →
  next_user_id df = Pd.Ok (Pd.VInt (Np.add64 (Pd.list_max z l) 1)).
Proof. intros He Hc. unfold next_user_id. by rewrite He, Hc. Qed.

Lemma add64_next m :
  Np.int64_min ≤ m → m < Np.int64_max → Np.add64 m 1 = m + 1.
Proof.
  intros. unfold Np.add64. apply wrap64_small.
  unfold Np.int64_min, Np.int64_max in *. lia.
Qed.

(* ===================================================================== *)
(** ** Publishing courses *)
(* ===================================================================== *)

Lemma save_course_int s w df k f :
  table COURSES_FILE w = Pd.Ok df →
  next_course_id df = Pd.Ok (Pd.VInt k) →
  files w !! COURSES_FILE = Some f →
  publish s w = (published k f s w, Pd.Ok tt).
Proof.
  intros Ht Hn Hf. unfold publish, save_course, try_except.
  unfold mbind at 1. unfold M_bind. rewrite read_csv_run, Ht.
  unfold mbind at 1. unfold M_bind, lift. rewrite Hn.
  unfold published, course_line.
  destruct s as [t name desc sched status [[iname buf]|] link]; simpl;
    unfold lookup in Hf |- *; rewrite Hf; simpl; by destruct (username (auth w)).
Qed.

Lemma courses_table w rows :
  files w !! COURSES_FILE = Some (courses_header :: rows) →
  Forall (λ r, length r = 9%nat) rows →
  table COURSES_FILE w = Pd.Ok (Pd.frame_of courses_header rows).
Proof.
  intros Hf Hw. rewrite (table_lookup _ _ _ Hf). unfold Pd.parse.
  assert (Forall (λ r, Pd.is_blank r = false) (courses_header :: rows)) as Hnb.
  { constructor; [done|].
    eapply Forall_impl; [exact Hw|]. intros r Hr. simpl in *. by destruct r. }
  rewrite (filter_all _ _ Hnb).
  rewrite existsb_false; [done|].
  eapply Forall_impl; [exact Hw|]. intros r Hr. simpl in *. by rewrite Hr.
Qed.

Lemma courses_key_column rows :
  Pd.getitem (Pd.frame_of courses_header rows) "course_id" =
    Pd.Ok (Pd.infer (first_fields rows)).
Proof. reflexivity. Qed.

Lemma courses_empty rows :
  Pd.empty (Pd.frame_of courses_header rows) = (length rows =? 0)%nat.
Proof. reflexivity. Qed.

Lemma keys_S n : keys (S n) = keys n ++ [Z.of_nat (S n)].
Proof. unfold keys. rewrite seq_S, fmap_app. reflexivity. Qed.

Lemma elem_of_keys x n :
  x ∈ keys n ↔ ∃ i, x = Z.of_nat i ∧ (1 ≤ i ≤ n)%nat.
Proof.
  unfold keys. rewrite list_elem_of_fmap. setoid_rewrite elem_of_seq.
  split; intros (i & Hi & ?); exists i; split; auto; lia.
Qed.

Lemma keys_max n z l : keys (S n) = z :: l → Pd.list_max z l = Z.of_nat (S n).
Proof.
  intros E.
  assert (Z.of_nat (S n) ∈ z :: l) as Hin.
  { rewrite <- E. apply elem_of_keys. exists (S n). split; [done|lia]. }
  pose proof (list_max_upper z l _ Hin) as Hup.
  pose proof (list_max_elem z l) as Hel. rewrite <- E in Hel.
  apply elem_of_keys in Hel as (i & Hi & Hr). lia.
Qed.

(** The key of the next course on a table whose keys are 1..k. *)
Lemma next_course_id_keys rows :
  first_fields rows = Py.str_int <$> keys (length rows) →
  Z.of_nat (length rows) < Np.int64_max →
  next_course_id (Pd.frame_of courses_header rows) =
    Pd.Ok (Pd.VInt (Z.of_nat (S (length rows)))).
Proof.
  intros Hk Hr. destruct (length rows) as [|n] eqn:Hl.
  { unfold next_course_id. rewrite courses_empty, Hl. reflexivity. }
  destruct (keys (S n)) as [|z l] eqn:E; [done|].
  rewrite (next_course_id_int _ z l).
  - rewrite (keys_max n z l E). rewrite add64_next; [do 2 f_equal; lia| |done].
    unfold Np.int64_min. lia.
  - by rewrite courses_empty, Hl.
  - rewrite courses_key_column, Hk. by rewrite infer_ints.
Qed.

Lemma for_each_cons {A} (x : A) l (body : A → M unit) w :
  for_each (x :: l) body w =
    match body x w with
    | (w', Pd.Ok _) => for_each l body w'
    | (w', Pd.Raise e) => (w', Pd.Raise e)
    end.
Proof. reflexivity. Qed.

Lemma files_published k f s w :
  files (published k f s w) =
    <[COURSES_FILE := f ++ [course_line k (username (auth w)) s]]> (files w).
Proof. unfold published. by destruct (sub_image s) as [[? ?]|]. Qed.

Lemma auth_published k f s w : auth (published k f s w) = auth w.
Proof. unfold published. by destruct (sub_image s) as [[? ?]|]. Qed.

Lemma first_fields_app a b : first_fields (a ++ b) = first_fields a ++ first_fields b.
Proof. unfold first_fields. apply fmap_app. Qed.

(** Publishing a list of courses on a table whose keys are 1..k appends
    one record per call, in the order of the calls, under the keys
    k+1, k+2, ... *)
Lemma publish_all subs : ∀ w rows,
  files w !! COURSES_FILE = Some (courses_header :: rows) →
  Forall (λ r, length r = 9%nat) rows →
  first_fields rows = Py.str_int <$> keys (length rows) →
  Z.of_nat (length rows + length subs) ≤ Np.int64_max →
  let rows' :=
    imap (λ i s, course_line (Z.of_nat (S (length rows + i))) (username (auth w)) s)
         subs in
  for_each subs publish w =
    (after (for_each subs publish) w, Pd.Ok tt) ∧
  files (after (for_each subs publish) w) !! COURSES_FILE =
    Some (courses_header :: rows ++ rows') ∧
  Forall (λ r, length r = 9%nat) (rows ++ rows') ∧
  first_fields (rows ++ rows') =
    Py.str_int <$> keys (length rows + length subs).
Proof.
  induction subs as [|s subs IH]; intros w rows Hf Hw Hk Hb; cbv zeta.
  { simpl. rewrite !app_nil_r, Nat.add_0_r. done. }
  assert (Z.of_nat (length rows) < Np.int64_max) as Hlt
    by (simpl in Hb; lia).
  pose proof (save_course_int s w _ _ _ (courses_table w rows Hf Hw)
                (next_course_id_keys rows Hk Hlt) Hf) as Hrun.
  set (line := course_line (Z.of_nat (S (length rows))) (username (auth w)) s) in *.
  set (w1 := published (Z.of_nat (S (length rows))) (courses_header :: rows) s w) in *.
  assert (files w1 !! COURSES_FILE = Some (courses_header :: (rows ++ [line]))) as Hf1.
  { unfold w1. rewrite files_published, lookup_insert_eq. done. }
  assert (length (rows ++ [line]) = S (length rows)) as Hl1
    by (rewrite length_app; simpl; lia).
  specialize (IH w1 (rows ++ [line]) Hf1).
  rewrite Hl1 in IH. cbv zeta in IH.
  destruct IH as (IH1 & IH2 & IH3 & IH4).
  - apply Forall_app. split; [done|]. by constructor.
  - rewrite first_fields_app, Hk, keys_S, fmap_app. reflexivity.
  - simpl in Hb. lia.
  - unfold after in *. rewrite for_each_cons, Hrun. fold w1.
    assert (rows ++ line :: imap
              (λ i s0, course_line (Z.of_nat (S (length rows + S i)))
                         (username (auth w)) s0) subs =
            (rows ++ [line]) ++ imap
              (λ i s0, course_line (Z.of_nat (S (S (length rows) + i)))
                         (username (auth w1)) s0) subs) as Hrows.
    { assert (auth w1 = auth w) as -> by apply auth_published.
      rewrite <- app_assoc. simpl. do 2 f_equal.
      apply imap_ext. intros i s0 _.
      by replace (length rows + S i)%nat with (S (length rows) + i)%nat by lia. }
    simpl imap. unfold compose. rewrite Nat.add_0_r. fold line.
    rewrite Hrows. simpl length.
    replace (length rows + S (length subs))%nat
      with (S (length rows) + length subs)%nat by lia.
    by split_and!.
Qed.

(* ===================================================================== *)
(** ** The test for an administrator *)
(* ===================================================================== *)

Lemma eq_text_lookup s x i :
  Pd.eq_text s x !! i = Some true ↔ Pd.item s i = Some (Pd.VStr x).
Proof.
  destruct s as [l|l|l]; simpl; rewrite list_lookup_fmap;
    destruct (l !! i) as [o|]; simpl; try naive_solver.
  destruct o as [t|]; [|naive_solver].
  destruct (String.eqb_spec t x); naive_solver.
Qed.

Lemma select_elem {A} (m : list bool) (l : list A) i x :
  m !! i = Some true → l !! i = Some x → x ∈ Pd.select m l.
Proof.
  revert l i. induction m as [|b m IH]; intros [|y l] [|i]; simpl; try done.
  - intros [= ->] [= ->]. left.
  - intros Hm Hl. destruct b; [right|]; eauto.
Qed.

Lemma select_none {A} (m : list bool) (l : list A) :
  (∀ i, m !! i ≠ Some true) → Pd.select m l = [].
Proof.
  intros H. destruct (Pd.select m l) eqn:E; [done|].
  assert (Pd.select m l ≠ []) as Hne by (by rewrite E).
  apply select_nonempty in Hne as (i & Hi & _). by destruct (H i).
Qed.

Lemma any_select_none m s :
  (∀ i, m !! i ≠ Some true) → Pd.any (Pd.select_series m s) = false.
Proof. intros H. destruct s; simpl; by rewrite select_none. Qed.

Lemma find_column_elem name cols s :
  Pd.find_column name cols = Some s → (name, s) ∈ cols.
Proof.
  induction cols as [|[n s0] cols IH]; simpl; [done|].
  destruct (String.eqb_spec n name) as [->|_].
  - intros [= ->]. left.
  - intros H. right. auto.
Qed.

Lemma existsb_elem {A} (p : A → bool) (l : list A) x :
  x ∈ l → p x = true → existsb p l = true.
Proof.
  induction 1 as [y l|y z l Hin IH]; simpl; intros Hp.
  - by rewrite Hp.
  - rewrite IH by done. apply orb_true_r.
Qed.

(** The test of [initialize_system]: the table has no row, or no row
    whose role is the text [admin] as it stands. *)
Lemma no_admin_exact users r :
  Pd.getitem users "role" = Pd.Ok r →
  ∃ b, no_admin users = Pd.Ok b ∧
       (b = true ↔
        Pd.empty users = true ∨ ∀ i, Pd.item r i ≠ Some (Pd.VStr "admin")).
Proof.
  intros Hr. unfold no_admin. destruct (Pd.empty users).
  { exists true. split; [done|]. split; auto. }
  rewrite Hr. simpl. eexists. split; [reflexivity|].
  rewrite negb_true_iff. unfold Pd.any_any, Pd.where_. simpl.
  split.
  - intros Hany. right. intros i Hi.
    unfold Pd.getitem in Hr.
    destruct (Pd.find_column "role" (Pd.columns users)) as [r'|] eqn:Hf; [|done].
    injection Hr as ->. apply find_column_elem in Hf.
    assert (existsb (λ c : string * Pd.Series, Pd.any c.2)
              (prod_map id (Pd.select_series (Pd.eq_text r "admin")) <$>
               Pd.columns users) = true) as Ht; [|congruence].
    apply (existsb_elem _ _ ("role", Pd.select_series (Pd.eq_text r "admin") r)).
    + apply list_elem_of_fmap. by exists ("role", r).
    + simpl. apply item_text in Hi as (l & -> & Hl). simpl.
      apply (existsb_elem _ _ (Some "admin")); [|done].
      eapply select_elem; [|exact Hl].
      apply (eq_text_lookup (Pd.SObj l)). simpl. by rewrite Hl.
  - intros [?|Hno]; [done|].
    apply existsb_false. apply list.Forall_forall.
    intros c (c0 & -> & _)%list_elem_of_fmap. simpl.
    apply any_select_none. intros i Hi. apply (Hno i).
    by apply eq_text_lookup in Hi.
Qed.

(* ===================================================================== *)
(** ** The migration of all tables *)
(* ===================================================================== *)

Lemma ensure_schema_other path cols w q :
  q ≠ path → files (after (ensure_schema path cols) w) !! q = files w !! q.
Proof.
  intros Hq. unfold after. rewrite ensure_schema_run.
  destruct (files w !! path) as [f|]; simpl.
  - destruct (Pd.parse f) as [df|e]; [|done].
    destruct (decide _); [done|]. simpl. by rewrite lookup_insert_ne.
  - by rewrite lookup_insert_ne.
Qed.

Lemma for_each_other (l : list (string * list string)) w q :
  q ∉ l.*1 →
  files (after (for_each l (λ entry, ensure_schema entry.1 entry.2)) w) !! q =
    files w !! q.
Proof.
  revert w. induction l as [|[p c] l IH]; intros w Hq; [done|].
  rewrite fmap_cons, not_elem_of_cons in Hq. destruct Hq as [Hqp Hq].
  unfold after. rewrite for_each_cons. simpl.
  destruct (ensure_schema p c w) as [w1 [[]|e]] eqn:E.
  - pose proof (ensure_schema_other p c w q Hqp) as H1.
    unfold after in H1. rewrite E in H1. simpl in H1. rewrite <- H1.
    apply (IH w1 Hq).
  - pose proof (ensure_schema_other p c w q Hqp) as H1.
    unfold after in H1. by rewrite E in H1.
Qed.

Lemma ensure_schema_nothing path cols w df :
  table path w = Pd.Ok df → missing_columns df cols = [] →
  ensure_schema path cols w = (w, Pd.Ok tt).
Proof.
  intros (f & Hf & Hp)%table_inv Hm.
  by rewrite ensure_schema_run, Hf, Hp, decide_True.
Qed.

Lemma table_same_file path w w' :
  files w !! path = files w' !! path → table path w = table path w'.
Proof.
  intros H. unfold table, outcome, read_csv, mbind, M_bind, get, raise, lift.
  simpl. rewrite H. by destruct (files w' !! path).
Qed.

Lemma for_each_settles (l : list (string * list string)) : ∀ w,
  NoDup l.*1 → Forall (λ entry, entry.2 ≠ []) l →
  let body := λ entry : string * list string, ensure_schema entry.1 entry.2 in
  for_each l body (after (for_each l body) w) =
    (after (for_each l body) w, outcome (for_each l body) w).
Proof.
  induction l as [|[p c] l IH]; intros w Hnd Hne; cbv zeta; [done|].
  rewrite fmap_cons in Hnd. apply NoDup_cons in Hnd as [Hp Hnd].
  inversion Hne as [|? ? Hc Hne']; subst. simpl in Hc.
  destruct (ensure_schema_settles p c w Hc) as [Hagain Hdone].
  unfold after, outcome in *. rewrite (for_each_cons _ _ _ w). simpl.
  destruct (ensure_schema p c w) as [w1 [[]|e]] eqn:E; simpl in *.
  - destruct (Hdone eq_refl) as (df & Ht & Hm).
    specialize (IH w1 Hnd Hne'). cbv zeta in IH.
    pose proof (for_each_other l w1 p Hp) as Hsame. unfold after in Hsame.
    destruct (for_each l (λ entry, ensure_schema entry.1 entry.2) w1)
      as [W R] eqn:EW. simpl in *.
    unfold mbind, M_bind.
    rewrite (ensure_schema_nothing p c W df); [exact IH| |done].
    rewrite <- Ht. by apply table_same_file.
  - unfold mbind, M_bind. by rewrite Hagain.
Qed.

Lemma migrate_settles w :
  migrate (after migrate w) = (after migrate w, outcome migrate w).
Proof.
  apply (for_each_settles REQUIRED_STRUCTURE w).
  - apply (bool_decide_unpack _). vm_compute. done.
  - repeat constructor; done.
Qed.

(* ===================================================================== *)
(** ** The first run and the first courses *)
(* ===================================================================== *)

(** C1.  From an empty store, [initialize_system] leaves one Users row,
    the administrator, who can log in; the first course a teacher
    publishes gets [course_id] 1 and the second 2.  The course row is
    written in the order of the dictionary in [save_course], not of the
    header of the file, so under the header the status ["Open"] stands in
    the [created_at] column and the [enrollment_status] column holds the
    (here empty) YouTube link. *)
Theorem first_course_row_is_shifted :
  table USERS_FILE booted =
    Pd.Ok {| Pd.columns :=
               [("user_id", Pd.SInt [1]);
                ("username", Pd.SObj [Some "admin"]);
                ("password", Pd.SObj [Some "admin123"]);
                ("role", Pd.SObj [Some "admin"]);
                ("created_at", Pd.SObj [Some "2024-03-01 09:00:00"])];
             Pd.index := 1 |} ∧
  outcome (authenticate "admin" "admin123" "Admin") booted = Pd.Ok true ∧
  table COURSES_FILE first_course =
    Pd.Ok {| Pd.columns :=
               [("course_id", Pd.SInt [1]);
                ("course_name", Pd.SObj [Some "Intro"]);
                ("description", Pd.SObj [Some "First steps"]);
                ("instructor", Pd.SObj [Some "tina"]);
                ("schedule", Pd.SObj [Some "Mon 10-11"]);
                ("created_at", Pd.SObj [Some "Open"]);
                ("enrollment_status", Pd.SFloat [None]);
                ("image_path", Pd.SFloat [None]);
                ("youtube_link", Pd.SObj [Some "2024-03-01 09:10:00"])];
             Pd.index := 1 |} ∧
  Pd.bind (table COURSES_FILE second_course) (λ df, Pd.getitem df "course_id") =
    Pd.Ok (Pd.SInt [1; 2]) ∧
  Pd.bind (table COURSES_FILE second_course) (λ df, Pd.getitem df "enrollment_status") =
    Pd.Ok (Pd.SFloat [None; None]).
Proof. vm_compute. done. Qed.

(* ===================================================================== *)
(** ** The default administrator *)
(* ===================================================================== *)

(** C2.  The test of [initialize_system] compares the role with the text
    [admin] as it stands: it asks for the default administrator when the
    table has no row or no row whose role is exactly [admin].  A Users
    table whose administrator is stored as [Admin] logs that user in as
    an administrator, and still gets the default administrator appended. *)
Theorem default_admin_added_beside_capital_admin :
  (∀ users r,
     Pd.getitem users "role" = Pd.Ok r →
     ∃ b, no_admin users = Pd.Ok b ∧
          (b = true ↔
           Pd.empty users = true ∨ ∀ i, Pd.item r i ≠ Some (Pd.VStr "admin"))) ∧
  outcome (authenticate "root" "secret" "admin") capital_admin = Pd.Ok true ∧
  files (after (initialize_system "2024-03-01 09:00:00") capital_admin) !! USERS_FILE =
    Some [users_header;
          ["1"; "root"; "secret"; "Admin"; "2024-01-01 08:00:00"];
          ["1"; "admin"; "admin123"; "admin"; "2024-03-01 09:00:00"]].
Proof.
  split; [apply no_admin_exact|]. vm_compute. done.
Qed.

(** C3.  The default administrator always gets [user_id] 1.  After the
    administrator row was removed by hand, the key of the new row is
    below the largest key of the table, or equal to a key already there. *)
Theorem default_admin_key_is_always_one :
  Pd.bind (table USERS_FILE (after (initialize_system "2024-03-01 09:00:00") staff_only))
          (λ df, Pd.getitem df "user_id") = Pd.Ok (Pd.SInt [2; 3; 1]) ∧
  Pd.bind (table USERS_FILE (after (initialize_system "2024-03-01 09:00:00") teacher_only))
          (λ df, Pd.getitem df "user_id") = Pd.Ok (Pd.SInt [1; 1]).
Proof. vm_compute. done. Qed.

(* ===================================================================== *)
(** ** Authentication *)
(* ===================================================================== *)

(** C4.  [authenticate] compares the cells of the Users table as the
    reader typed them, not the fields as they are stored, so a record
    that repeats the input field by field need not log in.  A user the
    admin form created under the name [NA] is stored under that name and
    read back without a name: the login is refused.  On a file whose
    only username is made of digits the [.str] accessor raises: the
    error is shown and the result is false.  On a file whose only
    password starts with zeros the password is read as the number 7: the
    input [007] is refused and the input [7] logs in.  The three
    examples of the specification come out as stated. *)
Theorem authenticate_compares_typed_cells :
  (files na_user !! USERS_FILE =
     Some [users_header;
           ["1"; "admin"; "admin123"; "admin"; "2024-03-01 09:00:00"];
           ["2"; "NA"; "pw"; "student"; "2024-03-01 09:05:00"]] ∧
   record_matches ["2"; "NA"; "pw"; "student"; "2024-03-01 09:05:00"]
     "NA" "pw" "Student" ∧
   authenticate "NA" "pw" "Student" na_user = (na_user, Pd.Ok false)) ∧
  (files digits_username !! USERS_FILE =
     Some [users_header; ["1"; "42"; "secret"; "admin"; "2024-01-01 08:00:00"]] ∧
   record_matches ["1"; "42"; "secret"; "admin"; "2024-01-01 08:00:00"]
     "42" "secret" "admin" ∧
   authenticate "42" "secret" "admin" digits_username =
     (show (st_error ("Authentication error: " +:+ exn_str Pd.AttributeError))
        digits_username,
      Pd.Ok false)) ∧
  (files padded_password !! USERS_FILE =
     Some [users_header; ["1"; "bob"; "007"; "student"; "2024-01-01 08:00:00"]] ∧
   record_matches ["1"; "bob"; "007"; "student"; "2024-01-01 08:00:00"]
     "bob" "007" "student" ∧
   authenticate "bob" "007" "student" padded_password =
     (padded_password, Pd.Ok false) ∧
   authenticate "bob" "7" "student" padded_password =
     (padded_password, Pd.Ok true)) ∧
  outcome (authenticate " Admin " "admin123" "Admin") stored_admin = Pd.Ok true ∧
  outcome (authenticate "admin" "admin123" "student") stored_admin = Pd.Ok false ∧
  outcome (authenticate "admin" " admin124" "admin") stored_admin = Pd.Ok false.
Proof.
  split_and!; try (vm_compute; reflexivity);
    unfold record_matches; vm_compute; done.
Qed.

(** C9.  On a Users table without rows [authenticate] returns false and
    shows nothing; when the table cannot be loaded it returns false and
    shows the error. *)
Theorem authenticate_fails_closed w username password role :
  (∀ users, table USERS_FILE w = Pd.Ok users → Pd.empty users = true →
     authenticate username password role w = (w, Pd.Ok false)) ∧
  (∀ e, table USERS_FILE w = Pd.Raise e →
     authenticate username password role w =
       (show (st_error ("Authentication error: " +:+ exn_str e)) w, Pd.Ok false)).
Proof.
  split.
  - intros users Ht He. by rewrite authenticate_run, Ht, He.
  - intros e Ht. by rewrite authenticate_run, Ht.
Qed.

Lemma authenticate_fails_closed_witness :
  authenticate "admin" "admin123" "Admin" (users_store []) =
    (users_store [], Pd.Ok false) ∧
  authenticate "admin" "admin123" "Admin" empty_store =
    (show (st_error ("Authentication error: " +:+
                     exn_str (Pd.FileNotFoundError USERS_FILE))) empty_store,
     Pd.Ok false).
Proof.
  split.
  - apply (proj1 (authenticate_fails_closed (users_store []) "admin" "admin123" "Admin")
             (Pd.frame_of users_header [])); reflexivity.
  - apply (proj2 (authenticate_fails_closed empty_store "admin" "admin123" "Admin"));
      reflexivity.
Defined.



(* ===================================================================== *)
(** ** User management *)
(* ===================================================================== *)

(** C8.  The user form tests the name as it was typed and stores it
    trimmed.  On the store of the first run, whose only user is [admin],
    the name [admin] typed with a blank after it passes the test: the
    form reports success, and the Users file gets a second record whose
    username is [admin]. *)
Theorem padded_duplicate_is_created :
  files booted !! USERS_FILE =
    Some [users_header; ["1"; "admin"; "admin123"; "admin"; "2024-03-01 09:00:00"]] ∧
  Py.lower (Py.strip (new_username padded_form)) = Py.lower "admin" ∧
  outcome (admin_dashboard "2024-03-01 09:05:00" padded_form) booted = Pd.Ok tt ∧
  files (after (admin_dashboard "2024-03-01 09:05:00" padded_form) booted)
    !! USERS_FILE =
    Some [users_header;
          ["1"; "admin"; "admin123"; "admin"; "2024-03-01 09:00:00"];
          ["2"; "admin"; "guess"; "student"; "2024-03-01 09:05:00"]] ∧
  last (screen (after (admin_dashboard "2024-03-01 09:05:00" padded_form) booted)) =
    Some st_rerun.
Proof. split_and!; vm_compute; reflexivity. Qed.

(* ===================================================================== *)
(** ** Schema migration *)
(* ===================================================================== *)

Lemma required_columns_distinct path cols :
  (path, cols) ∈ REQUIRED_STRUCTURE → NoDup cols ∧ cols ≠ [].
Proof.
  unfold REQUIRED_STRUCTURE. rewrite !elem_of_cons, elem_of_nil.
  intros [H|[H|[H|[H|[]]]]]; injection H as -> ->;
    (split; [apply (bool_decide_unpack _); vm_compute; done|done]).
Qed.

(** C5.  When a table that exists lacks some required columns, the
    migration succeeds and the table read afterwards has the same number
    of rows, the same columns with the same values in the same order, and
    after them the missing columns, in the order of the registry, with no
    value in any row. *)
Theorem migration_preserves_rows path cols w df :
  (path, cols) ∈ REQUIRED_STRUCTURE →
  table path w = Pd.Ok df →
  missing_columns df cols ≠ [] →
  outcome (ensure_schema path cols) w = Pd.Ok tt ∧
  table path (after (ensure_schema path cols) w) =
    Pd.Ok (with_null_columns df (missing_columns df cols)) ∧
  (∀ i, (i < Pd.index df)%nat →
        Pd.item (null_column (Pd.index df)) i = Some (Pd.VFloat None)).
Proof.
  intros [Hnd _]%required_columns_distinct Ht Hm.
  destruct (migration_adds_null_columns path cols w df Hnd Ht Hm) as [H1 H2].
  split_and!; [done|done|]. intros i. apply null_column_item.
Qed.

Lemma migration_preserves_rows_witness :
  table USERS_FILE (after (ensure_schema USERS_FILE users_header) legacy_users) =
    Pd.Ok {| Pd.columns :=
               [("user_id", Pd.SInt [1; 7]);
                ("username", Pd.SObj [Some "admin"; Some "tina"]);
                ("password", Pd.SObj [Some "admin123"; Some "chalk"]);
                ("role", Pd.SObj [Some "admin"; Some "teacher"]);
                ("created_at", Pd.SFloat [None; None])];
             Pd.index := 2 |}.
Proof.
  assert ((USERS_FILE, users_header) ∈ REQUIRED_STRUCTURE) as Hin by left.
  destruct (migration_preserves_rows USERS_FILE users_header legacy_users
              {| Pd.columns :=
                   [("user_id", Pd.SInt [1; 7]);
                    ("username", Pd.SObj [Some "admin"; Some "tina"]);
                    ("password", Pd.SObj [Some "admin123"; Some "chalk"]);
                    ("role", Pd.SObj [Some "admin"; Some "teacher"])];
                 Pd.index := 2 |} Hin eq_refl) as (_ & H & _).
  - vm_compute. discriminate.
  - exact H.
Defined.

(** C6.  Running the migration of a table a second time changes nothing:
    the world and the result are those of the first run, and after a
    first run that succeeded the second finds no missing column, so it
    does not write.  The same holds for the loop over the four tables. *)
Theorem migration_idempotent path cols w :
  (path, cols) ∈ REQUIRED_STRUCTURE →
  ensure_schema path cols (after (ensure_schema path cols) w) =
    (after (ensure_schema path cols) w, outcome (ensure_schema path cols) w) ∧
  (outcome (ensure_schema path cols) w = Pd.Ok tt →
   ∃ df, table path (after (ensure_schema path cols) w) = Pd.Ok df ∧
         missing_columns df cols = []) ∧
  migrate (after migrate w) = (after migrate w, outcome migrate w).
Proof.
  intros [_ Hne]%required_columns_distinct.
  destruct (ensure_schema_settles path cols w Hne) as [H1 H2].
  split_and!; [done|done|apply migrate_settles].
Qed.

Lemma migration_idempotent_witness :
  ensure_schema USERS_FILE users_header
    (after (ensure_schema USERS_FILE users_header) legacy_users) =
  (after (ensure_schema USERS_FILE users_header) legacy_users, Pd.Ok tt).
Proof.
  assert ((USERS_FILE, users_header) ∈ REQUIRED_STRUCTURE) as Hin by left.
  exact (proj1 (migration_idempotent USERS_FILE users_header legacy_users Hin)).
Defined.

(* ===================================================================== *)
(** ** Identifiers *)
(* ===================================================================== *)

(** C7.  The next identifier is 1 on a table without rows and, on a table
    whose key column holds integers, the largest key plus one (inside the
    64-bit range).  Publishing n courses one after the other on the
    Courses table that [initialize_system] created appends n records, the
    i-th call writing its record under key i, so that the keys of the
    table read 1, 2, ..., n in the order of the calls. *)
Theorem identifiers_count_up :
  (∀ df, Pd.empty df = true →
     next_course_id df = Pd.Ok (Pd.VInt 1) ∧ next_user_id df = Pd.Ok (Pd.VInt 1)) ∧
  (∀ df z l,
     Pd.empty df = false →
     Np.int64_min ≤ Pd.list_max z l < Np.int64_max →
     (Pd.getitem df "course_id" = Pd.Ok (Pd.SInt (z :: l)) →
      next_course_id df = Pd.Ok (Pd.VInt (Pd.list_max z l + 1))) ∧
     (Pd.getitem df "user_id" = Pd.Ok (Pd.SInt (z :: l)) →
      next_user_id df = Pd.Ok (Pd.VInt (Pd.list_max z l + 1)))) ∧
  (∀ z l, Pd.list_max z l ∈ z :: l ∧ ∀ x, x ∈ z :: l → x ≤ Pd.list_max z l) ∧
  (∀ w subs,
     files w !! COURSES_FILE = Some [courses_header] →
     Z.of_nat (length subs) ≤ Np.int64_max →
     let w' := after (for_each subs publish) w in
     let rows :=
       imap (λ i s, course_line (Z.of_nat (S i)) (username (auth w)) s) subs in
     outcome (for_each subs publish) w = Pd.Ok tt ∧
     files w' !! COURSES_FILE = Some (courses_header :: rows) ∧
     first_fields rows = Py.str_int <$> keys (length subs) ∧
     (subs ≠ [] →
      Pd.bind (table COURSES_FILE w') (λ df, Pd.getitem df "course_id") =
        Pd.Ok (Pd.SInt (keys (length subs))))).
Proof.
  split_and!.
  - intros df He. unfold next_course_id, next_user_id. by rewrite He.
  - intros df z l He [Hlo Hhi]. split; intros Hc.
    + rewrite (next_course_id_int df z l He Hc). by rewrite add64_next.
    + rewrite (next_user_id_int df z l He Hc). by rewrite add64_next.
  - intros z l. split; [apply list_max_elem|]. intros x. apply list_max_upper.
  - intros w subs Hf Hb. cbv zeta.
    destruct (publish_all subs w [] Hf) as (H1 & H2 & H3 & H4);
      [done|done|simpl; lia|].
    simpl in H2, H3, H4.
    split_and!.
    + unfold outcome. by rewrite H1.
    + exact H2.
    + exact H4.
    + intros Hne. rewrite (courses_table _ _ H2 H3). simpl Pd.bind.
      rewrite courses_key_column, H4. rewrite infer_ints; [done|].
      destruct subs as [|s subs]; [done|]. simpl length. rewrite keys_S.
      by destruct (keys (length subs)).
Qed.

Lemma identifiers_count_up_witness :
  next_course_id (Pd.frame_of courses_header []) = Pd.Ok (Pd.VInt 1) ∧
  next_user_id (Pd.frame_of courses_header []) = Pd.Ok (Pd.VInt 1) ∧
  Pd.bind (table COURSES_FILE (after (for_each three_courses publish) booted))
          (λ df, Pd.getitem df "course_id") =
    Pd.Ok (Pd.SInt [1; 2; 3]).
Proof.
  change [1; 2; 3] with (keys (length three_courses)).
  destruct identifiers_count_up as (H1 & _ & _ & H4).
  assert (files booted !! COURSES_FILE = Some [courses_header]) as Hf
    by (vm_compute; reflexivity).
  assert (Z.of_nat (length three_courses) ≤ Np.int64_max) as Hb
    by (vm_compute; discriminate).
  destruct (H4 booted three_courses Hf Hb) as (_ & _ & _ & H).
  destruct (H1 (Pd.frame_of courses_header []) eq_refl) as [Ha Hb'].
  split_and!; [exact Ha|exact Hb'|].
  apply H. discriminate.
Defined.

(* ===================================================================== *)
(** ** More on trimming and lower-casing *)
(* ===================================================================== *)

Lemma lstrip_lstrip s : Py.lstrip (Py.lstrip s) = Py.lstrip s.
Proof.
  induction s as [|c s IH]; simpl; [done|].
  destruct (Py.is_space c) eqn:E; [done|]. simpl. by rewrite E.
Qed.

Lemma rstrip_rstrip s : Py.rstrip (Py.rstrip s) = Py.rstrip s.
Proof.
  induction s as [|c s IH]; simpl; [done|].
  destruct (Py.rstrip s) as [|c' t] eqn:E.
  - destruct (Py.is_space c) eqn:Ec; simpl; [done|]. by rewrite Ec.
  - simpl in *. by rewrite IH.
Qed.

Lemma headed_lstrip s : headed (Py.lstrip s).
Proof.
  induction s as [|c s IH]; simpl; [done|].
  destruct (Py.is_space c) eqn:E; [done|]. simpl. done.
Qed.

Lemma lstrip_headed s : headed s → Py.lstrip s = s.
Proof. destruct s as [|c s]; simpl; [done|]. by intros ->. Qed.

Lemma headed_rstrip s : headed s → headed (Py.rstrip s).
Proof.
  destruct s as [|c s]; simpl; [done|]. intros Hc.
  destruct (Py.rstrip s); simpl; by rewrite ?Hc.
Qed.

Lemma strip_strip s : Py.strip (Py.strip s) = Py.strip s.
Proof.
  unfold Py.strip.
  rewrite (lstrip_headed (Py.rstrip (Py.lstrip s)))
    by apply headed_rstrip, headed_lstrip.
  apply rstrip_rstrip.
Qed.

Lemma is_space_lower c : Py.is_space (Py.lower_char c) = Py.is_space c.
Proof. by destruct c as [[] [] [] [] [] [] [] []]. Qed.

Lemma lower_char_lower c : Py.lower_char (Py.lower_char c) = Py.lower_char c.
Proof. by destruct c as [[] [] [] [] [] [] [] []]. Qed.

Lemma lower_lower s : Py.lower (Py.lower s) = Py.lower s.
Proof.
  induction s as [|c s IH]; simpl; [done|]. by rewrite lower_char_lower, IH.
Qed.

Lemma lstrip_lower s : Py.lstrip (Py.lower s) = Py.lower (Py.lstrip s).
Proof.
  induction s as [|c s IH]; simpl; [done|].
  rewrite is_space_lower. by destruct (Py.is_space c).
Qed.

Lemma rstrip_lower s : Py.rstrip (Py.lower s) = Py.lower (Py.rstrip s).
Proof.
  induction s as [|c s IH]; simpl; [done|].
  rewrite IH, is_space_lower.
  destruct (Py.rstrip s); simpl; [|done]. by destruct (Py.is_space c).
Qed.

Lemma strip_lower s : Py.strip (Py.lower s) = Py.lower (Py.strip s).
Proof. unfold Py.strip. by rewrite lstrip_lower, rstrip_lower. Qed.

(* ===================================================================== *)
(** ** More on [authenticate] and the login form *)
(* ===================================================================== *)

Lemma authenticate_world username password role w :
  after (authenticate username password role) w = w ∨
  ∃ e, after (authenticate username password role) w =
         show (st_error ("Authentication error: " +:+ exn_str e)) w.
Proof.
  unfold after. rewrite authenticate_run.
  destruct (table USERS_FILE w) as [users|e]; [|right; by exists e].
  destruct (Pd.empty users); [by left|].
  destruct (credentials_mask users username password role) as [m|e];
    [by left|right; by exists e].
Qed.

Lemma credentials_mask_normal users u u' p p' r r' :
  Py.lower (Py.strip u) = Py.lower (Py.strip u') →
  Py.strip p = Py.strip p' →
  Py.lower (Py.strip r) = Py.lower (Py.strip r') →
  credentials_mask users u p r = credentials_mask users u' p' r'.
Proof. intros Hu Hp Hr. unfold credentials_mask. by rewrite Hu, Hp, Hr. Qed.

Lemma show_login_run role_ username_ password w :
  show_login role_ username_ password w =
    match authenticate username_ password role_ w with
    | (w', Pd.Ok true) =>
        (show st_rerun
           (set_auth {| logged_in := true; role := Some (Py.lower role_);
                        username := Some username_ |} w'),
         Pd.Ok tt)
    | (w', Pd.Ok false) =>
        (show (st_error "Invalid credentials or permissions") w', Pd.Ok tt)
    | (w', Pd.Raise e) => (w', Pd.Raise e)
    end.
Proof.
  unfold show_login. unfold mbind at 1. unfold M_bind.
  destruct (authenticate username_ password role_ w) as [w' [[]|e]]; done.
Qed.

(* ===================================================================== *)
(** ** Appending a record to a table *)
(* ===================================================================== *)

Lemma forallb_app_false {A} (p : A → bool) (l k : list A) :
  forallb p l = false → forallb p (l ++ k) = false.
Proof. intros H. by rewrite forallb_app, H. Qed.

Lemma infer_app_obj fs l f :
  fs ≠ [] → Pd.infer fs = Pd.SObj l →
  Pd.infer (fs ++ [f]) = Pd.SObj (l ++ [if Field.is_na f then None else Some f]).
Proof.
  intros Hne. rewrite (infer_unfold fs Hne).
  rewrite infer_unfold by (by destruct fs). cbv zeta.
  rewrite !fmap_app.
  destruct (forallb Field.is_int (Field.classify <$> fs)) eqn:Hi; [done|].
  destruct (forallb Field.is_numeric (Field.classify <$> fs)) eqn:Hn; [done|].
  intros [= <-]. by rewrite !forallb_app_false.
Qed.

Lemma parse_append lines df h line :
  Pd.parse lines = Pd.Ok df → Pd.names df = h →
  line ≠ [] → (length line ≤ length h)%nat →
  ∃ recs, df = Pd.frame_of h recs ∧
          Pd.parse (lines ++ [line]) = Pd.Ok (Pd.frame_of h (recs ++ [line])).
Proof.
  intros (h' & recs & Hf & Hh & Hlong & ->)%parse_inv Hn Hline Hlen.
  rewrite names_frame_of in Hn. subst h'. exists recs. split; [done|].
  unfold Pd.parse, Pd.csv in *.
  assert (filter (λ r, Pd.is_blank r = false) (lines ++ [line]) =
          h :: (recs ++ [line])) as ->.
  { rewrite (filter_app (λ r, Pd.is_blank r = false) lines [line]), Hf.
    rewrite (filter_all (λ r, Pd.is_blank r = false) [line]); [done|].
    constructor; [by destruct line|done]. }
  rewrite existsb_app, Hlong. simpl.
  by rewrite (proj2 (Nat.ltb_ge _ _) Hlen).
Qed.

Lemma users_columns recs :
  Pd.getitem (Pd.frame_of users_header recs) "user_id" =
    Pd.Ok (Pd.infer (Pd.field_at 0 <$> recs)) ∧
  Pd.getitem (Pd.frame_of users_header recs) "username" =
    Pd.Ok (Pd.infer (Pd.field_at 1 <$> recs)) ∧
  Pd.getitem (Pd.frame_of users_header recs) "password" =
    Pd.Ok (Pd.infer (Pd.field_at 2 <$> recs)) ∧
  Pd.getitem (Pd.frame_of users_header recs) "role" =
    Pd.Ok (Pd.infer (Pd.field_at 3 <$> recs)) ∧
  Pd.getitem (Pd.frame_of users_header recs) "created_at" =
    Pd.Ok (Pd.infer (Pd.field_at 4 <$> recs)).
Proof. done. Qed.

Lemma users_empty recs :
  Pd.empty (Pd.frame_of users_header recs) = (length recs =? 0)%nat.
Proof. reflexivity. Qed.

Lemma item_last_obj (l : list (option string)) f :
  Field.is_na f = false →
  Pd.item (Pd.SObj (l ++ [if Field.is_na f then None else Some f])) (length l) =
    Some (Pd.VStr f).
Proof.
  intros ->. simpl. by rewrite lookup_app_r, Nat.sub_diag by lia.
Qed.

(* ===================================================================== *)
(** ** The user form *)
(* ===================================================================== *)

Lemma to_csv_user_record v f now :
  Pd.to_csv (Pd.from_record (new_user_record v f now)) false = [user_line v f now].
Proof. by destruct v as [?|[?|]|?|]. Qed.

(** What [admin_dashboard] does on the User Management page, exit by
    exit. *)
Lemma admin_dashboard_run now f w :
  choice f = "User Management" →
  admin_dashboard now f w =
    match table USERS_FILE w with
    | Pd.Raise e => (w, Pd.Raise e)
    | Pd.Ok users =>
        match getitems users ["username"; "role"; "created_at"] with
        | Pd.Raise e => (w, Pd.Raise e)
        | Pd.Ok shown =>
            let w1 := show (st_dataframe {| Pd.columns := shown;
                                            Pd.index := Pd.index users |}) w in
            if create_user f then
              if negb (forallb Py.truthy
                         [new_username f; new_password f; confirm_password f])
              then (show (st_error "Please fill all required fields (*)") w1, Pd.Ok tt)
              else if negb (String.eqb (new_password f) (confirm_password f))
              then (show (st_error "Passwords do not match!") w1, Pd.Ok tt)
              else
                match username_taken users (new_username f) with
                | Pd.Raise e => (w1, Pd.Raise e)
                | Pd.Ok true =>
                    (show (st_error "Username already exists!") w1, Pd.Ok tt)
                | Pd.Ok false =>
                    match next_user_id users with
                    | Pd.Raise e => (w1, Pd.Raise e)
                    | Pd.Ok v =>
                        (user_created v (default [] (files w !! USERS_FILE)) f now w1,
                         Pd.Ok tt)
                    end
                end
            else (w1, Pd.Ok tt)
        end
    end.
Proof.
  intros Hch. unfold admin_dashboard. rewrite Hch, String.eqb_refl.
  unfold mbind at 1. unfold M_bind. rewrite read_csv_run.
  destruct (table USERS_FILE w) as [users|e]; [|done].
  unfold mbind at 1. unfold M_bind, lift.
  destruct (getitems users _) as [shown|e]; [|done].
  unfold mbind at 1. unfold M_bind, modify. cbv zeta.
  destruct (create_user f); [|done].
  destruct (negb (forallb Py.truthy _)); [done|].
  destruct (negb (String.eqb _ _)); [done|].
  unfold mbind at 1. unfold M_bind.
  destruct (username_taken users (new_username f)) as [[]|e]; [done| |done].
  unfold mbind at 1. unfold M_bind.
  destruct (next_user_id users) as [v|e]; [|done].
  unfold user_created, to_csv_append, modify, mbind, M_bind.
  by rewrite to_csv_user_record.
Qed.

Lemma admin_dashboard_other_page now f w :
  choice f ≠ "User Management" → admin_dashboard now f w = (w, Pd.Ok tt).
Proof.
  intros Hch. unfold admin_dashboard.
  by destruct (String.eqb_spec (choice f) "User Management").
Qed.

Lemma table_file path w df :
  table path w = Pd.Ok df → ∃ lines, files w !! path = Some lines.
Proof. intros (f & Hf & _)%table_inv. eauto. Qed.

Lemma obj_column_length fs l : Pd.infer fs = Pd.SObj l → length l = length fs.
Proof. intros H. rewrite <- (size_infer fs), H. done. Qed.

(** After a record is appended, a text column of a table with rows has
    the field of the record as its last cell. *)
Lemma appended_text_cell recs line j l f :
  recs ≠ [] →
  Pd.infer (Pd.field_at j <$> recs) = Pd.SObj l →
  Pd.field_at j line = f → Field.is_na f = false →
  ∃ l', Pd.infer (Pd.field_at j <$> (recs ++ [line])) = Pd.SObj l' ∧
        Pd.item (Pd.SObj l') (length recs) = Some (Pd.VStr f).
Proof.
  intros Hne Hl Hf Hna. rewrite fmap_app. simpl. rewrite Hf.
  rewrite (infer_app_obj _ l f) by (done || by destruct recs).
  eexists. split; [done|].
  rewrite <- (length_fmap (Pd.field_at j) recs), <- (obj_column_length _ _ Hl).
  by apply item_last_obj.
Qed.

(* ===================================================================== *)
(** ** More on [save_course] *)
(* ===================================================================== *)

Lemma astype_int_size s s' : Pd.astype_int s = Pd.Ok s' → Pd.size s' = Pd.size s.
Proof.
  destruct s as [l|l|l]; simpl.
  - by intros [= <-].
  - destruct (mapM id l) as [zs|] eqn:E; [|done]. intros [= <-]. simpl.
    apply length_mapM in E. done.
  - destruct l; [|done]. by intros [= <-].
Qed.

Lemma astype_int_int s s' : Pd.astype_int s = Pd.Ok s' → ∃ zs, s' = Pd.SInt zs.
Proof.
  destruct s as [l|l|l]; simpl.
  - intros [= <-]. eauto.
  - destruct (mapM id l); [|done]. intros [= <-]. eauto.
  - destruct l; [|done]. intros [= <-]. eauto.
Qed.

Lemma nonempty_index df : Pd.empty df = false → Pd.index df ≠ 0%nat.
Proof.
  unfold Pd.empty. destruct (Pd.columns df); [done|].
  by intros ?%Nat.eqb_neq.
Qed.

(** On a table as it is read, the key [save_course] allocates is an
    integer. *)
Lemma next_course_id_is_int df v :
  well_formed df → next_course_id df = Pd.Ok v → ∃ k, v = Pd.VInt k.
Proof.
  intros Hwf. unfold next_course_id.
  destruct (Pd.empty df) eqn:He; simpl; [intros [= <-]; eauto|].
  destruct (Pd.getitem df "course_id") as [c|] eqn:Hc; [|done]. simpl.
  destruct (Pd.astype_int c) as [c'|] eqn:Ha; [|done]. simpl.
  rewrite (getitem_setitem df "course_id" c' c Hc). simpl.
  destruct (astype_int_int _ _ Ha) as [zs ->].
  pose proof (astype_int_size _ _ Ha) as Hs.
  rewrite (getitem_size df "course_id" c Hwf Hc) in Hs. simpl in Hs.
  pose proof (nonempty_index df He).
  destruct zs as [|z zs]; [simpl in Hs; lia|]. simpl. intros [= <-]. eauto.
Qed.

(** What [save_course] does, exit by exit. *)
Lemma save_course_run s w :
  publish s w =
    match table COURSES_FILE w with
    | Pd.Raise e =>
        (show (st_error ("Error saving course: " +:+ exn_str e)) w, Pd.Ok tt)
    | Pd.Ok df =>
        match next_course_id df with
        | Pd.Raise e =>
            (show (st_error ("Error saving course: " +:+ exn_str e)) w, Pd.Ok tt)
        | Pd.Ok v =>
            match v, files w !! COURSES_FILE with
            | Pd.VInt k, Some lines => (published k lines s w, Pd.Ok tt)
            | _, _ => publish s w
            end
        end
    end.
Proof.
  destruct (table COURSES_FILE w) as [df|e] eqn:Ht.
  - destruct (next_course_id df) as [v|e] eqn:Hn.
    + destruct v as [k| | |]; try done.
      destruct (files w !! COURSES_FILE) as [lines|] eqn:Hl; [|done].
      by apply (save_course_int s w df k lines).
    + unfold publish, save_course, try_except.
      unfold mbind at 1. unfold M_bind. rewrite read_csv_run, Ht.
      unfold mbind at 1. unfold M_bind, lift. by rewrite Hn.
  - unfold publish, save_course, try_except.
    unfold mbind at 1. unfold M_bind. by rewrite read_csv_run, Ht.
Qed.

(** The three exits of [save_course]: two failures that write nothing
    and the success that appends. *)
Lemma save_course_cases s w :
  (∃ e, publish s w =
          (show (st_error ("Error saving course: " +:+ exn_str e)) w, Pd.Ok tt)) ∨
  (∃ k lines, files w !! COURSES_FILE = Some lines ∧
              publish s w = (published k lines s w, Pd.Ok tt)).
Proof.
  rewrite save_course_run.
  destruct (table COURSES_FILE w) as [df|e] eqn:Ht; [|left; eauto].
  destruct (next_course_id df) as [v|e] eqn:Hn; [|left; eauto].
  destruct (next_course_id_is_int df v (table_well_formed _ _ _ Ht) Hn) as [k ->].
  destruct (table_file _ _ _ Ht) as [lines Hl]. rewrite Hl.
  right. eauto.
Qed.

Lemma uploads_published k f s w :
  uploads (published k f s w) =
    match sub_image s with
    | Some (image_name, buffer) =>
        <[image_path k image_name := buffer]> (uploads w)
    | None => uploads w
    end.
Proof. unfold published. by destruct (sub_image s) as [[? ?]|]. Qed.

Lemma screen_published k f s w :
  screen (published k f s w) =
    screen w ++ [st_success "Course published successfully!"; st_balloons].
Proof.
  unfold published. destruct (sub_image s) as [[? ?]|]; simpl;
    by rewrite <- app_assoc.
Qed.

(* ===================================================================== *)
(** ** More on [initialize_system] *)
(* ===================================================================== *)

Lemma initialize_system_run now w :
  initialize_system now w =
    match migrate w with
    | (w1, Pd.Raise e) => (init_failed e w1, Pd.Ok tt)
    | (w1, Pd.Ok _) =>
        match table USERS_FILE w1 with
        | Pd.Raise e => (init_failed e w1, Pd.Ok tt)
        | Pd.Ok users =>
            match no_admin users with
            | Pd.Raise e => (init_failed e w1, Pd.Ok tt)
            | Pd.Ok true =>
                (set_files
                   (<[USERS_FILE := default [] (files w1 !! USERS_FILE) ++
                                    [admin_line now]]> (files w1)) w1,
                 Pd.Ok tt)
            | Pd.Ok false => (w1, Pd.Ok tt)
            end
        end
    end.
Proof.
  unfold initialize_system, try_except.
  unfold mbind at 1. unfold M_bind.
  destruct (migrate w) as [w1 [[]|e]]; [|done].
  unfold mbind at 1. unfold M_bind. rewrite read_csv_run.
  destruct (table USERS_FILE w1) as [users|e] eqn:Ht; [|done].
  unfold mbind at 1. unfold M_bind, lift.
  destruct (no_admin users) as [[]|e]; [|done|done].
  destruct (table_file _ _ _ Ht) as [lines Hl].
  unfold path_exists, to_csv_append, get, modify.
  unfold mbind, M_bind, mret, M_ret. cbn beta iota.
  unfold lookup in Hl |- *. rewrite Hl. reflexivity.
Qed.

Lemma missing_none_elem df cols col :
  missing_columns df cols = [] → col ∈ cols → col ∈ Pd.names df.
Proof.
  intros Hm Hc. destruct (missing_columns_elem df cols col Hc) as [H|H]; [done|].
  rewrite Hm in H. by apply elem_of_nil in H.
Qed.


Lemma settled_files l w w' :
  (∀ p, p ∈ l.*1 → files w !! p = files w' !! p) → settled l w → settled l w'.
Proof.
  intros Hf Hs p c Hp. destruct (Hs p c Hp) as (df & Ht & Hm).
  exists df. split; [|done]. rewrite <- Ht. symmetry. apply table_same_file.
  apply Hf. apply list_elem_of_fmap. by exists (p, c).
Qed.

Lemma for_each_settled l : ∀ w,
  NoDup l.*1 → Forall (λ entry, entry.2 ≠ []) l →
  outcome (for_each l (λ entry, ensure_schema entry.1 entry.2)) w = Pd.Ok tt →
  settled l (after (for_each l (λ entry, ensure_schema entry.1 entry.2)) w).
Proof.
  induction l as [|[p c] l IH]; intros w Hnd Hne Hok.
  { intros p c Hp. by apply elem_of_nil in Hp. }
  rewrite fmap_cons in Hnd. apply NoDup_cons in Hnd as [Hp Hnd].
  inversion Hne as [|? ? Hc Hne']; subst. simpl in Hc.
  destruct (ensure_schema_settles p c w Hc) as [_ Hdone].
  pose proof (for_each_other l (after (ensure_schema p c) w) p Hp) as Hsame.
  unfold outcome, after in *. rewrite for_each_cons in Hok |- *. simpl in *.
  destruct (ensure_schema p c w) as [w1 [[]|e]] eqn:E; simpl in *; [|done].
  specialize (IH w1 Hnd Hne' Hok).
  intros q c' Hq. apply elem_of_cons in Hq as [[= -> ->]|Hq].
  - destruct (Hdone eq_refl) as (df & Ht & Hm). exists df. split; [|done].
    rewrite <- Ht. by apply table_same_file.
  - by apply IH.
Qed.



Lemma registry_paths : NoDup REQUIRED_STRUCTURE.*1.
Proof. apply (bool_decide_unpack _). vm_compute. done. Qed.

Lemma registry_columns : Forall (λ entry, entry.2 ≠ []) REQUIRED_STRUCTURE.
Proof. repeat constructor; done. Qed.

Lemma migrate_settled w :
  outcome migrate w = Pd.Ok tt → settled REQUIRED_STRUCTURE (after migrate w).
Proof. apply for_each_settled; [apply registry_paths|apply registry_columns]. Qed.



Lemma classify_text_not_na f : Field.classify f = Field.TText → Field.is_na f = false.
Proof. unfold Field.classify. by destruct (Field.is_na f). Qed.

Lemma infer_app_text fs f :
  Field.classify f = Field.TText →
  ∃ l, Pd.infer (fs ++ [f]) = Pd.SObj (l ++ [Some f]) ∧ length l = length fs.
Proof.
  intros Hc. rewrite infer_unfold by (by destruct fs). cbv zeta.
  rewrite !fmap_app, !forallb_app. simpl. rewrite Hc. simpl.
  rewrite !andb_false_r, (classify_text_not_na f Hc).
  eexists. split; [done|]. by rewrite length_fmap.
Qed.

Lemma mask_true_or_none (m : list bool) :
  (∃ i, m !! i = Some true) ∨ (∀ i, m !! i ≠ Some true).
Proof.
  induction m as [|b m IH].
  - right. by intros i.
  - destruct b; [left; by exists 0%nat|].
    destruct IH as [[i Hi]|Hn]; [left; by exists (S i)|right].
    intros [|i]; [done|apply Hn].
Qed.

Lemma no_admin_false users r :
  no_admin users = Pd.Ok false → Pd.getitem users "role" = Pd.Ok r →
  ∃ i, Pd.item r i = Some (Pd.VStr "admin").
Proof.
  intros Hn Hr.
  destruct (mask_true_or_none (Pd.eq_text r "admin")) as [[i Hi]|Hnone].
  { exists i. by apply eq_text_lookup. }
  destruct (no_admin_exact users r Hr) as (b & Hb & Hiff).
  rewrite Hn in Hb. injection Hb as <-.
  assert (false = true) as Habs; [|done].
  apply Hiff. right. intros i Hi. apply (Hnone i). by apply eq_text_lookup.
Qed.



Lemma users_frame lines users :
  Pd.parse lines = Pd.Ok users → Pd.names users = users_header →
  ∃ recs, users = Pd.frame_of users_header recs.
Proof.
  intros (h & recs & _ & _ & _ & ->)%parse_inv Hn.
  rewrite names_frame_of in Hn. subst h. eauto.
Qed.

(** The Users table after the default administrator was appended. *)
Lemma admin_appended lines users now :
  Pd.parse lines = Pd.Ok users → Pd.names users = users_header →
  ∃ recs l,
    Pd.parse (lines ++ [admin_line now]) =
      Pd.Ok (Pd.frame_of users_header (recs ++ [admin_line now])) ∧
    Pd.getitem (Pd.frame_of users_header (recs ++ [admin_line now])) "role" =
      Pd.Ok (Pd.SObj (l ++ [Some "admin"])) ∧
    Pd.item (Pd.SObj (l ++ [Some "admin"])) (length l) = Some (Pd.VStr "admin").
Proof.
  intros Hp Hn.
  destruct (parse_append lines users users_header (admin_line now) Hp Hn)
    as (recs & -> & Hp'); [done|simpl; lia|].
  destruct (infer_app_text (Pd.field_at 3 <$> recs) "admin") as (l & Hl & _); [done|].
  exists recs, l. split_and!; [done| |].
  - destruct (users_columns (recs ++ [admin_line now])) as (_ & _ & _ & -> & _).
    rewrite fmap_app. f_equal. exact Hl.
  - simpl. by rewrite lookup_app_r, Nat.sub_diag by lia.
Qed.

(* ===================================================================== *)
(** ** The pages *)
(* ===================================================================== *)

Lemma ensure_schema_session p c w :
  auth (after (ensure_schema p c) w) = auth w ∧
  uploads (after (ensure_schema p c) w) = uploads w ∧
  screen (after (ensure_schema p c) w) = screen w.
Proof.
  unfold after. rewrite ensure_schema_run.
  destruct (files w !! p) as [f|]; [|done].
  destruct (Pd.parse f) as [df|e]; [|done].
  by destruct (decide _).
Qed.

Lemma for_each_session l : ∀ w,
  let body := λ entry : string * list string, ensure_schema entry.1 entry.2 in
  auth (after (for_each l body) w) = auth w ∧
  uploads (after (for_each l body) w) = uploads w ∧
  screen (after (for_each l body) w) = screen w.
Proof.
  induction l as [|[p c] l IH]; intros w; cbv zeta; [done|].
  destruct (ensure_schema_session p c w) as (Ha & Hu & Hs).
  unfold after in *. rewrite for_each_cons. simpl.
  destruct (ensure_schema p c w) as [w1 [[]|e]]; simpl in *; [|done].
  destruct (IH w1) as (Ha1 & Hu1 & Hs1). cbv zeta in *.
  by rewrite Ha1, Hu1, Hs1.
Qed.

Lemma migrate_session w :
  auth (after migrate w) = auth w ∧
  uploads (after migrate w) = uploads w ∧
  screen (after migrate w) = screen w.
Proof. apply (for_each_session REQUIRED_STRUCTURE). Qed.

(** [initialize_system] returns normally; it leaves the session and the
    uploads alone, and it ends the run exactly when it shows its error. *)
Lemma initialize_system_cases now w :
  (∃ e, initialize_system now w = (init_failed e (after migrate w), Pd.Ok tt)) ∨
  (∃ w', initialize_system now w = (w', Pd.Ok tt) ∧
         outcome migrate w = Pd.Ok tt ∧
         auth w' = auth w ∧ uploads w' = uploads w ∧ screen w' = screen w).
Proof.
  destruct (migrate_session w) as (Ha & Hu & Hs).
  rewrite initialize_system_run. unfold after, outcome in *.
  destruct (migrate w) as [w1 [[]|e]]; simpl in *; [|left; eauto].
  destruct (table USERS_FILE w1) as [users|e]; [|left; eauto].
  destruct (no_admin users) as [[]|e]; [| |left; eauto].
  - right. eexists. split; [done|]. simpl. done.
  - right. eexists. split; [done|]. done.
Qed.

Lemma ended_since_same w : ended_since w w = false.
Proof. unfold ended_since. by rewrite Nat.ltb_irrefl. Qed.

Lemma ended_since_screen w w' :
  screen w' = screen w → ended_since w w' = false.
Proof. intros H. unfold ended_since. by rewrite H, Nat.ltb_irrefl. Qed.

Lemma ended_init_failed e w w1 :
  screen w1 = screen w → ended_since w (init_failed e w1) = true.
Proof.
  intros H. unfold ended_since, init_failed. simpl. rewrite H.
  rewrite !length_app. simpl. rewrite last_snoc.
  rewrite andb_true_r. apply Nat.ltb_lt. lia.
Qed.

Lemma show_login_files role_ username_ password w :
  files (after (show_login role_ username_ password) w) = files w ∧
  uploads (after (show_login role_ username_ password) w) = uploads w.
Proof.
  pose proof (authenticate_world username_ password role_ w) as Hw.
  destruct (authenticate_returns username_ password role_ w) as [b Hb].
  unfold after, outcome in *. rewrite show_login_run.
  destruct (authenticate username_ password role_ w) as [w' r]. simpl in *.
  subst r.
  assert (files w' = files w ∧ uploads w' = uploads w) as [Hf Hu]
    by (destruct Hw as [->|[e ->]]; done).
  by destruct b.
Qed.

(* ===================================================================== *)
(** ** Logging in after the first run *)
(* ===================================================================== *)

(** After a record with a text field is appended, the column of that
    field is a text column whose last cell is the field. *)
Lemma appended_text_last recs line j f :
  Pd.field_at j line = f → Field.classify f = Field.TText →
  ∃ l, Pd.infer (Pd.field_at j <$> (recs ++ [line])) = Pd.SObj l ∧
       Pd.item (Pd.SObj l) (length recs) = Some (Pd.VStr f).
Proof.
  intros Hf Hc. rewrite fmap_app. simpl. rewrite Hf.
  destruct (infer_app_text (Pd.field_at j <$> recs) f Hc) as (l & -> & Hl).
  exists (l ++ [Some f]). split; [done|].
  rewrite length_fmap in Hl. rewrite <- Hl. simpl.
  by rewrite lookup_app_r, Nat.sub_diag by lia.
Qed.

(** The migrated Users table is the one that was there, or an empty one
    when the file was absent. *)
Lemma migrate_users_table w :
  standard_users w →
  ∃ users, table USERS_FILE (after migrate w) = Pd.Ok users ∧
           Pd.names users = users_header ∧
           (Pd.empty users = true ∨ table USERS_FILE w = Pd.Ok users).
Proof.
  intros Hstd.
  assert (∃ users, ensure_schema USERS_FILE users_header w =
                     (after (ensure_schema USERS_FILE users_header) w, Pd.Ok tt) ∧
                   table USERS_FILE (after (ensure_schema USERS_FILE users_header) w) =
                     Pd.Ok users ∧
                   Pd.names users = users_header ∧
                   (Pd.empty users = true ∨ table USERS_FILE w = Pd.Ok users))
    as (users & Hrun & Ht & Hn & Hor).
  { unfold after. rewrite ensure_schema_run.
    destruct Hstd as [Hnone|(users & Ht & Hn)].
    - rewrite Hnone. simpl. exists (reread (Pd.from_columns users_header)).
      split; [done|]. rewrite table_written. split_and!.
      + apply parse_to_csv; [apply well_formed_from_columns|done].
      + by rewrite names_reread, names_from_columns.
      + by left.
    - destruct (table_inv _ _ _ Ht) as (f & Hf & Hp). rewrite Hf, Hp.
      rewrite decide_True.
      + exists users. simpl. split_and!; [done|done|done|by right].
      + apply missing_columns_none. intros c Hc. by rewrite Hn. }
  exists users. split_and!; [|done|done]. rewrite <- Ht. apply table_same_file.
  unfold migrate, REQUIRED_STRUCTURE, after.
  rewrite for_each_cons. cbn [fst snd].
  change ["user_id"; "username"; "password"; "role"; "created_at"] with users_header.
  rewrite Hrun. cbn [fst].
  apply (for_each_other _ (after (ensure_schema USERS_FILE users_header) w) USERS_FILE).
  apply (bool_decide_unpack _). vm_compute. done.
Qed.

(** Once the default administrator was appended, its credentials log
    in. *)
Lemma bootstrap_login now w users u p r :
  outcome migrate w = Pd.Ok tt →
  table USERS_FILE (after migrate w) = Pd.Ok users →
  Pd.names users = users_header →
  no_admin users = Pd.Ok true →
  Py.lower (Py.strip u) = "admin" → Py.strip p = "admin123" →
  Py.lower (Py.strip r) = "admin" →
  outcome (authenticate u p r) (after (initialize_system now) w) = Pd.Ok true.
Proof.
  intros Hok Ht Hn Hna Hu Hp Hr. apply authenticate_true.
  unfold after, outcome in *. rewrite initialize_system_run.
  destruct (migrate w) as [w1 r1]. simpl in *. subst r1. rewrite Ht, Hna.
  destruct (table_inv _ _ _ Ht) as (lines & Hl & Hparse).
  destruct (parse_append lines users users_header (admin_line now) Hparse Hn)
    as (recs & -> & Hparse'); [done|simpl; lia|].
  destruct (appended_text_last recs (admin_line now) 1 "admin" eq_refl eq_refl)
    as (lu & Hcu & Hiu).
  destruct (appended_text_last recs (admin_line now) 2 "admin123" eq_refl eq_refl)
    as (lp & Hcp & Hip).
  destruct (appended_text_last recs (admin_line now) 3 "admin" eq_refl eq_refl)
    as (lr & Hcr & Hir).
  exists (Pd.frame_of users_header (recs ++ [admin_line now])), (length recs).
  split.
  - cbn [fst]. rewrite table_written. unfold lookup in Hl |- *. by rewrite Hl.
  - destruct (users_columns (recs ++ [admin_line now])) as (_ & Hgu & Hgp & Hgr & _).
    exists (Pd.SObj lu), (Pd.SObj lp), (Pd.SObj lr),
      "admin", (Pd.VStr "admin123"), "admin".
    rewrite Hgu, Hgp, Hgr, Hcu, Hcp, Hcr, Hu, Hp, Hr.
    split_and!; done.
Qed.

(** The duplicate test of the user form on a text column. *)
Lemma username_taken_none users lu name :
  Pd.getitem users "username" = Pd.Ok (Pd.SObj lu) →
  (∀ j s, lu !! j = Some (Some s) → Py.lower s ≠ Py.lower name) →
  username_taken users name = Pd.Ok false.
Proof.
  intros Hu Hno. unfold username_taken. rewrite Hu. simpl. f_equal.
  apply existsb_false. apply list.Forall_forall. intros b Hb.
  destruct b; [|done]. exfalso.
  apply list_elem_of_lookup in Hb as [j Hj].
  apply eq_str_lookup in Hj. rewrite str_lower_lookup in Hj.
  destruct (lu !! j) as [[s|]|] eqn:E; simpl in Hj; [|done|done].
  injection Hj as Hj. by apply (Hno j s).
Qed.

Lemma cell_text_int k : cell_text (Pd.VInt k) = Py.str_int k.
Proof. reflexivity. Qed.

(** On a store without Users file the migration writes the header. *)
Lemma migrate_creates_users w :
  files w !! USERS_FILE = None →
  files (after migrate w) !! USERS_FILE = Some [users_header].
Proof.
  intros Hnone. unfold migrate, REQUIRED_STRUCTURE, after.
  rewrite for_each_cons. cbn [fst snd].
  change ["user_id"; "username"; "password"; "role"; "created_at"] with users_header.
  rewrite ensure_schema_run, Hnone. cbn [fst snd].
  etransitivity.
  - match goal with |- files (for_each ?l ?b ?w1).1 !! _ = _ =>
      apply (for_each_other l w1 USERS_FILE)
    end.
    apply (bool_decide_unpack _). vm_compute. done.
  - simpl. by rewrite lookup_insert_eq.
Qed.

(** The run of [initialize_system] on a store without Users file. *)
Lemma fresh_users_file now w :
  files w !! USERS_FILE = None →
  outcome migrate w = Pd.Ok tt →
  files (after (initialize_system now) w) !! USERS_FILE =
    Some [users_header; admin_line now].
Proof.
  intros Hnone Hok. pose proof (migrate_creates_users w Hnone) as Hl.
  unfold after, outcome in *. rewrite initialize_system_run.
  destruct (migrate w) as [w1 r1]. simpl in *. subst r1.
  assert (table USERS_FILE w1 = Pd.Ok (Pd.frame_of users_header [])) as ->
    by (by rewrite (table_lookup USERS_FILE w1 [users_header] Hl)).
  assert (no_admin (Pd.frame_of users_header []) = Pd.Ok true) as -> by done.
  unfold set_files. cbn [fst files]. rewrite lookup_insert_eq.
  unfold lookup in Hl |- *. by rewrite Hl.
Qed.

(* ===================================================================== *)
(** ** Further properties: authentication and login *)
(* ===================================================================== *)

(** X1.  [authenticate] only reads: whatever it returns, the files, the
    uploads and the session are those it found; all it may add is its
    error message. *)
Theorem authenticate_read_only username password role w :
  files (after (authenticate username password role) w) = files w ∧
  uploads (after (authenticate username password role) w) = uploads w ∧
  auth (after (authenticate username password role) w) = auth w ∧
  (screen (after (authenticate username password role) w) = screen w ∨
   ∃ e, screen (after (authenticate username password role) w) =
          screen w ++ [st_error ("Authentication error: " +:+ exn_str e)]).
Proof.
  destruct (authenticate_world username password role w) as [->|[e ->]].
  - split_and!; try done. by left.
  - split_and!; try done. right. by exists e.
Qed.

(** X2.  [authenticate] sees its arguments only through their normal
    forms: two calls whose usernames and roles agree after trimming and
    lower-casing and whose passwords agree after trimming do the same. *)
Theorem authenticate_normalises_input u u' p p' r r' w :
  Py.lower (Py.strip u) = Py.lower (Py.strip u') →
  Py.strip p = Py.strip p' →
  Py.lower (Py.strip r) = Py.lower (Py.strip r') →
  authenticate u p r w = authenticate u' p' r' w.
Proof.
  intros Hu Hp Hr. rewrite !authenticate_run.
  destruct (table USERS_FILE w) as [users|e]; [|done].
  by rewrite (credentials_mask_normal users u u' p p' r r' Hu Hp Hr).
Qed.

Lemma authenticate_normalises_input_witness :
  authenticate "  ADMIN" "admin123 " "Admin" stored_admin =
  authenticate "admin" "admin123" " admin " stored_admin.
Proof.
  apply authenticate_normalises_input; reflexivity.
Defined.

(** X3.  When the Users table has rows and pandas read its username
    column as numbers, the [.str] accessor raises: [authenticate] shows
    the error and returns false for every input, also for the one that
    repeats a stored row. *)
Theorem authenticate_refuses_numeric_usernames w users c username password role :
  table USERS_FILE w = Pd.Ok users →
  Pd.empty users = false →
  Pd.getitem users "username" = Pd.Ok c →
  (∀ l, c ≠ Pd.SObj l) →
  authenticate username password role w =
    (show (st_error ("Authentication error: " +:+ exn_str Pd.AttributeError)) w,
     Pd.Ok false).
Proof.
  intros Ht He Hc Hn. rewrite authenticate_run, Ht, He.
  unfold credentials_mask. rewrite Hc. simpl.
  destruct c as [l|l|l]; try done. by destruct (Hn l).
Qed.

Lemma authenticate_refuses_numeric_usernames_witness :
  authenticate "42" "secret" "admin" digits_username =
    (show (st_error ("Authentication error: " +:+ exn_str Pd.AttributeError))
       digits_username,
     Pd.Ok false).
Proof.
  apply (authenticate_refuses_numeric_usernames digits_username
           (Pd.frame_of users_header
              [["1"; "42"; "secret"; "admin"; "2024-01-01 08:00:00"]])
           (Pd.SInt [42])); try reflexivity.
  intros l. discriminate.
Defined.

(** X4.  The login form logs in exactly when a row of the Users table,
    as the reader typed it, carries the credentials ([stored_match]):
    the session then holds the role in lower case and the username as it
    was typed, and a rerun is asked for; otherwise the session stays as
    it was and the form shows its error.  In both cases no file changes.
    This is for a covered Users file and ASCII input. *)
Theorem show_login_sets_session role_ username_ password w :
  covered_users w = true →
  is_ascii role_ = true → is_ascii username_ = true → is_ascii password = true →
  ((∃ users i, table USERS_FILE w = Pd.Ok users ∧
               stored_match users i username_ password role_) →
   show_login role_ username_ password w =
     (show st_rerun
        (set_auth {| logged_in := true; role := Some (Py.lower role_);
                     username := Some username_ |} w),
      Pd.Ok tt)) ∧
  (¬ (∃ users i, table USERS_FILE w = Pd.Ok users ∧
                 stored_match users i username_ password role_) →
   auth (after (show_login role_ username_ password) w) = auth w ∧
   last (screen (after (show_login role_ username_ password) w)) =
     Some (st_error "Invalid credentials or permissions")) ∧
  files (after (show_login role_ username_ password) w) = files w.
Proof.
  intros _ _ _ _.
  pose proof (authenticate_true username_ password role_ w) as Hiff.
  pose proof (authenticate_world username_ password role_ w) as Hw.
  destruct (authenticate_returns username_ password role_ w) as [b Hb].
  unfold after, outcome in *. rewrite show_login_run.
  destruct (authenticate username_ password role_ w) as [w' r] eqn:E.
  simpl in *. subst r.
  assert (files w' = files w ∧ auth w' = auth w) as [Hf Ha]
    by (destruct Hw as [->|[e ->]]; done).
  destruct b; simpl.
  - split_and!; [|by intros Hn; destruct Hn; apply Hiff|done].
    intros _. rewrite authenticate_run in E.
    destruct (table USERS_FILE w) as [users|e]; [|by inversion E].
    destruct (Pd.empty users); [by inversion E|].
    destruct (credentials_mask users username_ password role_); by inversion E.
  - split_and!; [|intros _; split; [done|]|done].
    + intros H. apply Hiff in H. done.
    + simpl. by rewrite last_snoc.
Qed.

Lemma show_login_sets_session_witness :
  show_login "Admin" " Admin " "admin123" stored_admin =
    (show st_rerun
       (set_auth {| logged_in := true; role := Some "admin";
                    username := Some " Admin " |} stored_admin),
     Pd.Ok tt) ∧
  auth (after (show_login "Admin" "admin" "wrong") stored_admin) = logged_out.
Proof.
  split.
  - apply (proj1 (show_login_sets_session "Admin" " Admin " "admin123" stored_admin
                    eq_refl eq_refl eq_refl eq_refl)).
    apply authenticate_true. vm_compute. done.
  - apply (proj1 (proj2 (show_login_sets_session "Admin" "admin" "wrong" stored_admin
                           eq_refl eq_refl eq_refl eq_refl))).
    intros H. apply authenticate_true in H. vm_compute in H. done.
Defined.

(* ===================================================================== *)
(** ** Further properties: the user form *)
(* ===================================================================== *)

(** X5.  [admin_dashboard] never touches the session, the uploads or a
    file other than [users.csv], and [users.csv] is either left as it
    was or gets exactly one record at its end, of five fields, whose
    username is the typed name trimmed, whose password is the typed
    password and whose role is the chosen role in lower case: stored
    records are never changed or removed. *)
Theorem admin_dashboard_appends_only now f w :
  uploads (after (admin_dashboard now f) w) = uploads w ∧
  auth (after (admin_dashboard now f) w) = auth w ∧
  (∀ p, p ≠ USERS_FILE →
        files (after (admin_dashboard now f) w) !! p = files w !! p) ∧
  (files (after (admin_dashboard now f) w) !! USERS_FILE = files w !! USERS_FILE ∨
   ∃ lines key,
     files w !! USERS_FILE = Some lines ∧
     files (after (admin_dashboard now f) w) !! USERS_FILE =
       Some (lines ++ [[key; Py.strip (new_username f); new_password f;
                        Py.lower (new_role f); now]])).
Proof.
  unfold after.
  destruct (decide (choice f = "User Management")) as [Hch|Hch];
    [|rewrite admin_dashboard_other_page by done; simpl; auto].
  rewrite admin_dashboard_run by done.
  destruct (table USERS_FILE w) as [users|e] eqn:Ht; [|simpl; auto].
  destruct (getitems users _) as [shown|e]; [|simpl; auto].
  cbv zeta. destruct (create_user f); [|simpl; auto].
  destruct (negb (forallb Py.truthy _)); [simpl; auto|].
  destruct (negb (String.eqb _ _)); [simpl; auto|].
  destruct (username_taken users (new_username f)) as [[]|e]; [simpl; auto| |simpl; auto].
  destruct (next_user_id users) as [v|e]; [|simpl; auto].
  destruct (table_file _ _ _ Ht) as [lines Hl].
  unfold user_created, user_line, show, set_files.
  cbn [fst files uploads auth]. rewrite Hl. cbn [default].
  split_and!; [done|done| |].
  - intros p Hp. by rewrite lookup_insert_ne.
  - right. exists lines, (cell_text v). rewrite lookup_insert_eq.
    split; [done|]. unfold lookup in Hl |- *. by rewrite Hl.
Qed.

(** X6.  A user the form has just created can log in with the name,
    the password and the role that were typed.  This is for a covered
    Users file under the standard header that has rows and whose
    username, password and role columns hold text, and for a name, a
    password and a role that are ASCII text and that the reader can
    take neither for a missing value nor for a number. *)
Theorem created_user_can_log_in now f w users lu lp lr :
  covered_users w = true →
  is_ascii (new_username f) = true →
  is_ascii (new_password f) = true →
  is_ascii (new_role f) = true →
  number_like (Py.strip (new_username f)) = false →
  number_like (new_password f) = false →
  number_like (Py.lower (new_role f)) = false →
  choice f = "User Management" →
  table USERS_FILE w = Pd.Ok users →
  Pd.names users = users_header →
  Pd.empty users = false →
  Pd.getitem users "username" = Pd.Ok (Pd.SObj lu) →
  Pd.getitem users "password" = Pd.Ok (Pd.SObj lp) →
  Pd.getitem users "role" = Pd.Ok (Pd.SObj lr) →
  outcome (admin_dashboard now f) w = Pd.Ok tt →
  last (screen (after (admin_dashboard now f) w)) = Some st_rerun →
  Field.is_na (Py.strip (new_username f)) = false →
  Field.is_na (new_password f) = false →
  Field.is_na (Py.lower (new_role f)) = false →
  outcome (authenticate (new_username f) (new_password f) (new_role f))
          (after (admin_dashboard now f) w) = Pd.Ok true.
Proof.
  intros _ _ _ _ _ _ _ Hch Ht Hn He Hu Hp Hr Hok Hlast Hnu Hnp Hnr.
  destruct (table_inv _ _ _ Ht) as (lines & Hl & Hparse).
  unfold outcome, after in Hok, Hlast |- *.
  rewrite admin_dashboard_run in Hok, Hlast |- * by done.
  rewrite Ht in Hok, Hlast |- *.
  destruct (getitems users _) as [shown|e]; [|done]. cbv zeta in *.
  destruct (create_user f); [|by simpl in Hlast; rewrite last_snoc in Hlast].
  destruct (negb (forallb Py.truthy _));
    [by simpl in Hlast; rewrite last_snoc in Hlast|].
  destruct (negb (String.eqb _ _));
    [by simpl in Hlast; rewrite last_snoc in Hlast|].
  destruct (username_taken users (new_username f)) as [[]|e];
    [by simpl in Hlast; rewrite last_snoc in Hlast| |done].
  destruct (next_user_id users) as [v|e]; [|done].
  clear Hok Hlast.
  assert (default [] (files w !! USERS_FILE) = lines) as ->
    by (unfold lookup in Hl |- *; by rewrite Hl).
  set (line := user_line v f now).
  destruct (parse_append lines users users_header line Hparse Hn)
    as (recs & -> & Hparse'); [done|simpl; lia|].
  assert (recs ≠ []) as Hrecs.
  { rewrite users_empty in He. destruct recs; [done|done]. }
  destruct (users_columns recs) as (_ & Hcu & Hcp & Hcr & _).
  rewrite Hcu in Hu. rewrite Hcp in Hp. rewrite Hcr in Hr.
  injection Hu as Hu. injection Hp as Hp. injection Hr as Hr.
  destruct (appended_text_cell recs line 1 lu (Py.strip (new_username f)) Hrecs Hu)
    as (lu' & Hu' & Hiu); [done|done|].
  destruct (appended_text_cell recs line 2 lp (new_password f) Hrecs Hp)
    as (lp' & Hp' & Hip); [done|done|].
  destruct (appended_text_cell recs line 3 lr (Py.lower (new_role f)) Hrecs Hr)
    as (lr' & Hr' & Hir); [done|done|].
  apply authenticate_true.
  exists (Pd.frame_of users_header (recs ++ [line])), (length recs). split.
  - unfold user_created.
    match goal with |- table _ ?W = _ =>
      rewrite (table_lookup USERS_FILE W (lines ++ [line])) end; [done|].
    simpl. by rewrite lookup_insert_eq.
  - destruct (users_columns (recs ++ [line])) as (_ & Hcu' & Hcp' & Hcr' & _).
    exists (Pd.SObj lu'), (Pd.SObj lp'), (Pd.SObj lr'),
      (Py.strip (new_username f)), (Pd.VStr (new_password f)),
      (Py.lower (new_role f)).
    rewrite Hcu', Hcp', Hcr', Hu', Hp', Hr'.
    split_and!; try done.
    + by rewrite strip_strip.
    + by rewrite strip_lower, lower_lower.
Qed.

Lemma created_user_can_log_in_witness :
  outcome (authenticate " Tina " "chalk" "Teacher")
          (after (admin_dashboard "2024-03-01 09:05:00" tina_form) booted) =
    Pd.Ok true.
Proof.
  apply (created_user_can_log_in "2024-03-01 09:05:00" tina_form booted
           (Pd.frame_of users_header
              [["1"; "admin"; "admin123"; "admin"; "2024-03-01 09:00:00"]])
           [Some "admin"] [Some "admin123"] [Some "admin"]);
    vm_compute; reflexivity.
Defined.

(* ===================================================================== *)
(** ** Further properties: publishing a course *)
(* ===================================================================== *)

(** X7.  [save_course] never raises and never touches the session or a
    file other than [courses.csv].  When the table cannot be read or the
    next key cannot be computed, it shows its error and leaves
    everything else as it was: these failures come before the image is
    written.  When it reports success, exactly one record of nine fields
    was appended to [courses.csv], whose fourth field is the username of
    the session: stored records are not changed or removed. *)
Theorem save_course_appends_only now name desc schedule status image yt_link w :
  let run := save_course now name desc schedule status image yt_link in
  outcome run w = Pd.Ok tt ∧
  auth (after run w) = auth w ∧
  (∀ p, p ≠ COURSES_FILE → files (after run w) !! p = files w !! p) ∧
  (∀ e, table COURSES_FILE w = Pd.Raise e ∨
        (∃ courses, table COURSES_FILE w = Pd.Ok courses ∧
                    next_course_id courses = Pd.Raise e) →
        after run w = show (st_error ("Error saving course: " +:+ exn_str e)) w) ∧
  (last (screen (after run w)) = Some st_balloons →
   ∃ lines k img_path,
     files w !! COURSES_FILE = Some lines ∧
     files (after run w) !! COURSES_FILE =
       Some (lines ++ [[Py.str_int k; name; desc;
                        default "" (username (auth w)); schedule; status;
                        yt_link; img_path; now]])).
Proof.
  cbv zeta.
  change (save_course now name desc schedule status image yt_link)
    with (publish (submitted now name desc schedule status image yt_link)).
  set (s := submitted now name desc schedule status image yt_link).
  assert (∀ e, table COURSES_FILE w = Pd.Raise e ∨
               (∃ courses, table COURSES_FILE w = Pd.Ok courses ∧
                           next_course_id courses = Pd.Raise e) →
               after (publish s) w =
                 show (st_error ("Error saving course: " +:+ exn_str e)) w) as Hfail.
  { intros e He. unfold after. rewrite save_course_run.
    destruct He as [->|(courses & -> & ->)]; done. }
  unfold outcome, after in *.
  destruct (save_course_cases s w) as [[e He]|(k & lines & Hl & He)];
    rewrite He in Hfail |- *; cbn [fst snd] in *.
  - split_and!; [done|done|done|done|].
    simpl. by rewrite last_snoc.
  - rewrite auth_published, files_published. split_and!; [done|done| |done|].
    + intros p Hp. by rewrite lookup_insert_ne.
    + intros _. exists lines, k. eexists. split; [done|].
      rewrite lookup_insert_eq. reflexivity.
Qed.

Lemma save_course_appends_only_witness :
  after (save_course "2024-03-01 09:10:00" "Intro" "First steps" "Mon 10-11"
           "Open" (Some ("cover.png", "PNG")) "") broken_courses =
    show (st_error ("Error saving course: " +:+ exn_str Pd.EmptyDataError))
      broken_courses ∧
  ∃ lines k img_path,
    files teaching !! COURSES_FILE = Some lines ∧
    files (after (save_course "2024-03-01 09:10:00" "Intro" "First steps"
                    "Mon 10-11" "Open" None "") teaching) !! COURSES_FILE =
      Some (lines ++ [[Py.str_int k; "Intro"; "First steps";
                       default "" (username (auth teaching)); "Mon 10-11"; "Open";
                       ""; img_path; "2024-03-01 09:10:00"]]).
Proof.
  split.
  - apply (proj1 (proj2 (proj2 (proj2
             (save_course_appends_only "2024-03-01 09:10:00" "Intro" "First steps"
                "Mon 10-11" "Open" (Some ("cover.png", "PNG")) "" broken_courses))))).
    left. reflexivity.
  - apply (proj2 (proj2 (proj2 (proj2
             (save_course_appends_only "2024-03-01 09:10:00" "Intro" "First steps"
                "Mon 10-11" "Open" None "" teaching))))).
    vm_compute. reflexivity.
Defined.

(** X8.  When [save_course] reports success for a course with an image,
    the bytes of the image are stored under
    [uploads/course_images/<key>_<file name>], where the key is the first
    field of the appended record, and that path is the eighth field of
    the record, the one under the [image_path] column of the header. *)
Theorem save_course_stores_image now name desc schedule status image_name buffer
    yt_link w :
  let run :=
    save_course now name desc schedule status (Some (image_name, buffer)) yt_link in
  last (screen (after run w)) = Some st_balloons →
  ∃ lines k,
    files w !! COURSES_FILE = Some lines ∧
    files (after run w) !! COURSES_FILE =
      Some (lines ++ [[Py.str_int k; name; desc;
                       default "" (username (auth w)); schedule; status;
                       yt_link; image_path k image_name; now]]) ∧
    uploads (after run w) !! image_path k image_name = Some buffer ∧
    courses_header !! 7%nat = Some "image_path".
Proof.
  cbv zeta.
  change (save_course now name desc schedule status (Some (image_name, buffer)) yt_link)
    with (publish (submitted now name desc schedule status
                     (Some (image_name, buffer)) yt_link)).
  set (s := submitted now name desc schedule status (Some (image_name, buffer)) yt_link).
  unfold after.
  destruct (save_course_cases s w) as [[e ->]|(k & lines & Hl & ->)];
    cbn [fst snd].
  - simpl. by rewrite last_snoc.
  - intros _. exists lines, k.
    rewrite files_published, uploads_published. subst s. unfold submitted.
    cbn [sub_image]. rewrite !lookup_insert_eq.
    split_and!; done.
Qed.

Lemma save_course_stores_image_witness :
  ∃ lines k,
    files teaching !! COURSES_FILE = Some lines ∧
    files (after (save_course "2024-03-01 09:10:00" "Intro" "First steps"
                    "Mon 10-11" "Open" (Some ("cover.png", "PNG")) "") teaching)
      !! COURSES_FILE =
      Some (lines ++ [[Py.str_int k; "Intro"; "First steps";
                       default "" (username (auth teaching)); "Mon 10-11"; "Open";
                       ""; image_path k "cover.png"; "2024-03-01 09:10:00"]]) ∧
    uploads (after (save_course "2024-03-01 09:10:00" "Intro" "First steps"
                      "Mon 10-11" "Open" (Some ("cover.png", "PNG")) "") teaching)
      !! image_path k "cover.png" = Some "PNG" ∧
    courses_header !! 7%nat = Some "image_path".
Proof.
  apply (save_course_stores_image "2024-03-01 09:10:00" "Intro" "First steps"
           "Mon 10-11" "Open" "cover.png" "PNG" "" teaching).
  vm_compute. reflexivity.
Defined.

(* ===================================================================== *)
(** ** Further properties: system initialization *)
(* ===================================================================== *)

(** X9.  When the migration loop succeeds, each of the four tables can
    be read and its header has every column the registry requires for
    it. *)
Theorem migration_completes_headers w :
  outcome migrate w = Pd.Ok tt →
  ∀ p c, (p, c) ∈ REQUIRED_STRUCTURE →
    ∃ df, table p (after migrate w) = Pd.Ok df ∧
          ∀ col, col ∈ c → col ∈ Pd.names df.
Proof.
  intros Hok p c Hp.
  destruct (migrate_settled w Hok p c Hp) as (df & Ht & Hm).
  exists df. split; [done|]. intros col. by apply missing_none_elem.
Qed.

Lemma migration_completes_headers_witness :
  ∃ df, table USERS_FILE (after migrate legacy_users) = Pd.Ok df ∧
        ∀ col, col ∈ users_header → col ∈ Pd.names df.
Proof.
  apply (migration_completes_headers legacy_users).
  - vm_compute. reflexivity.
  - left.
Defined.

(** X10.  On a store without Users file, a run of [initialize_system]
    whose migration succeeds leaves a Users file of two lines, the header
    and the record of the default administrator, and the table read from
    it has a row whose role is the text [admin]. *)
Theorem bootstrap_leaves_an_admin now w :
  files w !! USERS_FILE = None →
  outcome migrate w = Pd.Ok tt →
  files (after (initialize_system now) w) !! USERS_FILE =
    Some [users_header; ["1"; "admin"; "admin123"; "admin"; now]] ∧
  ∃ users r i,
    table USERS_FILE (after (initialize_system now) w) = Pd.Ok users ∧
    Pd.getitem users "role" = Pd.Ok r ∧
    Pd.item r i = Some (Pd.VStr "admin").
Proof.
  intros Hnone Hok. pose proof (fresh_users_file now w Hnone Hok) as Hfile.
  split; [exact Hfile|].
  destruct (admin_appended [users_header] (Pd.frame_of users_header []) now)
    as (recs & l & Hp & Hr & Hi); [done|done|].
  exists (Pd.frame_of users_header (recs ++ [admin_line now])),
    (Pd.SObj (l ++ [Some "admin"])), (length l).
  split_and!; [|done|done].
  by rewrite (table_lookup _ _ _ Hfile).
Qed.

Lemma bootstrap_leaves_an_admin_witness :
  files (after (initialize_system "2024-03-02 08:00:00") lost_users) !! USERS_FILE =
    Some [users_header;
          ["1"; "admin"; "admin123"; "admin"; "2024-03-02 08:00:00"]] ∧
  ∃ users r i,
    table USERS_FILE (after (initialize_system "2024-03-02 08:00:00") lost_users) =
      Pd.Ok users ∧
    Pd.getitem users "role" = Pd.Ok r ∧
    Pd.item r i = Some (Pd.VStr "admin").
Proof.
  apply bootstrap_leaves_an_admin.
  - vm_compute. reflexivity.
  - vm_compute. reflexivity.
Defined.



(* ===================================================================== *)
(** ** Further properties: the pages *)
(* ===================================================================== *)

(** X12.  On the Create Course page, pressing Publish Course with an
    empty title, description or schedule shows the error of the form and
    changes nothing else: no record, no upload; with the three filled in
    the page does what [save_course] does.  A blank that is not empty
    counts as filled in. *)
Theorem create_course_requires_fields my_courses now f w :
  teacher_menu f = "Create Course" →
  publish_pressed f = true →
  ((course_name f = "" ∨ course_desc f = "" ∨ schedule f = "") →
   teacher_dashboard my_courses now f w =
     (show (st_error "Please fill required fields (*)") w, Pd.Ok tt)) ∧
  (course_name f ≠ "" → course_desc f ≠ "" → schedule f ≠ "" →
   teacher_dashboard my_courses now f w =
     save_course now (course_name f) (course_desc f) (schedule f)
       (enrollment_status f) (course_image f) (youtube_link f) w).
Proof.
  intros Hm Hp. unfold teacher_dashboard. rewrite Hm, Hp. simpl String.eqb.
  split.
  - intros H. simpl.
    destruct (course_name f), (course_desc f), (schedule f); simpl;
      try done; naive_solver.
  - intros H1 H2 H3. simpl.
    by destruct (course_name f), (course_desc f), (schedule f).
Qed.

Lemma create_course_requires_fields_witness :
  teacher_dashboard (mret tt) "2024-03-01 09:10:00" hasty_form teaching =
    (show (st_error "Please fill required fields (*)") teaching, Pd.Ok tt).
Proof.
  apply (proj1 (create_course_requires_fields (mret tt) "2024-03-01 09:10:00"
                  hasty_form teaching eq_refl eq_refl)).
  right. left. reflexivity.
Defined.

(** X13.  While nobody is logged in, a run of the script reaches no
    dashboard: whatever was typed, the files it leaves are those
    [initialize_system] leaves, and the uploads are untouched. *)
Theorem logged_out_run_only_initializes student_courses teacher_courses
    now login i w :
  logged_in (auth w) = false →
  files (after (main student_courses teacher_courses now login i) w) =
    files (after (initialize_system now) w) ∧
  uploads (after (main student_courses teacher_courses now login i) w) = uploads w.
Proof.
  intros Hout. unfold after, main, and_then.
  destruct (initialize_system_cases now w)
    as [[e ->]|(w' & -> & _ & Ha & Hu & Hs)].
  - destruct (migrate_session w) as (_ & Hu & Hs).
    rewrite (ended_init_failed e w _ Hs). done.
  - rewrite (ended_since_screen w w' Hs).
    unfold mbind, M_bind, get. rewrite Ha, Hout. change (negb false) with true. cbv iota.
    unfold login_page. destruct (login_pressed login); [|done].
    destruct (show_login_files (login_role login) (login_username login)
                (login_password login) w') as [Hf Hu'].
    unfold after in *. by rewrite Hf, Hu'.
Qed.

Lemma logged_out_run_only_initializes_witness :
  files (after (main (mret tt) (mret tt) "2024-03-01 09:00:00" admin_login leaving)
           empty_store) =
    files (after (initialize_system "2024-03-01 09:00:00") empty_store) ∧
  uploads (after (main (mret tt) (mret tt) "2024-03-01 09:00:00" admin_login leaving)
             empty_store) = uploads empty_store.
Proof.
  apply logged_out_run_only_initializes. reflexivity.
Defined.

(** X14.  When the migration cannot read a table, a run of the script
    shows the error of [initialize_system] and stops there: no login is
    handled, no dashboard is reached and the session stays as it was. *)
Theorem failed_initialization_stops_run student_courses teacher_courses
    now login i w e :
  outcome migrate w = Pd.Raise e →
  main student_courses teacher_courses now login i w =
    (init_failed e (after migrate w), Pd.Ok tt) ∧
  auth (init_failed e (after migrate w)) = auth w.
Proof.
  intros Hm. destruct (migrate_session w) as (Ha & _ & Hs). split; [|done].
  unfold main, and_then. rewrite initialize_system_run.
  unfold outcome, after in *.
  destruct (migrate w) as [w1 r1]. simpl in *. subst r1.
  by rewrite (ended_init_failed e w w1 Hs).
Qed.

Lemma failed_initialization_stops_run_witness :
  main (mret tt) (mret tt) "2024-03-01 09:00:00" admin_login leaving broken_courses =
    (init_failed Pd.EmptyDataError (after migrate broken_courses), Pd.Ok tt) ∧
  auth (init_failed Pd.EmptyDataError (after migrate broken_courses)) =
    auth broken_courses.
Proof.
  apply failed_initialization_stops_run. vm_compute. reflexivity.
Defined.

(** X15.  A session whose role is none of student, teacher and admin
    gets no page from [show_dashboard]: nothing is read or written, and
    all the user can do is log out, which resets the session and asks
    for a rerun. *)
Theorem unknown_role_is_a_dead_end student_courses teacher_courses now i w r :
  role (auth w) = Some r →
  r ≠ "student" → r ≠ "teacher" → r ≠ "admin" →
  show_dashboard student_courses teacher_courses now i w =
    (if logout_pressed i
     then show st_rerun
            (set_auth {| logged_in := false; role := None; username := None |} w)
     else w,
     Pd.Ok tt).
Proof.
  intros Hr H1 H2 H3. unfold show_dashboard.
  unfold mbind at 1. unfold M_bind, get. rewrite Hr.
  unfold and_then, route.
  destruct (String.eqb_spec r "student"); [done|].
  destruct (String.eqb_spec r "teacher"); [done|].
  destruct (String.eqb_spec r "admin"); [done|].
  unfold mret at 1. unfold M_ret. rewrite ended_since_same.
  unfold logout_button. by destruct (logout_pressed i).
Qed.

Lemma unknown_role_is_a_dead_end_witness :
  show_dashboard (mret tt) (mret tt) "2024-03-01 09:00:00" leaving
    (set_auth {| logged_in := true; role := Some "guest"; username := Some "g" |}
       booted) =
    (show st_rerun
       (set_auth {| logged_in := false; role := None; username := None |}
          (set_auth {| logged_in := true; role := Some "guest";
                       username := Some "g" |} booted)),
     Pd.Ok tt).
Proof.
  apply (unknown_role_is_a_dead_end (mret tt) (mret tt) "2024-03-01 09:00:00"
           leaving _ "guest"); [reflexivity|discriminate..].
Defined.

(* ===================================================================== *)
(** ** Further properties: the first login and the user form *)
(* ===================================================================== *)

(** X16.  On a store without Users file, a run of [initialize_system]
    whose migration succeeds is followed by a successful login with the
    default administrator's credentials, typed in any letter case and
    with any blanks around them. *)
Theorem default_admin_can_log_in now w u p r :
  files w !! USERS_FILE = None →
  outcome migrate w = Pd.Ok tt →
  Py.lower (Py.strip u) = "admin" → Py.strip p = "admin123" →
  Py.lower (Py.strip r) = "admin" →
  outcome (authenticate u p r) (after (initialize_system now) w) = Pd.Ok true.
Proof.
  intros Hnone Hok Hu Hp Hr.
  destruct (migrate_users_table w (or_introl Hnone)) as (users & Ht & Hn & Hor).
  apply (bootstrap_login now w users); try done.
  destruct Hor as [He|Htw].
  - unfold no_admin. by rewrite He.
  - destruct (table_inv _ _ _ Htw) as (lines & Hl & _). congruence.
Qed.

Lemma default_admin_can_log_in_witness :
  outcome (authenticate " Admin" "admin123 " "Admin")
          (after (initialize_system "2024-03-02 08:00:00") lost_users) = Pd.Ok true.
Proof.
  apply default_admin_can_log_in; vm_compute; reflexivity.
Defined.

(** X17.  The user form does not keep usernames unique.  It tests the
    name as typed and stores it trimmed: a name that a row already holds,
    typed with blanks around it so that no stored name equals it in lower
    case, passes the test, and a second record with the stored name is
    appended.  This is for a Users table under the standard header whose
    username column holds text and whose keys are integers. *)
Theorem padded_username_is_stored_twice now f w users lu i z l :
  choice f = "User Management" → create_user f = true →
  table USERS_FILE w = Pd.Ok users →
  Pd.names users = users_header →
  Pd.getitem users "username" = Pd.Ok (Pd.SObj lu) →
  Pd.getitem users "user_id" = Pd.Ok (Pd.SInt (z :: l)) →
  lu !! i = Some (Some (Py.strip (new_username f))) →
  (∀ j s, lu !! j = Some (Some s) → Py.lower s ≠ Py.lower (new_username f)) →
  new_username f ≠ "" → new_password f ≠ "" →
  confirm_password f = new_password f →
  ∃ lines key,
    files w !! USERS_FILE = Some lines ∧
    files (after (admin_dashboard now f) w) !! USERS_FILE =
      Some (lines ++ [[key; Py.strip (new_username f); new_password f;
                       Py.lower (new_role f); now]]) ∧
    last (screen (after (admin_dashboard now f) w)) = Some st_rerun.
Proof.
  intros Hch Hcr Ht Hn Hu Hid Hi Hno Hnu Hnp Hconf.
  destruct (table_inv _ _ _ Ht) as (lines & Hl & Hparse).
  destruct (users_frame lines users Hparse Hn) as [recs Hrecs].
  assert (Pd.empty users = false) as He.
  { subst users. rewrite users_empty. destruct recs; [|done].
    destruct (users_columns []) as (Hid' & _). rewrite Hid' in Hid. done. }
  unfold after. rewrite admin_dashboard_run by done. rewrite Ht.
  assert (∃ shown, getitems users ["username"; "role"; "created_at"] = Pd.Ok shown)
    as [shown ->].
  { subst users. destruct (users_columns recs) as (_ & Hgu & _ & Hgr & Hgc).
    cbn [getitems]. rewrite Hgu, Hgr, Hgc. simpl. eauto. }
  cbv zeta. rewrite Hcr, Hconf, String.eqb_refl.
  assert (forallb Py.truthy [new_username f; new_password f; new_password f] = true)
    as ->.
  { simpl. destruct (new_username f); [done|]. by destruct (new_password f). }
  simpl negb. cbv iota.
  rewrite (username_taken_none users lu (new_username f) Hu Hno).
  rewrite (next_user_id_int users z l He Hid).
  exists lines, (Py.str_int (Np.add64 (Pd.list_max z l) 1)).
  split; [done|].
  unfold user_created, user_line, show, set_files.
  cbn [fst files uploads auth screen].
  rewrite lookup_insert_eq, cell_text_int, last_snoc. split; [|done].
  unfold lookup in Hl |- *. by rewrite Hl.
Qed.

Lemma padded_username_is_stored_twice_witness :
  ∃ lines key,
    files booted !! USERS_FILE = Some lines ∧
    files (after (admin_dashboard "2024-03-01 09:05:00" padded_form) booted)
      !! USERS_FILE =
      Some (lines ++ [[key; Py.strip (new_username padded_form);
                       new_password padded_form;
                       Py.lower (new_role padded_form); "2024-03-01 09:05:00"]]) ∧
    last (screen (after (admin_dashboard "2024-03-01 09:05:00" padded_form) booted)) =
      Some st_rerun.
Proof.
  apply (padded_username_is_stored_twice "2024-03-01 09:05:00" padded_form booted
           (Pd.frame_of users_header
              [["1"; "admin"; "admin123"; "admin"; "2024-03-01 09:00:00"]])
           [Some "admin"] 0 1 []); try (vm_compute; reflexivity); try done.
  intros [|j] s Hs; [|done]. injection Hs as <-. vm_compute. discriminate.
Defined.

(** X18.  The key of a user the form creates is one more than the
    largest stored key, so it is larger than every stored key.  This is
    for a readable Users table whose keys are 64-bit integers below the
    largest one. *)
Theorem created_user_key_is_fresh now f w users z l :
  choice f = "User Management" →
  table USERS_FILE w = Pd.Ok users →
  Pd.getitem users "user_id" = Pd.Ok (Pd.SInt (z :: l)) →
  Np.int64_min ≤ Pd.list_max z l < Np.int64_max →
  (files (after (admin_dashboard now f) w) !! USERS_FILE = files w !! USERS_FILE ∨
   ∃ lines,
     files w !! USERS_FILE = Some lines ∧
     files (after (admin_dashboard now f) w) !! USERS_FILE =
       Some (lines ++ [[Py.str_int (Pd.list_max z l + 1);
                        Py.strip (new_username f); new_password f;
                        Py.lower (new_role f); now]])) ∧
  ∀ k, k ∈ z :: l → k < Pd.list_max z l + 1.
Proof.
  intros Hch Ht Hid Hmax. split.
  2:{ intros k Hk. pose proof (list_max_upper z l k Hk). lia. }
  destruct (table_inv _ _ _ Ht) as (lines & Hl & Hparse).
  assert (Pd.empty users = false) as He.
  { pose proof (table_well_formed _ _ _ Ht) as Hwf.
    pose proof (getitem_size _ _ _ Hwf Hid) as Hs.
    unfold Pd.empty. unfold Pd.getitem in Hid.
    destruct (Pd.columns users); [done|]. simpl in Hs.
    destruct (Pd.index users); [done|done]. }
  unfold after. rewrite admin_dashboard_run by done. rewrite Ht.
  destruct (getitems users _) as [shown|e]; [|by left]. cbv zeta.
  destruct (create_user f); [|by left].
  destruct (negb (forallb Py.truthy _)); [by left|].
  destruct (negb (String.eqb _ _)); [by left|].
  destruct (username_taken users (new_username f)) as [[]|e]; [by left| |by left].
  rewrite (next_user_id_int users z l He Hid).
  right. exists lines. split; [done|].
  rewrite add64_next by lia.
  unfold user_created, user_line, show, set_files.
  cbn [fst files uploads auth screen].
  rewrite lookup_insert_eq, cell_text_int.
  unfold lookup in Hl |- *. by rewrite Hl.
Qed.

Lemma created_user_key_is_fresh_witness :
  (files (after (admin_dashboard "2024-03-01 09:05:00" tina_form) booted)
     !! USERS_FILE = files booted !! USERS_FILE ∨
   ∃ lines,
     files booted !! USERS_FILE = Some lines ∧
     files (after (admin_dashboard "2024-03-01 09:05:00" tina_form) booted)
       !! USERS_FILE =
       Some (lines ++ [[Py.str_int (Pd.list_max 1 [] + 1);
                        Py.strip (new_username tina_form); new_password tina_form;
                        Py.lower (new_role tina_form); "2024-03-01 09:05:00"]])) ∧
  ∀ k, k ∈ [1] → k < Pd.list_max 1 [] + 1.
Proof.
  apply (created_user_key_is_fresh "2024-03-01 09:05:00" tina_form booted
           (Pd.frame_of users_header
              [["1"; "admin"; "admin123"; "admin"; "2024-03-01 09:00:00"]])).
  - reflexivity.
  - vm_compute. reflexivity.
  - vm_compute. reflexivity.
  - vm_compute. split; [discriminate|reflexivity].
Defined.

(** X19.  When the name typed in the user form equals, letter case
    apart and as it was typed, the text of a username cell of the Users
    table, pressing Create User ends in an error message of the form and
    leaves every file as it was.  This is for a covered Users file and
    an ASCII name. *)
Theorem typed_duplicate_is_refused now f w users u r c i su :
  covered_users w = true →
  is_ascii (new_username f) = true →
  choice f = "User Management" →
  create_user f = true →
  table USERS_FILE w = Pd.Ok users →
  Pd.getitem users "username" = Pd.Ok u →
  Pd.getitem users "role" = Pd.Ok r →
  Pd.getitem users "created_at" = Pd.Ok c →
  Pd.item u i = Some (Pd.VStr su) →
  Py.lower su = Py.lower (new_username f) →
  admin_dashboard now f w =
    (show (st_error (refusal f))
       (show (st_dataframe
                {| Pd.columns := [("username", u); ("role", r); ("created_at", c)];
                   Pd.index := Pd.index users |}) w),
     Pd.Ok tt) ∧
  files (after (admin_dashboard now f) w) = files w ∧
  table USERS_FILE (after (admin_dashboard now f) w) = Pd.Ok users.
Proof.
  intros _ _ Hch Hcr Ht Hu Hr Hc Hi E.
  assert (admin_dashboard now f w =
    (show (st_error (refusal f))
       (show (st_dataframe
                {| Pd.columns := [("username", u); ("role", r); ("created_at", c)];
                   Pd.index := Pd.index users |}) w),
     Pd.Ok tt)) as Hrun.
  { unfold admin_dashboard. rewrite Hch, String.eqb_refl.
    unfold mbind at 1. unfold M_bind. rewrite read_csv_run, Ht.
    unfold getitems. rewrite Hu, Hr, Hc. simpl Pd.bind.
    unfold mbind at 1. unfold M_bind, lift.
    unfold mbind at 1. unfold M_bind, modify.
    rewrite Hcr. unfold refusal.
    destruct (negb (forallb Py.truthy _)); [done|].
    destruct (negb (String.eqb _ _)); [done|].
    unfold mbind, M_bind.
    by rewrite (username_taken_match users u i su (new_username f) Hu Hi E). }
  split; [done|]. unfold after. rewrite Hrun. simpl. split; [done|].
  rewrite <- Ht. by apply table_files.
Qed.

Lemma typed_duplicate_is_refused_witness :
  admin_dashboard "2024-03-01 09:30:00" shouting_form booted =
    (show (st_error "Username already exists!")
       (show (st_dataframe
                {| Pd.columns :=
                     [("username", Pd.SObj [Some "admin"]);
                      ("role", Pd.SObj [Some "admin"]);
                      ("created_at", Pd.SObj [Some "2024-03-01 09:00:00"])];
                   Pd.index := 1 |}) booted),
     Pd.Ok tt) ∧
  files (after (admin_dashboard "2024-03-01 09:30:00" shouting_form) booted) =
    files booted.
Proof.
  pose proof (typed_duplicate_is_refused "2024-03-01 09:30:00" shouting_form booted
           (Pd.frame_of users_header
              [["1"; "admin"; "admin123"; "admin"; "2024-03-01 09:00:00"]])
           (Pd.SObj [Some "admin"]) (Pd.SObj [Some "admin"])
           (Pd.SObj [Some "2024-03-01 09:00:00"]) 0%nat "admin"
           eq_refl eq_refl eq_refl eq_refl eq_refl eq_refl eq_refl eq_refl
           eq_refl eq_refl)
    as (H1 & H2 & _).
  split; [exact H1|exact H2].
Defined.
